(** * label-checker: a shallow embedding of the QC pipeline core

    The development follows the Python sources of [qc_pipeline]:

    - [data_loader.py]      ~> [DataLoader]
    - [image_utils.py]      ~> [ImageUtils]
    - [gemini_validator.py] ~> [GeminiValidator]
    - [run_validation.py]   ~> [RunValidation]

    Python values that arrive from JSON are kept dynamically typed
    ([pyval]); exceptions are explicit ([result]); floats are IEEE 754
    binary64 values in the sense of the standard library's [SpecFloat]. *)

From Stdlib Require Import ZArith List String Ascii Bool Lia.
From Stdlib Require Import Floats.SpecFloat.
Import ListNotations.

Set Warnings "-register-all".

Local Open Scope string_scope.
Local Open Scope list_scope.
Local Open Scope Z_scope.

(* ================================================================== *)
(** * Python runtime: exceptions, values, numbers, strings *)
(* ================================================================== *)

Module Py.

(** [float] is a binary64 value: signed zeros, infinities, NaN, and
    finite values [(-1)^s * m * 2^e]. *)
Definition float : Type := spec_float.

(** JSON-shaped Python objects.  A [dict] keeps insertion order and is
    keyed by strings, as every object produced by [json.load] is. *)
Inductive pyval : Type :=
| VNone
| VBool (b : bool)
| VInt (z : Z)
| VFloat (f : float)
| VStr (s : string)
| VList (l : list pyval)
| VDict (d : list (string * pyval)).

(** The [ValueError]s raised in the sources, one constructor per
    [raise] site (or per library call that raises one). *)
Inductive value_error : Type :=
| Missing_candidates
| Missing_content_parts
| Missing_text_output
| Not_valid_JSON (text : string)
| Missing_prediction_label
| Missing_numeric_confidence
| Polygon_empty
| Missing_bbox_and_polygon (annotation_id : pyval)
| Float_NaN_to_int
| Crop_right_less_than_left
| Crop_lower_less_than_upper
| Format_string_error.

Inductive exn : Type :=
| ValueError (why : value_error)
| RequestException
| AttributeError
| TypeError
| KeyError (key : string)
| IndexError
| OverflowError
| ZeroDivisionError.

(** Outcome of a Python call: an exception or a value. *)
Definition result (A : Type) : Type := (exn + A)%type.

Definition ret {A} (a : A) : result A := inr a.
Definition raise {A} (e : exn) : result A := inl e.
Definition bind {A B} (c : result A) (k : A -> result B) : result B :=
  match c with
  | inl e => inl e
  | inr a => k a
  end.

End Py.

Export Py.

Declare Scope py_scope.
Delimit Scope py_scope with py.
Notation "x <- c ;; k" := (bind c (fun x => k))
  (at level 61, c at next level, right associativity) : py_scope.
Notation "' p <- c ;; k" := (bind c (fun p => k))
  (at level 61, p pattern, c at next level, right associativity) : py_scope.
Local Open Scope py_scope.

(* ------------------------------------------------------------------ *)
(** ** Truthiness, [len], [dict.get] *)

Module PyOps.

Definition float_is_zero (f : float) : bool :=
  match f with
  | S754_zero _ => true
  | _ => false
  end.

(** [bool(v)]. *)
Definition truthy (v : pyval) : bool :=
  match v with
  | VNone => false
  | VBool b => b
  | VInt z => negb (z =? 0)
  | VFloat f => negb (float_is_zero f)
  | VStr s => negb (s =? EmptyString)%string
  | VList l => match l with [] => false | _ => true end
  | VDict d => match d with [] => false | _ => true end
  end.

Definition len {A} (l : list A) : Z := Z.of_nat (List.length l).

(** [sys.maxsize] on a 64-bit build: no sequence is longer. *)
Definition sys_maxsize : Z := 2 ^ 63 - 1.

(** [len(v)]: defined on sized objects only. *)
Definition py_len (v : pyval) : result Z :=
  match v with
  | VList l => ret (len l)
  | VStr s => ret (Z.of_nat (String.length s))
  | VDict d => ret (len d)
  | _ => raise TypeError
  end.

Fixpoint assoc (d : list (string * pyval)) (k : string) : option pyval :=
  match d with
  | [] => None
  | (k', v) :: d' => if (k' =? k)%string then Some v else assoc d' k
  end.

(** [v.get(k, default)]: only a [dict] has the method. *)
Definition py_get (v : pyval) (k : string) (default : pyval) : result pyval :=
  match v with
  | VDict d => ret (match assoc d k with Some x => x | None => default end)
  | _ => raise AttributeError
  end.

(** [v[k]] on a mapping. *)
Definition py_getitem (v : pyval) (k : string) : result pyval :=
  match v with
  | VDict d => match assoc d k with Some x => ret x | None => raise (KeyError k) end
  | _ => raise TypeError
  end.

(** [v[0]]: first element of a list, first character of a string; a
    [dict] produced from JSON has no integer key. *)
Definition py_first (v : pyval) : result pyval :=
  match v with
  | VList (x :: _) => ret x
  | VList [] => raise IndexError
  | VStr (String c _) => ret (VStr (String c EmptyString))
  | VStr EmptyString => raise IndexError
  | VDict _ => raise (KeyError "0")
  | _ => raise TypeError
  end.

(** [a or b]. *)
Definition py_or (a b : pyval) : pyval := if truthy a then a else b.

(** [for entry in v]: lists yield their items, strings their
    characters, dicts their keys. *)
Definition py_iter (v : pyval) : result (list pyval) :=
  match v with
  | VList l => ret l
  | VStr s => ret (map (fun c => VStr (String c EmptyString)) (list_ascii_of_string s))
  | VDict d => ret (map (fun kv => VStr (fst kv)) d)
  | _ => raise TypeError
  end.

(** [isinstance(v, (int, float))]; [bool] is a subclass of [int]. *)
Definition is_number (v : pyval) : bool :=
  match v with
  | VBool _ | VInt _ | VFloat _ => true
  | _ => false
  end.

Definition is_str (v : pyval) : bool :=
  match v with
  | VStr _ => true
  | _ => false
  end.

Definition is_list (v : pyval) : bool :=
  match v with
  | VList _ => true
  | _ => false
  end.

End PyOps.

Export PyOps.

(* ------------------------------------------------------------------ *)
(** ** Strings

    A [str] is the sequence of its code points; the embedding covers
    code points below 256, one [ascii] each. *)

Module PyStr.

(** [str.isspace] on a single code point below 256. *)
Definition is_space (c : ascii) : bool :=
  let n := N_of_ascii c in
  (((9 <=? n) && (n <=? 13)) || ((28 <=? n) && (n <=? 32))
   || (n =? 133) || (n =? 160))%N.

Fixpoint lstrip (s : string) : string :=
  match s with
  | EmptyString => EmptyString
  | String c s' => if is_space c then lstrip s' else s
  end.

Fixpoint rstrip (s : string) : string :=
  match s with
  | EmptyString => EmptyString
  | String c s' =>
      match rstrip s' with
      | EmptyString => if is_space c then EmptyString else String c EmptyString
      | r => String c r
      end
  end.

(** [s.strip()]. *)
Definition strip (s : string) : string := rstrip (lstrip s).

(** [s[n:]]. *)
Fixpoint drop (n : nat) (s : string) : string :=
  match n, s with
  | O, _ => s
  | S n', String _ s' => drop n' s'
  | S _, EmptyString => EmptyString
  end.

(** [s[:n]] for [n >= 0]. *)
Fixpoint take (n : nat) (s : string) : string :=
  match n, s with
  | S n', String c s' => String c (take n' s')
  | _, _ => EmptyString
  end.

(** [s[:-n]] for [n > 0]. *)
Definition drop_last (n : nat) (s : string) : string :=
  take (String.length s - n) s.

Definition startswith (s p : string) : bool := String.prefix p s.

Definition endswith (s p : string) : bool :=
  (String.length p <=? String.length s)%nat
  && (drop (String.length s - String.length p) s =? p)%string.

Definition LF : string := String (ascii_of_nat 10) EmptyString.
Definition QUOTE : string := String (ascii_of_nat 34) EmptyString.

End PyStr.

Export PyStr.

(* ------------------------------------------------------------------ *)
(** ** Numbers: [int], and [float] as binary64 *)

Module Binary64.

Definition prec : Z := 53.
Definition emax : Z := 1024.

Definition fadd : float -> float -> float := SFadd prec emax.
Definition fsub : float -> float -> float := SFsub prec emax.
Definition fdiv : float -> float -> float := SFdiv prec emax.

(** Nearest binary64 (ties to even) of the integer [z]. *)
Definition float_of_Z (z : Z) : float := binary_normalize prec emax z 0 false.

(** Nearest binary64 (ties to even) of the rational [n / d]. *)
Definition float_of_ratio (n : Z) (d : positive) : float :=
  match n with
  | Z0 => S754_zero false
  | Zpos a =>
      let '(q, e, l) := SFdiv_core_binary prec emax (Zpos a) 0 (Zpos d) 0 in
      binary_round_aux prec emax false q e l
  | Zneg a =>
      let '(q, e, l) := SFdiv_core_binary prec emax (Zpos a) 0 (Zpos d) 0 in
      binary_round_aux prec emax true q e l
  end.

Definition fzero : float := S754_zero false.          (* 0.0 *)
Definition fone : float := float_of_Z 1.              (* 1.0 *)

(** Magnitudes from here on round to an infinity:
    [2^1024 - 2^970] is half an ulp above the largest finite binary64. *)
Definition overflow_bound : Z := 2 ^ 1024 - 2 ^ 970.

(** [float(z)] for an [int]. *)
Definition float_of_int (z : Z) : result float :=
  if Z.abs z <? overflow_bound then ret (float_of_Z z) else raise OverflowError.

(** [float(b)] for a [bool]. *)
Definition float_of_bool (b : bool) : float := if b then fone else fzero.

(** [a / b] on [int]s: correctly rounded true division. *)
Definition int_truediv (a b : Z) : result float :=
  match b with
  | Z0 => raise ZeroDivisionError
  | Zpos d =>
      if Z.abs a <? overflow_bound * Zpos d then ret (float_of_ratio a d)
      else raise OverflowError
  | Zneg d =>
      if Z.abs a <? overflow_bound * Zpos d then ret (float_of_ratio (- a) d)
      else raise OverflowError
  end.

(** [x / n] for a [float] [x] and an [int] [n]: [n] is converted first;
    the converted divisor is [0.0] exactly when [n] is [0]. *)
Definition float_truediv_int (x : float) (n : Z) : result float :=
  d <- float_of_int n ;;
  if n =? 0 then raise ZeroDivisionError else ret (fdiv x d).

(** [int(f)]: truncation toward zero. *)
Definition int_of_float (f : float) : result Z :=
  match f with
  | S754_zero _ => ret 0
  | S754_infinity _ => raise OverflowError
  | S754_nan => raise (ValueError Float_NaN_to_int)
  | S754_finite s m e =>
      let a := if 0 <=? e then Zpos m * 2 ^ e else Zpos m / 2 ^ (- e) in
      ret (if s then - a else a)
  end.

(** The integer [(-1)^s * m * 2^(e - e0)], for [e0 <= e]. *)
Definition scaled (s : bool) (m : positive) (e e0 : Z) : Z :=
  let a := Zpos m * 2 ^ (e - e0) in if s then - a else a.

(** [x ? y] between an [int] and a [float] is exact in Python. *)
Definition compare_Z_float (z : Z) (f : float) : option comparison :=
  match f with
  | S754_nan => None
  | S754_infinity s => Some (if s then Gt else Lt)
  | S754_zero _ => Some (Z.compare z 0)
  | S754_finite s m e =>
      Some (let e0 := Z.min 0 e in
            Z.compare (z * 2 ^ (0 - e0)) (scaled s m e e0))
  end.

End Binary64.

Export Binary64.

Module Num.

(** A coordinate: Python [int] or [float]. *)
Inductive num : Type :=
| NInt (z : Z)
| NFloat (f : float).

(** The numeric reading of a JSON value ([True] is [1], [False] is [0]). *)
Definition as_num (v : pyval) : option num :=
  match v with
  | VBool b => Some (NInt (Z.b2z b))
  | VInt z => Some (NInt z)
  | VFloat f => Some (NFloat f)
  | _ => None
  end.

Fixpoint as_nums (l : list pyval) : option (list num) :=
  match l with
  | [] => Some []
  | v :: l' =>
      match as_num v, as_nums l' with
      | Some n, Some ns => Some (n :: ns)
      | _, _ => None
      end
  end.

(** [a + b]. *)
Definition num_add (a b : num) : result num :=
  match a, b with
  | NInt x, NInt y => ret (NInt (x + y))
  | NInt x, NFloat g => f <- float_of_int x ;; ret (NFloat (fadd f g))
  | NFloat f, NInt y => g <- float_of_int y ;; ret (NFloat (fadd f g))
  | NFloat f, NFloat g => ret (NFloat (fadd f g))
  end.

(** [a - z] for an [int] [z]. *)
Definition num_sub_int (a : num) (z : Z) : result num :=
  match a with
  | NInt x => ret (NInt (x - z))
  | NFloat f => g <- float_of_int z ;; ret (NFloat (fsub f g))
  end.

(** [int(a)]. *)
Definition py_int (a : num) : result Z :=
  match a with
  | NInt z => ret z
  | NFloat f => int_of_float f
  end.

Definition num_compare (a b : num) : option comparison :=
  match a, b with
  | NInt x, NInt y => Some (Z.compare x y)
  | NInt x, NFloat g => compare_Z_float x g
  | NFloat f, NInt y => option_map CompOpp (compare_Z_float y f)
  | NFloat f, NFloat g => SFcompare f g
  end.

(** [a < b]; every comparison with NaN is false. *)
Definition num_lt (a b : num) : bool :=
  match num_compare a b with
  | Some Lt => true
  | _ => false
  end.

(** [min(x, *xs)] and [max(x, *xs)]: the running best is replaced only
    by a strictly smaller (larger) item. *)
Definition py_min (x : num) (xs : list num) : num :=
  fold_left (fun best item => if num_lt item best then item else best) xs x.

Definition py_max (x : num) (xs : list num) : num :=
  fold_left (fun best item => if num_lt best item then item else best) xs x.

End Num.

Export Num.

(* ================================================================== *)
(** * data_loader.py *)
(* ================================================================== *)

Module DataLoader.

(** The dataclasses store whatever object the JSON document holds; the
    field types of the source are annotations, not checks. *)
Record Category : Type := {
  category_ident : pyval;
  name : pyval;
  supercategory : pyval
}.

Record ImageInfo : Type := {
  image_ident : pyval;
  file_name : pyval;
  declared_width : pyval;
  declared_height : pyval
}.

Record Annotation : Type := {
  id : pyval;
  image_id : pyval;
  category_id : pyval;
  bbox : pyval;
  segmentation : pyval;
  area : pyval;
  iscrowd : pyval
}.

(** [Annotation.has_polygon]: [bool(self.segmentation)]. *)
Definition has_polygon (a : Annotation) : bool := truthy (segmentation a).

(** [Annotation.has_bbox]: [bool(self.bbox) and len(self.bbox) == 4]. *)
Definition has_bbox (a : Annotation) : result bool :=
  if truthy (bbox a) then n <- py_len (bbox a) ;; ret (n =? 4)
  else ret false.

Record CocoDataset : Type := {
  categories : list (pyval * Category);
  images : list (pyval * ImageInfo);
  annotations : list Annotation
}.

Fixpoint for_each {A B} (f : A -> result B) (l : list A) : result (list B) :=
  match l with
  | [] => ret []
  | x :: l' => y <- f x ;; ys <- for_each f l' ;; ret (y :: ys)
  end.

(** Lines 120-121: a non-empty list whose first item is a number is
    wrapped into a one-element list. *)
Definition normalize_segmentation (segmentation : pyval) : pyval :=
  match segmentation with
  | VList (first :: _) =>
      if is_number first then VList [segmentation] else segmentation
  | _ => segmentation
  end.

(** One turn of the loop at lines 117-132. *)
Definition load_annotation (entry : pyval) : result Annotation :=
  segmentation <- py_get entry "segmentation" VNone ;;
  let segmentation := normalize_segmentation segmentation in
  id <- py_getitem entry "id" ;;
  image_id <- py_getitem entry "image_id" ;;
  category_id <- py_getitem entry "category_id" ;;
  bbox <- py_get entry "bbox" VNone ;;
  area <- py_get entry "area" VNone ;;
  iscrowd <- py_get entry "iscrowd" VNone ;;
  ret {| id := id; image_id := image_id; category_id := category_id;
         bbox := bbox; segmentation := segmentation;
         area := area; iscrowd := iscrowd |}.

Definition load_category (entry : pyval) : result (pyval * Category) :=
  key <- py_getitem entry "id" ;;
  id <- py_getitem entry "id" ;;
  name <- py_getitem entry "name" ;;
  supercategory <- py_get entry "supercategory" VNone ;;
  ret (key, {| category_ident := id; name := name;
               supercategory := supercategory |}).

Definition load_image (entry : pyval) : result (pyval * ImageInfo) :=
  key <- py_getitem entry "id" ;;
  id <- py_getitem entry "id" ;;
  file_name <- py_getitem entry "file_name" ;;
  width <- py_getitem entry "width" ;;
  height <- py_getitem entry "height" ;;
  ret (key, {| image_ident := id; file_name := file_name;
               declared_width := width; declared_height := height |}).

(** [load_coco_dataset], from the decoded JSON document on.  The two
    dict comprehensions are kept as the sequence of their (key, value)
    pairs in source order; the optional URL, licence and date fields of
    [ImageInfo] are left out. *)
Definition load_coco_dataset (coco : pyval) : result CocoDataset :=
  cs <- py_get coco "categories" (VList []) ;;
  cs <- py_iter cs ;;
  categories <- for_each load_category cs ;;
  ims <- py_get coco "images" (VList []) ;;
  ims <- py_iter ims ;;
  images <- for_each load_image ims ;;
  anns <- py_get coco "annotations" (VList []) ;;
  anns <- py_iter anns ;;
  annotations <- for_each load_annotation anns ;;
  ret {| categories := categories; images := images;
         annotations := annotations |}.

(** Shapes of a segmentation value. *)
Definition is_numeric_list (v : pyval) : bool :=
  match v with
  | VList l => forallb is_number l
  | _ => false
  end.

Definition is_list_of_lists (v : pyval) : bool :=
  match v with
  | VList ll => forallb is_list ll
  | _ => false
  end.

Definition is_polygon_list (v : pyval) : bool :=
  match v with
  | VList ll => forallb is_numeric_list ll
  | _ => false
  end.

End DataLoader.

(* ================================================================== *)
(** * Pillow images, as far as [crop_annotation] uses them *)
(* ================================================================== *)

Module PIL.

Inductive mode : Type := L | RGB | RGBA.

(** One value per band. *)
Definition pixel : Type := list Z.

Record Image : Type := {
  mode_of : mode;
  width : Z;
  height : Z;
  getpixel : Z -> Z -> pixel
}.

Definition bands (m : mode) : nat :=
  match m with
  | L => 1
  | RGB => 3
  | RGBA => 4
  end.

Definition inside (image : Image) (x y : Z) : bool :=
  (0 <=? x) && (x <? width image) && (0 <=? y) && (y <? height image).

(** [Image.new(mode, size, color)]. *)
Definition new (m : mode) (w h : Z) (color : pixel) : Image :=
  {| mode_of := m; width := w; height := h; getpixel := fun _ _ => color |}.

(** The pixels of [image] seen through the window [x0 <= x < x1],
    [y0 <= y < y1]; outside the image every band is zero. *)
Definition window (image : Image) (x0 y0 x1 y1 : Z) : Image :=
  {| mode_of := mode_of image;
     width := x1 - x0;
     height := y1 - y0;
     getpixel := fun i j =>
       if inside image (x0 + i) (y0 + j)
       then getpixel image (x0 + i) (y0 + j)
       else repeat 0 (bands (mode_of image)) |}.

(** [image.crop((left, upper, right, lower))]: the region is half-open;
    an inverted box is refused. *)
Definition crop (image : Image) (box : Z * Z * Z * Z) : result Image :=
  let '(x0, y0, x1, y1) := box in
  if x1 <? x0 then raise (ValueError Crop_right_less_than_left)
  else if y1 <? y0 then raise (ValueError Crop_lower_less_than_upper)
  else ret (window image x0 y0 x1 y1).

(** [image.convert("RGBA")]. *)
Definition convert_RGBA (image : Image) : Image :=
  {| mode_of := RGBA; width := width image; height := height image;
     getpixel := fun i j =>
       match mode_of image, getpixel image i j with
       | RGB, [r; g; b] => [r; g; b; 255]
       | L, [v] => [v; v; v; 255]
       | _, p => p
       end |}.

(** [image.putalpha(mask)] on an RGBA image, [mask] of mode L. *)
Definition putalpha (image mask : Image) : Image :=
  {| mode_of := mode_of image; width := width image; height := height image;
     getpixel := fun i j =>
       firstn 3 (getpixel image i j) ++ firstn 1 (getpixel mask i j) |}.

End PIL.

(* ================================================================== *)
(** * image_utils.py *)
(* ================================================================== *)

Module ImageUtils.

Import DataLoader.

Record CropConfig : Type := {
  padding : Z;
  mask_polygon : bool;
  background_color : Z * Z * Z * Z
}.

(** [CropConfig()]. *)
Definition default_config : CropConfig :=
  {| padding := 0; mask_polygon := true; background_color := (0, 0, 0, 0) |}.

Definition box : Type := (Z * Z * Z * Z)%type.
Definition region : Type := (num * num * num * num)%type.

(** Coordinates are read as numbers.  A bbox or polygon holding anything
    else is outside the declared field types ([Sequence[float]],
    [Sequence[Sequence[float]]]); where Python would go on to compare,
    add or convert such objects the embedding reports [TypeError] and
    does not follow it further. *)
Definition numbers (l : list pyval) : result (list num) :=
  match as_nums l with
  | Some ns => ret ns
  | None => raise TypeError
  end.

(** The loops of [_polygon_bbox]: values at even positions go to [xs],
    the others to [ys]. *)
Fixpoint enumerate_xy (i : Z) (segment : list pyval) (xs ys : list pyval)
  : list pyval * list pyval :=
  match segment with
  | [] => (xs, ys)
  | value :: rest =>
      if i mod 2 =? 0 then enumerate_xy (i + 1) rest (xs ++ [value]) ys
      else enumerate_xy (i + 1) rest xs (ys ++ [value])
  end.

Fixpoint collect_xy (segments : list pyval) (xs ys : list pyval)
  : result (list pyval * list pyval) :=
  match segments with
  | [] => ret (xs, ys)
  | segment :: rest =>
      values <- py_iter segment ;;
      let '(xs', ys') := enumerate_xy 0 values xs ys in
      collect_xy rest xs' ys'
  end.

Definition _polygon_bbox (segments : pyval) : result region :=
  segments <- py_iter segments ;;
  '(xs, ys) <- collect_xy segments [] [] ;;
  match xs, ys with
  | _ :: _, _ :: _ =>
      xs <- numbers xs ;;
      ys <- numbers ys ;;
      match xs, ys with
      | x :: xs, y :: ys =>
          ret (py_min x xs, py_min y ys, py_max x xs, py_max y ys)
      | _, _ => raise (ValueError Polygon_empty)
      end
  | _, _ => raise (ValueError Polygon_empty)
  end.

Definition _expand_box (left top right bottom : num)
                       (padding width height : Z) : result box :=
  let pad := Z.max 0 padding in
  l <- py_int left ;;
  t <- py_int top ;;
  r <- py_int right ;;
  b <- py_int bottom ;;
  ret (Z.max (l - pad) 0, Z.max (t - pad) 0,
       Z.min (r + pad) width, Z.min (b + pad) height).

(** Lines 58-66 of [crop_annotation]: the region in pixel space. *)
Definition source_region (annotation : Annotation) : result region :=
  hb <- has_bbox annotation ;;
  if hb then
    match bbox annotation with
    | VList [x; y; w; h] =>
        match as_num x, as_num y, as_num w, as_num h with
        | Some x, Some y, Some w, Some h =>
            right <- num_add x w ;;
            bottom <- num_add y h ;;
            ret (x, y, right, bottom)
        | _, _, _, _ => raise TypeError
        end
    | _ => raise TypeError
    end
  else if has_polygon annotation then
    _polygon_bbox (py_or (segmentation annotation) (VList []))
  else raise (ValueError (Missing_bbox_and_polygon (id annotation))).

(** Lines 58-70: the integer rectangle handed to [image.crop]. *)
Definition crop_box (image : PIL.Image) (annotation : Annotation)
                    (config : CropConfig) : result box :=
  '(x0, y0, x1, y1) <- source_region annotation ;;
  _expand_box x0 y0 x1 y1
              (padding config) (PIL.width image) (PIL.height image).

(** [len(segment)] and [segment[i]] at lines 78-80: a list gives its
    items; an empty string or dict has no index to visit. *)
Definition segment_values (segment : pyval) : result (list num) :=
  match segment with
  | VList l => numbers l
  | VStr EmptyString => ret []
  | VDict [] => ret []
  | VDict _ => raise (KeyError "0")
  | _ => raise TypeError
  end.

(** Lines 78-82: the vertices of one polygon in crop-local coordinates;
    an odd number of values runs [segment[i + 1]] off the end. *)
Fixpoint segment_points (left_i top_i : Z) (segment : list num)
  : result (list (num * num)) :=
  match segment with
  | [] => ret []
  | [x] => _ <- num_sub_int x left_i ;; raise IndexError
  | x :: y :: rest =>
      px <- num_sub_int x left_i ;;
      py <- num_sub_int y top_i ;;
      points <- segment_points left_i top_i rest ;;
      ret ((px, py) :: points)
  end.

Section Rasterizer.

(** [ImageDraw.polygon(points, fill=255)] is Pillow's: [polygon_fill
    points] is the set of pixels it paints, or the exception it raises
    for this outline.  [composite_pixel dst src] is one pixel of
    [dst.alpha_composite(src)]. *)
Variable polygon_fill : list (num * num) -> result (Z -> Z -> bool).
Variable composite_pixel : PIL.pixel -> PIL.pixel -> PIL.pixel.

Definition draw_polygon (mask : PIL.Image) (points : list (num * num))
  : result PIL.Image :=
  painted <- polygon_fill points ;;
  ret {| PIL.mode_of := PIL.mode_of mask;
         PIL.width := PIL.width mask;
         PIL.height := PIL.height mask;
         PIL.getpixel := fun i j =>
           if painted i j then [255] else PIL.getpixel mask i j |}.

Definition alpha_composite (background image : PIL.Image) : PIL.Image :=
  {| PIL.mode_of := PIL.mode_of background;
     PIL.width := PIL.width background;
     PIL.height := PIL.height background;
     PIL.getpixel := fun i j =>
       composite_pixel (PIL.getpixel background i j) (PIL.getpixel image i j) |}.

(** Lines 75-84: every polygon is drawn into the same mask. *)
Fixpoint draw_segments (mask : PIL.Image) (left_i top_i : Z)
                       (segments : list pyval) : result PIL.Image :=
  match segments with
  | [] => ret mask
  | segment :: rest =>
      values <- segment_values segment ;;
      points <- segment_points left_i top_i values ;;
      mask' <- match points with
               | [] => ret mask
               | _ => draw_polygon mask points
               end ;;
      draw_segments mask' left_i top_i rest
  end.

(** Lines 72-89: masking of the crop once its window is fixed. *)
Definition apply_mask (crop : PIL.Image) (left_i top_i : Z)
                      (annotation : Annotation) (config : CropConfig)
  : result PIL.Image :=
  let mask := PIL.new PIL.L (PIL.width crop) (PIL.height crop) [0] in
  segments <- py_iter (py_or (segmentation annotation) (VList [])) ;;
  mask <- draw_segments mask left_i top_i segments ;;
  let crop := PIL.putalpha (PIL.convert_RGBA crop) mask in
  let '(r, g, b, a) := background_color config in
  if 0 <? a then
    let background :=
      PIL.new PIL.RGBA (PIL.width crop) (PIL.height crop) [r; g; b; a] in
    ret (alpha_composite background crop)
  else ret crop.

Definition crop_annotation (image : PIL.Image) (annotation : Annotation)
                           (config : option CropConfig) : result PIL.Image :=
  let config := match config with Some c => c | None => default_config end in
  '(left_i, top_i, right_i, bottom_i) <- crop_box image annotation config ;;
  crop <- PIL.crop image (left_i, top_i, right_i, bottom_i) ;;
  if has_polygon annotation && mask_polygon config
  then apply_mask crop left_i top_i annotation config
  else ret crop.

End Rasterizer.

End ImageUtils.

(* ================================================================== *)
(** * gemini_validator.py *)
(* ================================================================== *)

Module GeminiValidator.

Record GeminiResponse : Type := {
  prediction_label : string;
  confidence : float;
  rationale : option string;
  raw_text : string
}.

Record GeminiValidator : Type := {
  api_key : string;
  model_name : string;
  base_url : string;
  temperature : float;
  top_p : option float;
  max_retries : Z;
  timeout_seconds : Z;
  prompt_template : string
}.

Definition DEFAULT_PROMPT_TEMPLATE : string :=
  ("You are validating the classification of an object crop extracted from an annotated image. "
   ++ "The expected label provided by a human annotator is: "
   ++ QUOTE ++ "{expected_label}" ++ QUOTE ++ "." ++ LF ++ LF
   ++ "Review the crop and decide whether the object's class matches the expected label. "
   ++ "Respond strictly as a JSON object with the following keys:" ++ LF
   ++ "{{" ++ LF
   ++ "  " ++ QUOTE ++ "prediction_label" ++ QUOTE ++ ": "
   ++ QUOTE ++ "<model_label>" ++ QUOTE ++ "," ++ LF
   ++ "  " ++ QUOTE ++ "confidence" ++ QUOTE
   ++ ": <number between 0 and 1>," ++ LF
   ++ "  " ++ QUOTE ++ "rationale" ++ QUOTE ++ ": "
   ++ QUOTE ++ "<optional short explanation>" ++ QUOTE ++ LF
   ++ "}}" ++ LF
   ++ "If you are unsure, pick the closest label and use a low confidence score.")%string.

(** What [requests.post] hands back: the status line and the outcome of
    [response.json()]. *)
Record Response : Type := {
  status_code : Z;
  json : result pyval
}.

(** Effects of one [validate_crop] call that the caller can observe. *)
Inductive event : Type :=
| Request (attempt : Z)
| Sleep (seconds : Z).

(** Text of the [ValueError]s raised by [_parse_candidate]. *)
Definition message (why : value_error) : option string :=
  match why with
  | Missing_candidates => Some "Gemini response missing candidates"
  | Missing_content_parts => Some "Gemini response missing content parts"
  | Missing_text_output => Some "Gemini response missing text output"
  | Not_valid_JSON text => Some ("Gemini response not valid JSON: " ++ text)%string
  | Missing_prediction_label => Some "Gemini JSON missing prediction_label string"
  | Missing_numeric_confidence => Some "Gemini JSON missing numeric confidence"
  | _ => None
  end.

(** [float(v)] for a value that passed [isinstance(v, (int, float))]. *)
Definition py_float (v : pyval) : result float :=
  match v with
  | VBool b => ret (float_of_bool b)
  | VInt z => float_of_int z
  | VFloat f => ret f
  | _ => raise TypeError
  end.

(** [v.strip()]: a method of [str]. *)
Definition py_strip (v : pyval) : result string :=
  match v with
  | VStr s => ret (strip s)
  | _ => raise AttributeError
  end.

(** Lines 115-122: removal of a markdown fence around the answer. *)
Definition strip_fences (text : string) : string :=
  let text :=
    if startswith text "```json" then drop 7 text
    else if startswith text "```" then drop 3 text
    else text in
  let text := if endswith text "```" then drop_last 3 text else text in
  strip text.

(** The handler at line 159 catches [requests.RequestException] and
    [ValueError]; anything else leaves [validate_crop] at once. *)
Definition caught (exc : exn) : bool :=
  match exc with
  | RequestException | ValueError _ => true
  | _ => false
  end.

Section Client.

(** Library and environment:
    - [format_template t label] is [t.format(expected_label=label)];
    - [b64encode] is [base64.b64encode(...).decode("utf-8")];
    - [json_loads] is [json.loads], [None] standing for
      [json.JSONDecodeError];
    - [requests_post n body] is the outcome of the [n]-th
      [requests.post] of the call, [raise RequestException] for any
      transport-level failure. *)
Variable format_template : string -> string -> result string.
Variable b64encode : string -> string.
Variable json_loads : string -> option pyval.
Variable requests_post : Z -> pyval -> result Response.

(** Lines 67-69. *)
Definition build_prompt (self : GeminiValidator) (expected_label : string)
                        (guidelines : option string) : result string :=
  prompt <- format_template (prompt_template self) expected_label ;;
  match guidelines with
  | Some g =>
      if negb (g =? EmptyString)%string
      then ret (prompt ++ LF ++ LF ++ "Guidelines:" ++ LF ++ strip g)%string
      else ret prompt
  | None => ret prompt
  end.

Definition _build_request_body (self : GeminiValidator) (crop_bytes : string)
                               (expected_label : string)
                               (guidelines : option string) : result pyval :=
  prompt <- build_prompt self expected_label guidelines ;;
  let parts :=
    [ VDict [("text", VStr prompt)];
      VDict [("inline_data",
              VDict [("mime_type", VStr "image/png");
                     ("data", VStr (b64encode crop_bytes))])] ] in
  let generation_config :=
    ("temperature", VFloat (temperature self))
    :: match top_p self with
       | Some p => [("topP", VFloat p)]
       | None => []
       end in
  ret (VDict [("contents", VList [VDict [("parts", VList parts)]]);
              ("generationConfig", VDict generation_config)]).

(** [response.raise_for_status()]: 4xx and 5xx raise [HTTPError]. *)
Definition raise_for_status (response : Response) : result unit :=
  if (400 <=? status_code response) && (status_code response <? 600)
  then raise RequestException else ret tt.

Definition _execute_request (n : Z) (body : pyval) : result pyval :=
  response <- requests_post n body ;;
  _ <- (if negb (status_code response =? 200)
        then raise_for_status response else ret tt) ;;
  json response.

(** Lines 103-113 of [_parse_candidate]: the text of the first part
    of the first candidate, trimmed. *)
Definition candidate_text (payload : pyval) : result string :=
  candidates <- py_get payload "candidates" (VList []) ;;
  if negb (truthy candidates) then raise (ValueError Missing_candidates) else
  first <- py_first candidates ;;
  content <- py_get first "content" (VDict []) ;;
  parts <- py_get content "parts" (VList []) ;;
  if negb (truthy parts) then raise (ValueError Missing_content_parts) else
  part <- py_first parts ;;
  text <- py_get part "text" (VStr EmptyString) ;;
  text <- py_strip text ;;
  if (text =? EmptyString)%string then raise (ValueError Missing_text_output)
  else ret text.

(** Lines 115-143: decoding of the answer. *)
Definition parse_text (text : string) : result GeminiResponse :=
  let text := strip_fences text in
  match json_loads text with
  | None => raise (ValueError (Not_valid_JSON text))
  | Some parsed =>
      label <- py_get parsed "prediction_label" VNone ;;
      confidence <- py_get parsed "confidence" VNone ;;
      rationale <- py_get parsed "rationale" VNone ;;
      match label with
      | VStr label =>
          if is_number confidence then
            confidence <- py_float confidence ;;
            ret {| prediction_label := label;
                   confidence := confidence;
                   rationale := match rationale with
                                | VStr r => Some r
                                | _ => None
                                end;
                   raw_text := text |}
          else raise (ValueError Missing_numeric_confidence)
      | _ => raise (ValueError Missing_prediction_label)
      end
  end.

Definition _parse_candidate (payload : pyval) : result GeminiResponse :=
  text <- candidate_text payload ;;
  parse_text text.

(** The body of the [try] at lines 157-158, on the [n]-th turn. *)
Definition try_once (body : pyval) (n : Z) : result GeminiResponse :=
  payload <- _execute_request n body ;;
  _parse_candidate payload.

(** [min(2 ** (attempt - 1), 30)]. *)
Definition sleep_seconds (attempt : Z) : Z := Z.min (2 ^ (attempt - 1)) 30.

(** The [while True] loop at lines 153-170.  [fuel] bounds the number
    of turns the model may take; [None] means it ran out.  The trace
    records the requests and the sleeps; log records are not kept. *)
Fixpoint retry_loop (self : GeminiValidator) (body : pyval) (fuel : nat)
                    (attempt : Z) (trace : list event)
  : option (list event * result GeminiResponse) :=
  match fuel with
  | O => None
  | S fuel' =>
      let attempt := attempt + 1 in
      let trace := trace ++ [Request attempt] in
      match try_once body attempt with
      | inr response => Some (trace, ret response)
      | inl exc =>
          if caught exc then
            if max_retries self <=? attempt then Some (trace, raise exc)
            else retry_loop self body fuel' attempt
                            (trace ++ [Sleep (sleep_seconds attempt)])
          else Some (trace, raise exc)
      end
  end.

Definition validate_crop (self : GeminiValidator) (fuel : nat)
                         (crop_bytes : string) (expected_label : string)
                         (guidelines : option string)
  : option (list event * result GeminiResponse) :=
  match _build_request_body self crop_bytes expected_label guidelines with
  | inl exc => Some ([], raise exc)
  | inr body => retry_loop self body fuel 0 []
  end.

End Client.

(** Number of requests sent, and the sleeps taken, in a trace. *)
Definition requests_in (trace : list event) : Z :=
  len (filter (fun e => match e with Request _ => true | _ => false end) trace).

Fixpoint sleeps_in (trace : list event) : list Z :=
  match trace with
  | [] => []
  | Sleep s :: rest => s :: sleeps_in rest
  | Request _ :: rest => sleeps_in rest
  end.

End GeminiValidator.

(* ================================================================== *)
(** * run_validation.py *)
(* ================================================================== *)

Module RunValidation.

Record ValidationEntry : Type := {
  image_id : pyval;
  annotation_id : pyval;
  expected_label : string;
  prediction_label : string;
  confidence : float;
  is_match : bool;
  rationale : option string;
  bbox : pyval;
  polygon : pyval
}.

Record ValidationSummary : Type := {
  total : Z;
  matches : Z;
  mismatches : Z;
  accuracy : float;
  average_confidence : float
}.

(** [sum(1 for entry in entries if entry.is_match)]. *)
Fixpoint count_matches (entries : list ValidationEntry) : Z :=
  match entries with
  | [] => 0
  | entry :: rest =>
      if is_match entry then 1 + count_matches rest else count_matches rest
  end.

Section Summary.

(** The builtin [sum] over a non-empty sequence of floats (a plain
    left-to-right fold, or compensated summation, depending on the
    interpreter). *)
Variable sum_floats : list float -> float.

Definition _build_summary (entries : list ValidationEntry)
  : result ValidationSummary :=
  let total := len entries in
  let matches := count_matches entries in
  let mismatches := total - matches in
  avg_conf <- (if negb (total =? 0)
               then float_truediv_int (sum_floats (map confidence entries)) total
               else ret fzero) ;;
  accuracy <- (if negb (total =? 0)
               then int_truediv matches total
               else ret fzero) ;;
  ret {| total := total; matches := matches; mismatches := mismatches;
         accuracy := accuracy; average_confidence := avg_conf |}.

End Summary.

(** Left-to-right [sum], starting from the [int] 0. *)
Definition sum_left (xs : list float) : float := fold_left fadd xs fzero.

End RunValidation.

(* ================================================================== *)
(** * Reference library functions

    Executable stand-ins for [json.loads], [str.format] and
    [base64.b64encode], used to run the embedding on concrete inputs.
    The statements about the client hold for every decoder, formatter
    and encoder; these are the ones the examples instantiate. *)
(* ================================================================== *)

Module Json.

Definition chars : Type := list ascii.

Definition code (c : ascii) : Z := Z.of_N (N_of_ascii c).

Definition is_ws (c : ascii) : bool :=
  let n := code c in (n =? 32) || (n =? 9) || (n =? 10) || (n =? 13).

Definition is_digit (c : ascii) : bool :=
  let n := code c in (48 <=? n) && (n <=? 57).

Fixpoint skip_ws (s : chars) : chars :=
  match s with
  | c :: s' => if is_ws c then skip_ws s' else s
  | [] => []
  end.

Fixpoint take_digits (s : chars) : chars * chars :=
  match s with
  | c :: s' =>
      if is_digit c then let '(ds, rest) := take_digits s' in (c :: ds, rest)
      else ([], s)
  | [] => ([], [])
  end.

Definition Z_of_digits (ds : chars) : Z :=
  fold_left (fun acc c => 10 * acc + (code c - 48)) ds 0.

(** The integer part: a single 0, or a digit 1-9 followed by digits. *)
Definition int_part (s : chars) : option (chars * chars) :=
  match s with
  | c :: s' =>
      if code c =? 48 then Some ([c], s')
      else if is_digit c then Some (take_digits s)
      else None
  | [] => None
  end.

(** The optional fraction: a dot and at least one digit. *)
Definition frac_part (s : chars) : option chars * chars :=
  match s with
  | c :: s' =>
      if code c =? 46 then
        match take_digits s' with
        | ([], _) => (None, s)
        | (ds, rest) => (Some ds, rest)
        end
      else (None, s)
  | [] => (None, s)
  end.

(** The optional exponent: e or E, an optional sign, at least one digit. *)
Definition exp_part (s : chars) : option Z * chars :=
  match s with
  | c :: s' =>
      if (code c =? 101) || (code c =? 69) then
        let '(neg, s'') :=
          match s' with
          | d :: t => if code d =? 45 then (true, t)
                      else if code d =? 43 then (false, t)
                      else (false, s')
          | [] => (false, s')
          end in
        match take_digits s'' with
        | ([], _) => (None, s)
        | (ds, rest) =>
            (Some (if neg then - Z_of_digits ds else Z_of_digits ds), rest)
        end
      else (None, s)
  | [] => (None, s)
  end.

(** [float(text)] for the decimal [(-1)^neg * m * 10^e]. *)
Definition float_of_decimal (neg : bool) (m e : Z) : float :=
  if m =? 0 then S754_zero neg
  else
    let m := if neg then - m else m in
    if 0 <=? e then float_of_ratio (m * 10 ^ e) 1
    else float_of_ratio m (Z.to_pos (10 ^ (- e))).

Definition number (s : chars) : option (pyval * chars) :=
  let '(neg, s1) :=
    match s with
    | c :: s' => if code c =? 45 then (true, s') else (false, s)
    | [] => (false, s)
    end in
  match int_part s1 with
  | None => None
  | Some (ip, s2) =>
      let '(fp, s3) := frac_part s2 in
      let '(ep, s4) := exp_part s3 in
      match fp, ep with
      | None, None =>
          Some (VInt (if neg then - Z_of_digits ip else Z_of_digits ip), s4)
      | _, _ =>
          let fd := match fp with Some ds => ds | None => [] end in
          let e := match ep with Some e => e | None => 0 end in
          Some (VFloat (float_of_decimal neg (Z_of_digits (ip ++ fd))
                                         (e - len fd)), s4)
      end
  end.

Definition hex_digit (c : ascii) : option Z :=
  let n := code c in
  if (48 <=? n) && (n <=? 57) then Some (n - 48)
  else if (97 <=? n) && (n <=? 102) then Some (n - 87)
  else if (65 <=? n) && (n <=? 70) then Some (n - 55)
  else None.

Definition char_of (n : Z) : ascii := ascii_of_N (Z.to_N n).

(** The body of a string literal, after its opening quote.  Escapes to
    code points from 256 on are not covered by [str]'s model. *)
Fixpoint string_body (s : chars) : option (string * chars) :=
  match s with
  | [] => None
  | c :: s' =>
      if code c =? 34 then Some (EmptyString, s')
      else if code c <? 32 then None
      else if code c =? 92 then
        match s' with
        | e :: s'' =>
            let simple (x : Z) :=
              match string_body s'' with
              | Some (r, rest) => Some (String (char_of x) r, rest)
              | None => None
              end in
            let n := code e in
            if n =? 34 then simple 34
            else if n =? 92 then simple 92
            else if n =? 47 then simple 47
            else if n =? 98 then simple 8
            else if n =? 102 then simple 12
            else if n =? 110 then simple 10
            else if n =? 114 then simple 13
            else if n =? 116 then simple 9
            else if n =? 117 then
              match s'' with
              | h1 :: h2 :: h3 :: h4 :: s3 =>
                  match hex_digit h1, hex_digit h2, hex_digit h3, hex_digit h4 with
                  | Some 0, Some 0, Some a, Some b =>
                      match string_body s3 with
                      | Some (r, rest) =>
                          Some (String (char_of (16 * a + b)) r, rest)
                      | None => None
                      end
                  | _, _, _, _ => None
                  end
              | _ => None
              end
            else None
        | [] => None
        end
      else
        match string_body s' with
        | Some (r, rest) => Some (String c r, rest)
        | None => None
        end
  end.

(** [d[k] = v] on an insertion-ordered dict. *)
Fixpoint dict_set (d : list (string * pyval)) (k : string) (v : pyval)
  : list (string * pyval) :=
  match d with
  | [] => [(k, v)]
  | (k', v') :: d' =>
      if (k' =? k)%string then (k, v) :: d' else (k', v') :: dict_set d' k v
  end.

Definition literal (name : string) (v : pyval) (s : chars)
  : option (pyval * chars) :=
  let n := list_ascii_of_string name in
  if (string_of_list_ascii (firstn (List.length n) s) =? name)%string
  then Some (v, skipn (List.length n) s) else None.

Fixpoint value (fuel : nat) (s : chars) : option (pyval * chars) :=
  match fuel with
  | O => None
  | S fuel' =>
      match skip_ws s with
      | [] => None
      | c :: s' =>
          let n := code c in
          if n =? 34 then
            match string_body s' with
            | Some (r, rest) => Some (VStr r, rest)
            | None => None
            end
          else if n =? 123 then
            match skip_ws s' with
            | d :: s'' =>
                if code d =? 125 then Some (VDict [], s'')
                else members fuel' (skip_ws s') []
            | [] => None
            end
          else if n =? 91 then
            match skip_ws s' with
            | d :: s'' =>
                if code d =? 93 then Some (VList [], s'')
                else elements fuel' (skip_ws s') []
            | [] => None
            end
          else if n =? 116 then literal "true" (VBool true) (c :: s')
          else if n =? 102 then literal "false" (VBool false) (c :: s')
          else if n =? 110 then literal "null" VNone (c :: s')
          else if n =? 78 then literal "NaN" (VFloat S754_nan) (c :: s')
          else if n =? 73 then
            literal "Infinity" (VFloat (S754_infinity false)) (c :: s')
          else if (n =? 45) && (match s' with
                                | i :: _ => code i =? 73
                                | [] => false
                                end) then
            literal "-Infinity" (VFloat (S754_infinity true)) (c :: s')
          else number (c :: s')
      end
  end

with elements (fuel : nat) (s : chars) (acc : list pyval)
  : option (pyval * chars) :=
  match fuel with
  | O => None
  | S fuel' =>
      match value fuel' s with
      | None => None
      | Some (v, rest) =>
          match skip_ws rest with
          | c :: rest' =>
              if code c =? 44 then elements fuel' rest' (acc ++ [v])
              else if code c =? 93 then Some (VList (acc ++ [v]), rest')
              else None
          | [] => None
          end
      end
  end

with members (fuel : nat) (s : chars) (acc : list (string * pyval))
  : option (pyval * chars) :=
  match fuel with
  | O => None
  | S fuel' =>
      match skip_ws s with
      | q :: s' =>
          if code q =? 34 then
            match string_body s' with
            | None => None
            | Some (k, rest) =>
                match skip_ws rest with
                | c :: rest' =>
                    if code c =? 58 then
                      match value fuel' rest' with
                      | None => None
                      | Some (v, rest'') =>
                          match skip_ws rest'' with
                          | e :: t =>
                              if code e =? 44
                              then members fuel' t (dict_set acc k v)
                              else if code e =? 125
                              then Some (VDict (dict_set acc k v), t)
                              else None
                          | [] => None
                          end
                      end
                    else None
                | [] => None
                end
            end
          else None
      | [] => None
      end
  end.

(** [json.loads(text)]; [None] is [json.JSONDecodeError]. *)
Definition loads (text : string) : option pyval :=
  let s := list_ascii_of_string text in
  match value (2 * List.length s + 2) s with
  | Some (v, rest) =>
      match skip_ws rest with
      | [] => Some v
      | _ => None
      end
  | None => None
  end.

End Json.

Module StrFormat.

Import Json.

(** [template.format(expected_label=label)] for templates made of
    literal text, doubled braces and named fields without conversion or
    format specification, which is what the templates of this
    repository contain.  [field] is the name being read, if any. *)
Fixpoint format_from (s : chars) (field : option chars) (label : string)
  : result string :=
  match field, s with
  | None, [] => ret EmptyString
  | None, c :: s' =>
      if code c =? 123 then
        match s' with
        | d :: s'' =>
            if code d =? 123
            then r <- format_from s'' None label ;; ret (String c r)
            else format_from s' (Some []) label
        | [] => raise (ValueError Format_string_error)
        end
      else if code c =? 125 then
        match s' with
        | d :: s'' =>
            if code d =? 125
            then r <- format_from s'' None label ;; ret (String c r)
            else raise (ValueError Format_string_error)
        | [] => raise (ValueError Format_string_error)
        end
      else r <- format_from s' None label ;; ret (String c r)
  | Some _, [] => raise (ValueError Format_string_error)
  | Some name, c :: s' =>
      if code c =? 125 then
        let name := string_of_list_ascii name in
        if (name =? "expected_label")%string
        then r <- format_from s' None label ;; ret (label ++ r)%string
        else if forallb is_digit (list_ascii_of_string name)
        then raise IndexError
        else raise (KeyError name)
      else format_from s' (Some (name ++ [c])) label
  end.

Definition format (template label : string) : result string :=
  format_from (list_ascii_of_string template) None label.

End StrFormat.

Module Base64.

Import Json.

Definition alphabet : string :=
  "ABCDEFGHIJKLMNOPQRSTUVWXYZabcdefghijklmnopqrstuvwxyz0123456789+/".

Definition PAD : ascii := ascii_of_nat 61.

Definition digit (n : Z) : ascii :=
  nth (Z.to_nat (n mod 64)) (list_ascii_of_string alphabet) PAD.

Fixpoint encode (bytes : chars) : chars :=
  match bytes with
  | [] => []
  | [a] =>
      let n := code a * 65536 in
      [digit (n / 262144); digit (n / 4096); PAD; PAD]
  | [a; b] =>
      let n := code a * 65536 + code b * 256 in
      [digit (n / 262144); digit (n / 4096); digit (n / 64); PAD]
  | a :: b :: c :: rest =>
      let n := code a * 65536 + code b * 256 + code c in
      digit (n / 262144) :: digit (n / 4096) :: digit (n / 64) :: digit n
      :: encode rest
  end.

(** [base64.b64encode(data).decode("utf-8")]. *)
Definition b64encode (data : string) : string :=
  string_of_list_ascii (encode (list_ascii_of_string data)).

End Base64.

(* ================================================================== *)
(** * Statements of the specification, and sample inputs *)
(* ================================================================== *)

Module Spec.

Import DataLoader.

(** The annotation with its bbox (its segmentation) replaced. *)
Definition set_bbox (v : pyval) (a : Annotation) : Annotation :=
  {| id := id a; image_id := image_id a; category_id := category_id a;
     bbox := v; segmentation := segmentation a;
     area := area a; iscrowd := iscrowd a |}.


(** What the loader is to store for one source entry: a flat numeric
    list wrapped as one polygon, a list of lists as it is, and in both
    cases a list of polygons. *)
Definition stored_normalized (entry : pyval) (a : Annotation) : Prop :=
  exists seg,
    py_get entry "segmentation" VNone = ret seg
    /\ (forall l, seg = VList l -> l <> [] -> forallb is_number l = true ->
        segmentation a = VList [VList l])
    /\ (is_list_of_lists seg = true -> segmentation a = seg)
    /\ (is_numeric_list seg = true \/ is_polygon_list seg = true ->
        is_polygon_list (segmentation a) = true).

(** The entries of the source document, in order. *)
Definition source_entries (coco : pyval) : result (list pyval) :=
  anns <- py_get coco "annotations" (VList []) ;;
  py_iter anns.

(** All four edges of a rectangle within the image. *)
Definition within_image (image : PIL.Image) (b : ImageUtils.box) : Prop :=
  let '(x0, y0, x1, y1) := b in
  0 <= x0 <= PIL.width image /\ 0 <= x1 <= PIL.width image
  /\ 0 <= y0 <= PIL.height image /\ 0 <= y1 <= PIL.height image.

(** "The crop rectangle never exceeds the source image bounds", for
    every annotation with a bbox or a non-empty polygon and every
    padding. *)
Definition crop_box_always_within_image : Prop :=
  forall (image : PIL.Image) (a : Annotation) (config : ImageUtils.CropConfig)
         (b : ImageUtils.box),
    0 <= PIL.width image -> 0 <= PIL.height image ->
    ImageUtils.crop_box image a config = ret b ->
    within_image image b.

(** "For every annotation whose bbox is present but does not contain
    exactly 4 elements, region extraction behaves as if the bbox were
    absent [and the bbox] never raises a distinct error": a bbox that
    is not [None] and is not a value of length 4. *)
Definition malformed_bbox_as_specified : Prop :=
  forall (image : PIL.Image) (a : Annotation) (config : ImageUtils.CropConfig),
    bbox a <> VNone ->
    py_len (bbox a) <> ret 4 ->
    ImageUtils.crop_box image a config
    = ImageUtils.crop_box image (set_bbox VNone a) config.

(** [a <= b], exact; false when a NaN is involved. *)
Definition num_le (a b : num) : bool :=
  match num_compare a b with
  | Some Lt | Some Eq => true
  | _ => false
  end.

(** [round(a)]: to the nearest integer, ties to the even one. *)
Definition py_round (a : num) : result Z :=
  match a with
  | NInt z => ret z
  | NFloat (S754_zero _) => ret 0
  | NFloat (S754_infinity _) => raise OverflowError
  | NFloat S754_nan => raise (ValueError Float_NaN_to_int)
  | NFloat (S754_finite s m e) =>
      let a :=
        if 0 <=? e then Zpos m * 2 ^ e
        else
          let d := 2 ^ (- e) in
          let q := Zpos m / d in
          let rest := Zpos m mod d in
          if (d <? 2 * rest) || ((d =? 2 * rest) && Z.odd q) then q + 1 else q in
      ret (if s then - a else a)
  end.

(** "For all annotations with a bbox [x,y,w,h] and zero padding: the
    extracted crop has pixel dimensions (round(w), round(h)) and its
    top-left pixel equals the source image's pixel at (x,y)", the bbox
    lying inside the image. *)
Definition bbox_crop_as_specified : Prop :=
  forall (polygon_fill : list (num * num) -> result (Z -> Z -> bool))
         (composite_pixel : PIL.pixel -> PIL.pixel -> PIL.pixel)
         (image : PIL.Image) (a : Annotation) (config : ImageUtils.CropConfig)
         (vx vy vw vh : pyval) (x y w h x1 y1 : num),
    bbox a = VList [vx; vy; vw; vh] ->
    as_num vx = Some x -> as_num vy = Some y ->
    as_num vw = Some w -> as_num vh = Some h ->
    num_add x w = ret x1 -> num_add y h = ret y1 ->
    num_le (NInt 0) x = true -> num_le (NInt 0) y = true ->
    num_le (NInt 0) w = true -> num_le (NInt 0) h = true ->
    num_le x1 (NInt (PIL.width image)) = true ->
    num_le y1 (NInt (PIL.height image)) = true ->
    ImageUtils.padding config = 0 ->
    exists (crop : PIL.Image) (rw rh ix iy : Z),
      ImageUtils.crop_annotation polygon_fill composite_pixel image a
                                 (Some config) = ret crop
      /\ py_round w = ret rw /\ py_round h = ret rh
      /\ PIL.width crop = rw /\ PIL.height crop = rh
      /\ py_int x = ret ix /\ py_int y = ret iy
      /\ PIL.getpixel crop 0 0 = PIL.getpixel image ix iy.



End Spec.

Module ClientSpec.

Import GeminiValidator.

(** The prompt inside a request body:
    [body["contents"][0]["parts"][0]["text"]]. *)
Definition request_prompt (body : pyval) : result pyval :=
  contents <- py_getitem body "contents" ;;
  first <- py_first contents ;;
  parts <- py_getitem first "parts" ;;
  part <- py_first parts ;;
  py_getitem part "text".

Definition first_char (s : string) : option ascii :=
  match s with
  | EmptyString => None
  | String c _ => Some c
  end.

Fixpoint last_char (s : string) : option ascii :=
  match s with
  | EmptyString => None
  | String c EmptyString => Some c
  | String _ s' => last_char s'
  end.

Definition all_space (s : string) : bool :=
  forallb is_space (list_ascii_of_string s).

Definition not_space (c : option ascii) : Prop :=
  forall x, c = Some x -> is_space x = false.

(** "If guidelines is supplied, append it verbatim to the prompt under
    a Guidelines heading"; absent guidelines leave the filled template
    alone. *)
Definition guidelines_appended_verbatim : Prop :=
  forall (format_template : string -> string -> result string)
         (b64encode : string -> string)
         (self : GeminiValidator) (crop_bytes expected_label filled : string)
         (guidelines : option string),
    format_template (prompt_template self) expected_label = ret filled ->
    exists body,
      _build_request_body format_template b64encode self crop_bytes
                          expected_label guidelines = ret body
      /\ (forall g, guidelines = Some g -> g <> EmptyString ->
          request_prompt body
          = ret (VStr (filled ++ LF ++ LF ++ "Guidelines:" ++ LF ++ g)%string))
      /\ (guidelines = None -> request_prompt body = ret (VStr filled)).

(** [t] occurs in [s]. *)
Fixpoint occurs (t s : string) : bool :=
  String.prefix t s
  || match s with
     | EmptyString => false
     | String _ s' => occurs t s'
     end.

(** A field of a decoded JSON value; [None] when it is absent. *)
Definition json_field (v : pyval) (k : string) : pyval :=
  match v with
  | VDict d => match assoc d k with Some x => x | None => VNone end
  | _ => VNone
  end.

(** The malformed-response errors, as the client raises them. *)
Definition malformed (why : value_error) : bool :=
  match why with
  | Not_valid_JSON _ | Missing_prediction_label | Missing_numeric_confidence => true
  | _ => false
  end.

(** Response parsing as the specification words it: (a) success exactly
    for valid JSON with a string label and a numeric confidence, (b) a
    malformed-response error carrying the offending text otherwise,
    (c) a non-string rationale dropped. *)
Definition parsing_as_specified (json_loads : string -> option pyval) : Prop :=
  forall (payload : pyval) (text : string),
    candidate_text payload = ret text ->
    let t := strip_fences text in
    ((exists r, _parse_candidate json_loads payload = ret r)
     <-> (exists v label,
            json_loads t = Some v
            /\ json_field v "prediction_label" = VStr label
            /\ is_number (json_field v "confidence") = true))
    /\ (forall r v,
          _parse_candidate json_loads payload = ret r ->
          json_loads t = Some v ->
          json_field v "prediction_label" = VStr (prediction_label r)
          /\ py_float (json_field v "confidence") = ret (confidence r)
          /\ (is_str (json_field v "rationale") = false -> rationale r = None))
    /\ ((json_loads t = None
         \/ exists v, json_loads t = Some v
                      /\ (is_str (json_field v "prediction_label") = false
                          \/ is_number (json_field v "confidence") = false)) ->
        exists why msg,
          _parse_candidate json_loads payload = raise (ValueError why)
          /\ malformed why = true
          /\ message why = Some msg
          /\ occurs t msg = true).

(** Attempt [i] fails in a way the retry handler catches. *)
Definition fails_at (try : Z -> result GeminiResponse) (i : Z) : Prop :=
  exists e, try i = raise e /\ caught e = true.

(** The sleeps after the failed attempts [1 .. k]. *)
Definition backoffs (k : Z) : list Z :=
  map (fun i => sleep_seconds (Z.of_nat i)) (seq 1 (Z.to_nat k)).

(** What one call does when its first [k] turns fail and are retried:
    request, sleep, ..., request. *)
Fixpoint retry_trace (k : nat) (attempt : Z) : list event :=
  match k with
  | O => [Request (attempt + 1)]
  | S k' =>
      Request (attempt + 1) :: Sleep (sleep_seconds (attempt + 1))
      :: retry_trace k' (attempt + 1)
  end.

(** The retry policy as the specification words it, for
    [max_retries = n]: [k < n] failures then a success give the success
    after [k + 1] attempts; failures only give the last error after
    exactly [n] attempts. *)
Definition retry_as_specified : Prop :=
  forall (format_template : string -> string -> result string)
         (b64encode : string -> string)
         (json_loads : string -> option pyval)
         (requests_post : Z -> pyval -> result Response)
         (self : GeminiValidator) (fuel : nat)
         (crop_bytes expected_label : string) (guidelines : option string)
         (body : pyval),
    _build_request_body format_template b64encode self crop_bytes
                        expected_label guidelines = ret body ->
    (Z.to_nat (Z.max (max_retries self) 1) <= fuel)%nat ->
    let try := try_once json_loads requests_post body in
    let outcome := validate_crop format_template b64encode json_loads
                                 requests_post self fuel crop_bytes
                                 expected_label guidelines in
    (forall k r,
        0 <= k < max_retries self ->
        (forall i, 1 <= i <= k -> fails_at try i) ->
        try (k + 1) = ret r ->
        exists trace,
          outcome = Some (trace, ret r)
          /\ requests_in trace = k + 1
          /\ sleeps_in trace = backoffs k)
    /\ ((forall i, 1 <= i -> fails_at try i) ->
        exists trace e,
          outcome = Some (trace, raise e)
          /\ requests_in trace = max_retries self
          /\ try (max_retries self) = raise e).

(** "For every response payload whose embedded JSON object maps
    confidence to a JSON boolean, response parsing does not fail with a
    malformed-response error [...] and the returned confidence is 1.0
    for true and 0.0 for false". *)
Definition boolean_confidence_as_specified
             (json_loads : string -> option pyval) : Prop :=
  forall (payload : pyval) (text : string) (d : list (string * pyval))
         (b : bool),
    candidate_text payload = ret text ->
    json_loads (strip_fences text) = Some (VDict d) ->
    assoc d "confidence" = Some (VBool b) ->
    (forall why, _parse_candidate json_loads payload = raise (ValueError why) ->
                 malformed why = false)
    /\ (forall r, _parse_candidate json_loads payload = ret r ->
                  confidence r = float_of_bool b).

End ClientSpec.

Module Sample.

Import DataLoader.

Definition annotation (bbox segmentation : pyval) : Annotation :=
  {| id := VInt 1; image_id := VInt 1; category_id := VInt 1;
     bbox := bbox; segmentation := segmentation;
     area := VNone; iscrowd := VNone |}.

Definition ints (l : list Z) : pyval := VList (map VInt l).

(** The base image of [tests/test_image_utils.py]: 64 x 64, black, with
    a red square over columns and rows 16 to 47. *)
Definition base_image : PIL.Image :=
  {| PIL.mode_of := PIL.RGB; PIL.width := 64; PIL.height := 64;
     PIL.getpixel := fun x y =>
       if (16 <=? x) && (x <? 48) && (16 <=? y) && (y <? 48)
       then [255; 0; 0] else [0; 0; 0] |}.

Definition config (padding : Z) (mask : bool) : ImageUtils.CropConfig :=
  {| ImageUtils.padding := padding; ImageUtils.mask_polygon := mask;
     ImageUtils.background_color := (0, 0, 0, 0) |}.

(** The square of the specification, flat and wrapped. *)
Definition flat_square : pyval := ints [8; 8; 24; 8; 24; 24; 8; 24].

Definition entry (segmentation : pyval) : pyval :=
  VDict [("id", VInt 1); ("image_id", VInt 1); ("category_id", VInt 1);
         ("segmentation", segmentation)].

Definition document : pyval :=
  VDict [("annotations",
          VList [entry flat_square; entry (VList [flat_square])])].

Definition entry_of (confidence : float) (is_match : bool)
  : RunValidation.ValidationEntry :=
  {| RunValidation.image_id := VInt 1;
     RunValidation.annotation_id := VInt 1;
     RunValidation.expected_label := "car";
     RunValidation.prediction_label := if is_match then "car" else "bus";
     RunValidation.confidence := confidence;
     RunValidation.is_match := is_match;
     RunValidation.rationale := None;
     RunValidation.bbox := VNone;
     RunValidation.polygon := VNone |}.

(** [match, match, mismatch] with confidences 0.5, 0.25, 0.75. *)
Definition entries : list RunValidation.ValidationEntry :=
  [ entry_of (float_of_ratio 1 2) true;
    entry_of (float_of_ratio 1 4) true;
    entry_of (float_of_ratio 3 4) false ].

(** A stand-in for Pillow's rasterizer that paints the bounding box of
    the outline, borders included: what a polygon fill gives for an
    axis-aligned rectangle. *)
Definition fill_bounds (points : list (num * num))
  : result (Z -> Z -> bool) :=
  match points with
  | [] => raise TypeError
  | (x, y) :: rest =>
      let xs := map fst rest in
      let ys := map snd rest in
      ret (fun i j =>
             Spec.num_le (py_min x xs) (NInt i) && Spec.num_le (NInt i) (py_max x xs)
             && Spec.num_le (py_min y ys) (NInt j) && Spec.num_le (NInt j) (py_max y ys))
  end.

(** Source-over compositing is not exercised by the samples. *)
Definition keep_source (dst src : PIL.pixel) : PIL.pixel := src.

(** A bbox with fractional coordinates, [0.75, 0.0, 1.25, 1.0], and an
    integer bbox that also carries the polygon of its outline. *)
Definition fractional_annotation : Annotation :=
  annotation (VList [VFloat (float_of_ratio 3 4); VFloat fzero;
                     VFloat (float_of_ratio 5 4); VFloat fone])
             VNone.

Definition masked_annotation : Annotation :=
  annotation (ints [16; 16; 32; 32])
             (VList [ints [16; 16; 48; 16; 48; 48; 16; 48]]).

(** A payload whose first candidate answers [text]. *)
Definition payload_of_text (text : string) : pyval :=
  VDict [("candidates",
          VList [VDict [("content",
                         VDict [("parts",
                                 VList [VDict [("text", VStr text)]])])]])].

Definition quoted (s : string) : string := (QUOTE ++ s ++ QUOTE)%string.

(** The JSON object with the two required keys, [confidence] given as
    its JSON text. *)
Definition answer (label confidence : string) : string :=
  ("{" ++ quoted "prediction_label" ++ ": " ++ quoted label ++ ", "
   ++ quoted "confidence" ++ ": " ++ confidence ++ "}")%string.

(** The answer of [tests/test_gemini_validator.py]. *)
Definition traffic_light : string :=
  ("{" ++ quoted "prediction_label" ++ ": " ++ quoted "traffic_light" ++ ", "
   ++ quoted "confidence" ++ ": 0.87, "
   ++ quoted "rationale" ++ ": "
   ++ quoted "Object resembles a traffic light." ++ "}")%string.

Definition fenced (text : string) : string :=
  ("```json" ++ LF ++ text ++ LF ++ "```")%string.

(** An integer of 400 digits. *)
Definition huge_integer : string :=
  string_of_list_ascii (ascii_of_nat 49 :: repeat (ascii_of_nat 48) 399).

(** [GeminiValidator(api_key="test-key", max_retries=n)]: every other
    argument at its default. *)
Definition validator (n : Z) : GeminiValidator.GeminiValidator :=
  {| GeminiValidator.api_key := "test-key";
     GeminiValidator.model_name := "gemini-2.5-flash";
     GeminiValidator.base_url :=
       "https://generativelanguage.googleapis.com/v1beta";
     GeminiValidator.temperature := float_of_ratio 1 5;
     GeminiValidator.top_p := None;
     GeminiValidator.max_retries := n;
     GeminiValidator.timeout_seconds := 30;
     GeminiValidator.prompt_template :=
       GeminiValidator.DEFAULT_PROMPT_TEMPLATE |}.

(** A service that is unreachable, and one that fails [k] times and
    then answers [text] with status 200. *)
Definition unreachable (n : Z) (body : pyval)
  : result GeminiValidator.Response :=
  raise RequestException.

Definition flaky (k : Z) (text : string) (n : Z) (body : pyval)
  : result GeminiValidator.Response :=
  if n <=? k then raise RequestException
  else ret {| GeminiValidator.status_code := 200;
              GeminiValidator.json := ret (payload_of_text text) |}.

(** Guidelines as read from a file: the text and a final newline. *)
Definition guidelines_file : string := ("Be strict." ++ LF)%string.

(** The default template filled for the label "cat". *)
Definition filled_for_cat : string :=
  match StrFormat.format GeminiValidator.DEFAULT_PROMPT_TEMPLATE "cat" with
  | inr filled => filled
  | inl _ => EmptyString
  end.

(** The request body for a crop of bytes "png" and the label "cat". *)
Definition body_for_cat : pyval :=
  match GeminiValidator._build_request_body StrFormat.format Base64.b64encode
          (validator 3) "png" "cat" None with
  | inr body => body
  | inl _ => VNone
  end.

(** The answer [{"confidence": true}]: a boolean confidence and no
    label. *)
Definition confidence_only : string :=
  ("{" ++ quoted "confidence" ++ ": true}")%string.

(** A bbox that is the number 5, next to the square polygon. *)
Definition numeric_bbox_annotation : Annotation :=
  annotation (VInt 5) (VList [flat_square]).

(** A box outside a 64 x 64 image. *)
Definition outside_annotation : Annotation :=
  annotation (ints [100; 100; 10; 10]) VNone.

End Sample.

(* ================================================================== *)
(** * The rest of the pipeline: lookups, batches, the orchestrator *)
(* ================================================================== *)

Module Keys.

(** Lists and dicts cannot be keys of a dict. *)
Definition hashable (v : pyval) : bool :=
  match v with
  | VList _ | VDict _ => false
  | _ => true
  end.

(** [a == b] between keys: numbers (booleans among them) by value,
    strings by content, [None] with itself.  A NaN equals nothing.
    A dict finds a key that is the very object looked up before it
    compares; for every hashable value but a NaN an object equals
    itself, so this changes a lookup only when the key looked up is a
    NaN (as [json.load] gives one NaN object to every [NaN] of a
    document, such a key is found there).  Identity is not modelled:
    the statements about what a lookup finds are for keys that are not
    NaN. *)
Definition key_eq (a b : pyval) : bool :=
  match as_num a, as_num b with
  | Some x, Some y =>
      match num_compare x y with
      | Some Eq => true
      | _ => false
      end
  | None, None =>
      match a, b with
      | VNone, VNone => true
      | VStr s, VStr t => (s =? t)%string
      | _, _ => false
      end
  | _, _ => false
  end.

Definition is_nan (v : pyval) : bool :=
  match v with
  | VFloat S754_nan => true
  | _ => false
  end.

(** The value of key [k] in a dict given by its (key, value) pairs in
    source order: a later pair with an equal key replaces an earlier
    one. *)
Fixpoint find {V : Type} (d : list (pyval * V)) (k : pyval) : option V :=
  match d with
  | [] => None
  | (k', v) :: d' =>
      match find d' k with
      | Some x => Some x
      | None => if key_eq k' k then Some v else None
      end
  end.

End Keys.

Module Dataset.

Import DataLoader Keys.

(** What [iter_annotations] raises: the two [KeyError]s of lines 77
    and 80-82, and the [TypeError] of a lookup with an unhashable
    key. *)
Inductive iter_error : Type :=
| Missing_image (annotation_id image_id : pyval)
| Missing_category (annotation_id category_id : pyval)
| Unhashable (key : pyval).

Definition resolved : Type := (ImageInfo * Annotation * Category)%type.

(** No annotation refers to its image or its category by a NaN. *)
Definition no_nan_references (ds : CocoDataset) : bool :=
  forallb (fun ann => negb (is_nan (image_id ann))
                      && negb (is_nan (category_id ann)))
          (annotations ds).

(** One turn of the generator (lines 75-83). *)
Definition resolve (ds : CocoDataset) (ann : Annotation)
  : iter_error + resolved :=
  if negb (hashable (image_id ann)) then inl (Unhashable (image_id ann))
  else
    match find (images ds) (image_id ann) with
    | None => inl (Missing_image (id ann) (image_id ann))
    | Some image =>
        if negb (hashable (category_id ann))
        then inl (Unhashable (category_id ann))
        else
          match find (categories ds) (category_id ann) with
          | None => inl (Missing_category (id ann) (category_id ann))
          | Some category => inr (image, ann, category)
          end
    end.

(** The triples a consumer receives before the generator ends or
    raises. *)
Fixpoint iter_from (ds : CocoDataset) (anns : list Annotation)
  : list resolved * option iter_error :=
  match anns with
  | [] => ([], None)
  | ann :: rest =>
      match resolve ds ann with
      | inl e => ([], Some e)
      | inr triple =>
          let '(triples, e) := iter_from ds rest in (triple :: triples, e)
      end
  end.

Definition iter_annotations (ds : CocoDataset)
  : list resolved * option iter_error :=
  iter_from ds (annotations ds).

(** What [load_coco_dataset] subscripts: the document is a dict, its
    three sections (empty when absent) can be iterated, and every entry
    is a dict with the keys the loader reads by [entry[...]]. *)
Definition has_keys (keys : list string) (entry : pyval) : bool :=
  match entry with
  | VDict d =>
      forallb (fun k => match assoc d k with Some _ => true | None => false end)
              keys
  | _ => false
  end.

Definition section (coco : pyval) (name : string) : result (list pyval) :=
  entries <- py_get coco name (VList []) ;;
  py_iter entries.

Definition section_ok (coco : pyval) (name : string)
                      (ok : pyval -> bool) : bool :=
  match section coco name with
  | inr entries => forallb ok entries
  | inl _ => false
  end.

Definition loadable (coco : pyval) : bool :=
  section_ok coco "categories" (has_keys ["id"; "name"])
  && section_ok coco "images" (has_keys ["id"; "file_name"; "width"; "height"])
  && section_ok coco "annotations" (has_keys ["id"; "image_id"; "category_id"]).

(** The ids that become keys of the two dicts can be hashed. *)
Definition id_hashable (entry : pyval) : bool :=
  match entry with
  | VDict d =>
      match assoc d "id" with
      | Some v => hashable v
      | None => false
      end
  | _ => false
  end.

Definition keys_hashable (coco : pyval) : bool :=
  section_ok coco "categories" id_hashable
  && section_ok coco "images" id_hashable.

End Dataset.

Module Client.

Import GeminiValidator.

(** [s.rstrip("/")]. *)
Fixpoint rstrip_slash (s : string) : string :=
  match s with
  | EmptyString => EmptyString
  | String c s' =>
      match rstrip_slash s' with
      | EmptyString =>
          if (N_of_ascii c =? 47)%N then EmptyString else String c EmptyString
      | r => String c r
      end
  end.

(** [GeminiValidator.__init__]. *)
Definition __init__ (api_key model_name base_url : string)
                    (temperature : float) (top_p : option float)
                    (max_retries timeout_seconds : Z)
                    (prompt_template : string) : GeminiValidator :=
  {| api_key := api_key;
     model_name := model_name;
     base_url := rstrip_slash base_url;
     temperature := temperature;
     top_p := top_p;
     max_retries := max_retries;
     timeout_seconds := timeout_seconds;
     prompt_template := prompt_template |}.

Definition _endpoint (self : GeminiValidator) : string :=
  (base_url self ++ "/models/" ++ model_name self ++ ":generateContent")%string.

(** [n] slashes. *)
Fixpoint slashes (n : nat) : string :=
  match n with
  | O => EmptyString
  | S n' => String (ascii_of_nat 47) (slashes n')
  end.

(** The reply [r] with another status line. *)
Definition with_status (status : Z) (r : Response) : Response :=
  {| status_code := status; json := json r |}.

(** The service [post] with the status of every reply set to 200. *)
Definition relabelled (post : Z -> pyval -> result Response)
  : Z -> pyval -> result Response :=
  fun n body =>
    match post n body with
    | inr r => inr (with_status 200 r)
    | inl e => inl e
    end.

(** A status for which [raise_for_status] raises. *)
Definition is_http_error (r : Response) : bool :=
  (400 <=? status_code r) && (status_code r <? 600).

(** An item of a batch: a dict from keys to the crop bytes and the
    label, the two kinds of value that [validate_crop] takes. *)
Definition item : Type := list (string * string).

Fixpoint item_get (d : item) (k : string) : result string :=
  match d with
  | [] => raise (KeyError k)
  | (k', v) :: d' => if (k' =? k)%string then ret v else item_get d' k
  end.

Section Batch.

Variable format_template : string -> string -> result string.
Variable b64encode : string -> string.
Variable json_loads : string -> option pyval.

(** [requests_post i n body]: the [n]-th [requests.post] made for the
    item at position [i]. *)
Variable requests_post : nat -> Z -> pyval -> result Response.

(** [validate_batch], from item [i] on: the responses gathered so far
    and the traces of the calls made, one per item reached.  [fuel] is
    given to every [validate_crop]. *)
Fixpoint validate_batch_from (self : GeminiValidator) (fuel : nat) (i : nat)
                             (items : list item) (guidelines : option string)
                             (responses : list GeminiResponse)
                             (traces : list (list event))
  : option (list (list event) * result (list GeminiResponse)) :=
  match items with
  | [] => Some (traces, ret responses)
  | it :: rest =>
      match item_get it "crop_bytes" with
      | inl exc => Some (traces, raise exc)
      | inr crop_bytes =>
          match item_get it "expected_label" with
          | inl exc => Some (traces, raise exc)
          | inr expected_label =>
              match validate_crop format_template b64encode json_loads
                      (requests_post i) self fuel crop_bytes expected_label
                      guidelines with
              | None => None
              | Some (trace, inl exc) => Some (traces ++ [trace], raise exc)
              | Some (trace, inr response) =>
                  validate_batch_from self fuel (S i) rest guidelines
                                      (responses ++ [response])
                                      (traces ++ [trace])
              end
          end
      end
  end.

Definition validate_batch (self : GeminiValidator) (fuel : nat)
                          (items : list item) (guidelines : option string)
  : option (list (list event) * result (list GeminiResponse)) :=
  validate_batch_from self fuel 0 items guidelines [] [].

(** The item at position [i] has its two keys, and [validate_crop] on
    them leaves the trace [trace] and the outcome [o]. *)
Definition item_run (self : GeminiValidator) (fuel : nat)
                    (guidelines : option string) (i : nat) (it : item)
                    (trace : list event) (o : result GeminiResponse) : Prop :=
  exists crop_bytes expected_label,
    item_get it "crop_bytes" = ret crop_bytes
    /\ item_get it "expected_label" = ret expected_label
    /\ validate_crop format_template b64encode json_loads (requests_post i)
         self fuel crop_bytes expected_label guidelines
       = Some (trace, o).

End Batch.

End Client.

Module Orchestrator.

Import DataLoader Keys Dataset.

(** [c.lower()] for a code point below 256: the letters A-Z and the
    capital letters of Latin-1 (192-222 without the multiplication
    sign). *)
Definition lower_char (c : ascii) : ascii :=
  let n := N_of_ascii c in
  if (((65 <=? n) && (n <=? 90))
      || ((192 <=? n) && (n <=? 222) && negb (n =? 215)))%N
  then ascii_of_N (n + 32) else c.

Fixpoint lower (s : string) : string :=
  match s with
  | EmptyString => EmptyString
  | String c s' => String (lower_char c) (lower s')
  end.

Definition _match_labels (predicted expected : string) : bool :=
  (lower (strip predicted) =? lower (strip expected))%string.

(** [list(v)]. *)
Definition py_list (v : pyval) : result pyval :=
  l <- py_iter v ;; ret (VList l).

(** What a run does to image files: [Loaded k] when the file of the
    image with id [k] is decoded and its RGB copy enters the cache,
    [Closed k] when that copy is closed. *)
Inductive io_event : Type :=
| Loaded (image_id : pyval)
| Closed (image_id : pyval).

Inductive run_error : Type :=
| Lookup_failed (e : iter_error)
| Raised (e : exn).

(** The report of [_serialize]: the entries and the summary. *)
Definition report : Type :=
  (list RunValidation.ValidationEntry * RunValidation.ValidationSummary)%type.

(** The local state of [run_validation]: the entries, the image cache
    in insertion order, and the images opened so far. *)
Record state : Type := {
  entries : list RunValidation.ValidationEntry;
  image_cache : list (pyval * PIL.Image);
  events : list io_event
}.

Section Run.

(** Environment of a run:
    - [open_rgb image_info] is lines 83-85, the decoded file converted
      to RGB, or the exception of [full_path], [Image.open] or
      [convert];
    - [image_to_png_bytes] is the PNG encoder of [image_utils];
    - [validate_crop k crop_bytes expected_label guidelines] is the
      outcome of the [k]-th call of the validator's [validate_crop];
    - [sum_floats] is the builtin [sum] over floats. *)
Variable polygon_fill : list (num * num) -> result (Z -> Z -> bool).
Variable composite_pixel : PIL.pixel -> PIL.pixel -> PIL.pixel.
Variable open_rgb : ImageInfo -> result PIL.Image.
Variable image_to_png_bytes : PIL.Image -> result string.
Variable validate_crop :
  nat -> string -> pyval -> option string -> result GeminiValidator.GeminiResponse.
Variable sum_floats : list float -> float.

Variable dataset : CocoDataset.
Variable guidelines : option string.
Variable crop_config : ImageUtils.CropConfig.

(** Lines 82-87: the cached image of [image_info], decoded on its first
    use.  Keys are compared as in [Keys]. *)
Definition cached_image (st : state) (image_info : ImageInfo)
  : state * result PIL.Image :=
  let key := image_ident image_info in
  if negb (hashable key) then (st, raise TypeError)
  else
    match find (image_cache st) key with
    | Some image => (st, ret image)
    | None =>
        match open_rgb image_info with
        | inl exc => (st, raise exc)
        | inr image =>
            ({| entries := entries st;
                image_cache := image_cache st ++ [(key, image)];
                events := events st ++ [Loaded key] |},
             ret image)
        end
    end.

(** Lines 97-111: the entry of one annotation. *)
Definition make_entry (image_info : ImageInfo) (annotation : Annotation)
                      (category : Category)
                      (response : GeminiValidator.GeminiResponse)
  : result RunValidation.ValidationEntry :=
  match name category with
  | VStr expected =>
      let is_match :=
        _match_labels (GeminiValidator.prediction_label response) expected in
      bbox <- (if truthy (bbox annotation) then py_list (bbox annotation)
               else ret VNone) ;;
      polygon <- (if truthy (segmentation annotation) then
                    segments <- py_iter (py_or (segmentation annotation)
                                               (VList [])) ;;
                    lists <- for_each py_list segments ;;
                    ret (VList lists)
                  else ret VNone) ;;
      ret {| RunValidation.image_id := image_ident image_info;
             RunValidation.annotation_id := id annotation;
             RunValidation.expected_label := expected;
             RunValidation.prediction_label :=
               GeminiValidator.prediction_label response;
             RunValidation.confidence := GeminiValidator.confidence response;
             RunValidation.is_match := is_match;
             RunValidation.rationale := GeminiValidator.rationale response;
             RunValidation.bbox := bbox;
             RunValidation.polygon := polygon |}
  | _ => raise AttributeError
  end.

(** The work on one resolved annotation, lines 82-111.  Every earlier
    turn of the loop has made one call of the validator and one entry,
    so this turn makes the call number [len(entries)]. *)
Definition process (st : state) (triple : resolved) : state * option run_error :=
  let '(image_info, annotation, category) := triple in
  let '(st, base_image) := cached_image st image_info in
  let step :=
    base_image <- base_image ;;
    crop <- ImageUtils.crop_annotation polygon_fill composite_pixel
              base_image annotation (Some crop_config) ;;
    crop_bytes <- image_to_png_bytes crop ;;
    response <- validate_crop (List.length (entries st)) crop_bytes
                              (name category) guidelines ;;
    make_entry image_info annotation category response in
  match step with
  | inl exc => (st, Some (Raised exc))
  | inr entry =>
      ({| entries := entries st ++ [entry];
          image_cache := image_cache st;
          events := events st |},
       None)
  end.

(** The [for] loop of lines 81-111 over the generator. *)
Fixpoint run_loop (st : state) (anns : list Annotation)
  : state * option run_error :=
  match anns with
  | [] => (st, None)
  | ann :: rest =>
      match resolve dataset ann with
      | inl e => (st, Some (Lookup_failed e))
      | inr triple =>
          match process st triple with
          | (st', Some e) => (st', Some e)
          | (st', None) => run_loop st' rest
          end
      end
  end.

(** [run_validation]: the loop, the [finally] that closes every cached
    image, then the summary. *)
Definition run_validation : list io_event * (run_error + report) :=
  let '(st, failure) :=
    run_loop {| entries := []; image_cache := []; events := [] |}
             (annotations dataset) in
  let trace := events st ++ map (fun kv => Closed (fst kv)) (image_cache st) in
  match failure with
  | Some e => (trace, inl e)
  | None =>
      match RunValidation._build_summary sum_floats (entries st) with
      | inl exc => (trace, inl (Raised exc))
      | inr summary => (trace, inr (entries st, summary))
      end
  end.

(** Entry [e] is the entry of annotation [ann], made at the [k]-th call
    of the validator. *)
Definition entry_for (k : nat) (ann : Annotation)
                    (e : RunValidation.ValidationEntry) : Prop :=
  exists image_info category crop_bytes response,
    resolve dataset ann = inr (image_info, ann, category)
    /\ validate_crop k crop_bytes (name category) guidelines = ret response
    /\ name category = VStr (RunValidation.expected_label e)
    /\ RunValidation.image_id e = image_ident image_info
    /\ RunValidation.annotation_id e = id ann
    /\ RunValidation.prediction_label e
       = GeminiValidator.prediction_label response
    /\ RunValidation.confidence e = GeminiValidator.confidence response
    /\ RunValidation.rationale e = GeminiValidator.rationale response
    /\ RunValidation.is_match e
       = _match_labels (RunValidation.prediction_label e)
                       (RunValidation.expected_label e).

End Run.

(** No two of the keys are equal. *)
Fixpoint pairwise_distinct (ids : list pyval) : Prop :=
  match ids with
  | [] => True
  | k :: rest =>
      Forall (fun k' => key_eq k k' = false) rest /\ pairwise_distinct rest
  end.

(** The cache and the trace agree: every cached image was loaded once,
    under a key of its own, and its id has the property [P]. *)
Definition cache_ok (P : pyval -> Prop) (st : state) : Prop :=
  events st = map Loaded (map fst (image_cache st))
  /\ pairwise_distinct (map fst (image_cache st))
  /\ Forall P (map fst (image_cache st)).

(** The image of some annotation of [dataset] has the id [k]. *)
Definition referenced (dataset : CocoDataset) (k : pyval) : Prop :=
  exists ann image_info category,
    In ann (annotations dataset)
    /\ resolve dataset ann = inr (image_info, ann, category)
    /\ k = image_ident image_info.

End Orchestrator.

Module Demo.

(** [s.replace(old, new)] for single characters. *)
Fixpoint replace_char (old new : ascii) (s : string) : string :=
  match s with
  | EmptyString => EmptyString
  | String c s' =>
      String (if Ascii.eqb c old then new else c) (replace_char old new s')
  end.

Definition SPACE : ascii := ascii_of_nat 32.
Definition SLASH : ascii := ascii_of_nat 47.
Definition UNDERSCORE : ascii := ascii_of_nat 95.

(** Line 52 of [save_crop]. *)
Definition safe_label (label : string) : string :=
  replace_char SLASH UNDERSCORE (replace_char SPACE UNDERSCORE label).

(** Line 53: the file name of a crop, [annotation_id] being the text of
    the annotation id. *)
Definition crop_filename (annotation_id label : string) : string :=
  ("crop_" ++ annotation_id ++ "_" ++ safe_label label ++ ".png")%string.

End Demo.

(** [run_demo], lines 99-173: the loop over the annotations, the
    [finally] that closes the cached images, and the selections that
    the summary counts.  The [print]s, the per-category averages and
    the writing of the report are left out. *)
Module DemoRun.

Import DataLoader Keys Dataset.

Record DemoResult : Type := {
  image_id : pyval;
  annotation_id : pyval;
  image_file : pyval;
  label : pyval;
  crop_path : string;
  confidence : option float;
  gemini_response : option string;
  error : option string
}.

Record state : Type := {
  results : list DemoResult;
  image_cache : list (pyval * PIL.Image);
  events : list Orchestrator.io_event
}.

Section Run.

(** Environment of a run:
    - [open_rgb image_info] is lines 109-111, the file under
      [dataset_dir] decoded and converted to RGB;
    - [mkdir k] and [save k name crop] are the two steps of [save_crop]
      that touch the disk, on the [k]-th annotation;
    - [str_of] is the text an f-string gives a value, [str_exn] is
      [str(e)];
    - [validator] is [None] when no validator was created, and
      otherwise gives the outcome of [validate_crop] on the [k]-th
      annotation. *)
Variable polygon_fill : list (num * num) -> result (Z -> Z -> bool).
Variable composite_pixel : PIL.pixel -> PIL.pixel -> PIL.pixel.
Variable open_rgb : ImageInfo -> result PIL.Image.
Variable image_to_png_bytes : PIL.Image -> result string.
Variable mkdir : nat -> result unit.
Variable save : nat -> string -> PIL.Image -> result unit.
Variable str_of : pyval -> string.
Variable str_exn : exn -> string.
Variable validator :
  option (nat -> string -> pyval -> result GeminiValidator.GeminiResponse).

Variable dataset : CocoDataset.

(** [CropConfig(padding=8, mask_polygon=True)]. *)
Definition crop_config : ImageUtils.CropConfig :=
  {| ImageUtils.padding := 8; ImageUtils.mask_polygon := true;
     ImageUtils.background_color := (0, 0, 0, 0) |}.

(** [save_crop], returning the path relative to the output directory
    (line 148), with [/] as separator. *)
Definition save_crop (k : nat) (crop : PIL.Image) (annotation_id label : pyval)
  : result string :=
  _ <- mkdir k ;;
  match label with
  | VStr label =>
      let crop_filename := Demo.crop_filename (str_of annotation_id) label in
      _ <- save k crop_filename crop ;;
      ret ("crops/" ++ crop_filename)%string
  | _ => raise AttributeError
  end.

(** Lines 108-113. *)
Definition cached_image (st : state) (image_info : ImageInfo)
  : state * result PIL.Image :=
  let key := image_ident image_info in
  if negb (hashable key) then (st, raise TypeError)
  else
    match find (image_cache st) key with
    | Some image => (st, ret image)
    | None =>
        match open_rgb image_info with
        | inl exc => (st, raise exc)
        | inr image =>
            ({| results := results st;
                image_cache := image_cache st ++ [(key, image)];
                events := events st ++ [Orchestrator.Loaded key] |},
             ret image)
        end
    end.

(** Lines 122-141: the three fields that the validator fills. *)
Definition validate (k : nat) (crop : PIL.Image) (expected_label : pyval)
  : option float * option string * option string :=
  match validator with
  | None => (None, None, None)
  | Some validate_crop =>
      match (crop_bytes <- image_to_png_bytes crop ;;
             validate_crop k crop_bytes expected_label) with
      | inr response =>
          (Some (GeminiValidator.confidence response),
           Some (GeminiValidator.raw_text response), None)
      | inl e => (None, None, Some (str_exn e))
      end
  end.

(** Lines 116-164: the result recorded for one annotation. *)
Definition result_of (k : nat) (base_image : PIL.Image)
                     (image_info : ImageInfo) (annotation : Annotation)
                     (category : Category) : DemoResult :=
  match (crop <- ImageUtils.crop_annotation polygon_fill composite_pixel
                   base_image annotation (Some crop_config) ;;
         path <- save_crop k crop (id annotation) (name category) ;;
         ret (crop, path)) with
  | inr (crop, path) =>
      let '(confidence, gemini_response, error) :=
        validate k crop (name category) in
      {| image_id := image_ident image_info;
         annotation_id := id annotation;
         image_file := file_name image_info;
         label := name category;
         crop_path := path;
         confidence := confidence;
         gemini_response := gemini_response;
         error := error |}
  | inl e =>
      {| image_id := image_ident image_info;
         annotation_id := id annotation;
         image_file := file_name image_info;
         label := name category;
         crop_path := EmptyString;
         confidence := None;
         gemini_response := None;
         error := Some (str_exn e) |}
  end.

(** One turn of the loop, lines 104-164. *)
Definition process (st : state) (triple : resolved) : state * option exn :=
  let '(image_info, annotation, category) := triple in
  let '(st, base_image) := cached_image st image_info in
  match base_image with
  | inl exc => (st, Some exc)
  | inr base_image =>
      let result := result_of (List.length (results st)) base_image
                              image_info annotation category in
      ({| results := results st ++ [result];
          image_cache := image_cache st;
          events := events st |},
       None)
  end.

Fixpoint run_loop (st : state) (anns : list Annotation)
  : state * option Orchestrator.run_error :=
  match anns with
  | [] => (st, None)
  | ann :: rest =>
      match resolve dataset ann with
      | inl e => (st, Some (Orchestrator.Lookup_failed e))
      | inr triple =>
          match process st triple with
          | (st', Some e) => (st', Some (Orchestrator.Raised e))
          | (st', None) => run_loop st' rest
          end
      end
  end.

(** Lines 99-168: the results, or the exception that ends the run, and
    the images loaded and closed. *)
Definition process_annotations
  : list Orchestrator.io_event * (Orchestrator.run_error + list DemoResult) :=
  let '(st, failure) :=
    run_loop {| results := []; image_cache := []; events := [] |}
             (annotations dataset) in
  let trace :=
    events st ++ map (fun kv => Orchestrator.Closed (fst kv)) (image_cache st) in
  match failure with
  | Some e => (trace, inl e)
  | None => (trace, inr (results st))
  end.

End Run.

(** Lines 172-173: the results with a crop path, and those with a
    confidence. *)
Definition successful_crops (results : list DemoResult) : list DemoResult :=
  filter (fun r => negb (crop_path r =? EmptyString)%string) results.

Definition gemini_results (results : list DemoResult) : list DemoResult :=
  filter (fun r => match confidence r with Some _ => true | None => false end)
         results.

(** A result as the loop can leave it: either the crop failed (no
    path, the error recorded, nothing from the validator), or the crop
    was saved and the validator was not asked, answered, or failed. *)
Definition well_formed (r : DemoResult) : Prop :=
  (crop_path r = EmptyString /\ confidence r = None
   /\ gemini_response r = None /\ error r <> None)
  \/ (crop_path r <> EmptyString
      /\ ((confidence r = None /\ gemini_response r = None)
          \/ (confidence r <> None /\ gemini_response r <> None
              /\ error r = None))).

End DemoRun.

(* ------------------------------------------------------------------ *)
(** ** Vocabulary of the geometric statements *)

Module Geometry.

(** The values of a flat polygon at even positions (its x coordinates)
    and at odd positions (its y coordinates). *)
Fixpoint alternate {A} (l : list A) : list A * list A :=
  match l with
  | [] => ([], [])
  | x :: rest => let '(xs, ys) := alternate rest in (x :: ys, xs)
  end.

Definition evens {A} (l : list A) : list A := fst (alternate l).
Definition odds {A} (l : list A) : list A := snd (alternate l).

Definition xs_of {A} (polygons : list (list A)) : list A :=
  flat_map evens polygons.
Definition ys_of {A} (polygons : list (list A)) : list A :=
  flat_map odds polygons.

(** A segmentation whose coordinates are all [int]s. *)
Definition int_polygons (polygons : list (list Z)) : pyval :=
  VList (map (fun polygon => VList (map VInt polygon)) polygons).

(** [inner] lies within [outer]. *)
Definition box_within (inner outer : ImageUtils.box) : Prop :=
  let '(l, t, r, b) := inner in
  let '(l', t', r', b') := outer in
  l' <= l /\ t' <= t /\ r <= r' /\ b <= b'.

End Geometry.

(* ------------------------------------------------------------------ *)
(** ** Sample data for the examples of the second part *)

Module Cases.

Import DataLoader.

Definition category_entry (id : Z) (name : string) : pyval :=
  VDict [("id", VInt id); ("name", VStr name)].

Definition image_entry (id : Z) (file_name : string) : pyval :=
  VDict [("id", VInt id); ("file_name", VStr file_name);
         ("width", VInt 64); ("height", VInt 64)].

Definition annotation_entry (id image category : Z) (bbox : pyval) : pyval :=
  VDict [("id", VInt id); ("image_id", VInt image);
         ("category_id", VInt category); ("bbox", bbox)].

(** Two categories, two images, and the annotations [anns]. *)
Definition coco_with (anns : list pyval) : pyval :=
  VDict [("categories", VList [category_entry 1 "cat"; category_entry 2 "dog"]);
         ("images", VList [image_entry 10 "a.png"; image_entry 11 "b.png"]);
         ("annotations", VList anns)].

(** Three annotations, the first and the last on the same image. *)
Definition coco : pyval :=
  coco_with [annotation_entry 100 10 1 (Sample.ints [16; 16; 32; 32]);
             annotation_entry 101 11 2 (Sample.ints [0; 0; 8; 8]);
             annotation_entry 102 10 2 (Sample.ints [4; 4; 8; 8])].

(** The second annotation refers to an image that is not there. *)
Definition coco_dangling : pyval :=
  coco_with [annotation_entry 100 10 1 (Sample.ints [16; 16; 32; 32]);
             annotation_entry 101 12 2 (Sample.ints [0; 0; 8; 8]);
             annotation_entry 102 10 2 (Sample.ints [4; 4; 8; 8])].

(** The third annotation has no [image_id]. *)
Definition coco_missing_key : pyval :=
  coco_with [annotation_entry 100 10 1 VNone;
             annotation_entry 101 11 2 VNone;
             VDict [("id", VInt 102); ("category_id", VInt 1)]].

Definition empty_dataset : CocoDataset :=
  {| categories := []; images := []; annotations := [] |}.

Definition loaded (coco : pyval) : CocoDataset :=
  match load_coco_dataset coco with
  | inr ds => ds
  | inl _ => empty_dataset
  end.

(** A service that always replies [text] with the status [status]. *)
Definition replying (status : Z) (text : string) (n : Z) (body : pyval)
  : result GeminiValidator.Response :=
  ret {| GeminiValidator.status_code := status;
         GeminiValidator.json := ret (Sample.payload_of_text text) |}.

(** A batch of three crops, and one whose second item has no label. *)
Definition batch : list Client.item :=
  [ [("crop_bytes", "png-0"); ("expected_label", "cat")];
    [("crop_bytes", "png-1"); ("expected_label", "dog")];
    [("crop_bytes", "png-2"); ("expected_label", "cat")] ].

Definition batch_missing_label : list Client.item :=
  [ [("crop_bytes", "png-0"); ("expected_label", "cat")];
    [("crop_bytes", "png-1")];
    [("crop_bytes", "png-2"); ("expected_label", "cat")] ].

(** The service of a batch: item [i] gets the answer [answers i]; the
    item at position [down] finds the service unreachable. *)
Definition batch_service (down : nat) (i : nat)
  : Z -> pyval -> result GeminiValidator.Response :=
  if Nat.eqb i down then Sample.unreachable
  else replying 200 (Sample.answer "cat" "1").

(** The environment of a sample run: every file decodes to the sample
    image, the PNG encoder returns a fixed text, and the validator
    answers "cat" with confidence 1 to every call but the one numbered
    [down], for which it raises. *)
Definition open_sample (image_info : ImageInfo) : result PIL.Image :=
  ret Sample.base_image.

Definition png_sample (image : PIL.Image) : result string := ret "png".

Definition validator_sample (down : nat) (k : nat) (crop_bytes : string)
                            (expected_label : pyval)
                            (guidelines : option string)
  : result GeminiValidator.GeminiResponse :=
  if Nat.eqb k down then raise RequestException
  else ret {| GeminiValidator.prediction_label := " Cat";
              GeminiValidator.confidence := fone;
              GeminiValidator.rationale := None;
              GeminiValidator.raw_text := EmptyString |}.

(** The disk of a sample demo run: directories can be made, and every
    file can be written but the crop of the annotation numbered
    [full]. *)
Definition mkdir_sample (k : nat) : result unit := ret tt.

Definition save_sample (full : nat) (k : nat) (name : string)
                       (crop : PIL.Image) : result unit :=
  if Nat.eqb k full then raise RequestException else ret tt.

Definition str_of_sample (v : pyval) : string :=
  match v with
  | VInt 100 => "100"
  | VInt 101 => "101"
  | VInt 102 => "102"
  | _ => "id"
  end.

Definition str_exn_sample (e : exn) : string := "failed".

(** The validator of the demo, called without guidelines. *)
Definition demo_validator (down : nat) (k : nat) (crop_bytes : string)
                          (expected_label : pyval)
  : result GeminiValidator.GeminiResponse :=
  validator_sample down k crop_bytes expected_label None.

Definition dataset : CocoDataset := loaded coco.
Definition dataset_dangling : CocoDataset := loaded coco_dangling.

End Cases.

(* ================================================================== *)
(** * Properties *)
(* ================================================================== *)

(** ** Generic facts *)

Lemma bind_ret {A B} (c : result A) (k : A -> result B) (b : B) :
  bind c k = ret b -> exists a, c = ret a /\ k a = ret b.
Proof.
  destruct c as [e | a]; simpl; intros H.
  - discriminate H.
  - exists a. split; [reflexivity | exact H].
Qed.

(** Splits a successful sequence of binds into its steps. *)
Ltac bind_steps H :=
  repeat (apply bind_ret in H; destruct H as (? & ? & H)).

Lemma len_nonneg {A} (l : list A) : 0 <= len l.
Proof. unfold len. lia. Qed.

Lemma len_nil_iff {A} (l : list A) : len l = 0 <-> l = [].
Proof.
  unfold len. destruct l; simpl; split; intros H;
    try reflexivity; try discriminate; lia.
Qed.

Lemma sys_maxsize_converts : sys_maxsize < overflow_bound.
Proof. reflexivity. Qed.

Lemma float_of_int_small (z : Z) :
  Z.abs z <= sys_maxsize -> float_of_int z = ret (float_of_Z z).
Proof.
  intros H. unfold float_of_int.
  pose proof sys_maxsize_converts as Hb.
  destruct (Z.ltb_spec (Z.abs z) overflow_bound) as [_ | Hge];
    [reflexivity | lia].
Qed.

(* ------------------------------------------------------------------ *)
(** ** Summary statistics *)

Module SummaryFacts.

Import RunValidation.

Lemma count_matches_filter (entries : list ValidationEntry) :
  count_matches entries = len (filter is_match entries).
Proof.
  induction entries as [| e entries IH]; cbn [count_matches filter].
  - reflexivity.
  - destruct (is_match e); rewrite IH; unfold len; cbn [List.length]; lia.
Qed.

Lemma count_matches_bounds (entries : list ValidationEntry) :
  0 <= count_matches entries <= len entries.
Proof.
  induction entries as [| e entries IH];
    unfold len in *; cbn [count_matches List.length].
  - lia.
  - destruct (is_match e); lia.
Qed.

Lemma int_truediv_ratio (a b : Z) :
  0 <= a <= b -> 0 < b ->
  int_truediv a b = ret (float_of_ratio a (Z.to_pos b)).
Proof.
  intros Ha Hb. destruct b as [| d | d]; try lia.
  unfold int_truediv.
  assert (Hbound : 1 < overflow_bound) by reflexivity.
  destruct (Z.ltb_spec (Z.abs a) (overflow_bound * Z.pos d)) as [_ | Hge].
  - reflexivity.
  - exfalso. nia.
Qed.

Lemma float_truediv_int_count (x : float) (n : Z) :
  0 < n <= sys_maxsize ->
  float_truediv_int x n = ret (fdiv x (float_of_Z n)).
Proof.
  intros Hn. unfold float_truediv_int.
  rewrite float_of_int_small by lia. simpl.
  destruct (Z.eqb_spec n 0) as [-> | _]; [lia | reflexivity].
Qed.

End SummaryFacts.

(** C8. For every list of validation entries (a Python list, hence of
    length at most [sys.maxsize]) [_build_summary] returns a summary and
    raises nothing: [total] is the number of entries, [matches] the
    number of entries whose [is_match] flag is set, [mismatches] is
    [total - matches]; when [total > 0], [accuracy] is the quotient
    [matches / total] and [average_confidence] is the sum of the entry
    confidences divided by [total]; for the empty list both are [0.0]. *)
Theorem build_summary_statistics :
  forall (sum_floats : list float -> float)
         (entries : list RunValidation.ValidationEntry),
    len entries <= sys_maxsize ->
    exists s : RunValidation.ValidationSummary,
      RunValidation._build_summary sum_floats entries = ret s
      /\ RunValidation.total s = len entries
      /\ RunValidation.matches s = len (filter RunValidation.is_match entries)
      /\ RunValidation.mismatches s
         = RunValidation.total s - RunValidation.matches s
      /\ (0 < RunValidation.total s ->
          int_truediv (RunValidation.matches s) (RunValidation.total s)
            = ret (RunValidation.accuracy s)
          /\ float_truediv_int
               (sum_floats (map RunValidation.confidence entries))
               (RunValidation.total s)
             = ret (RunValidation.average_confidence s))
      /\ (entries = [] ->
          RunValidation.accuracy s = fzero
          /\ RunValidation.average_confidence s = fzero).
Proof.
  intros sum_floats entries Hlen.
  unfold RunValidation._build_summary.
  pose proof (len_nonneg entries) as Hnn.
  pose proof (SummaryFacts.count_matches_bounds entries) as Hm.
  destruct (Z.eqb_spec (len entries) 0) as [Hz | Hnz]; simpl.
  - eexists; split; [reflexivity |]. simpl.
    rewrite SummaryFacts.count_matches_filter.
    repeat split; simpl in *; try reflexivity; lia.
  - rewrite SummaryFacts.float_truediv_int_count by lia. simpl.
    rewrite SummaryFacts.int_truediv_ratio by lia. simpl.
    eexists; split; [reflexivity |]. simpl.
    rewrite <- SummaryFacts.count_matches_filter.
    split; [reflexivity |]. split; [reflexivity |]. split; [reflexivity |].
    split.
    + intros _. split.
      * apply SummaryFacts.int_truediv_ratio; lia.
      * apply SummaryFacts.float_truediv_int_count; lia.
    + intros ->. exfalso. apply Hnz. reflexivity.
Qed.

(** The summary of [match, match, mismatch]: accuracy is the binary64
    nearest to 2/3, the average confidence is 1.5 / 3. *)
Lemma build_summary_statistics_witness :
  len Sample.entries <= sys_maxsize
  /\ exists s : RunValidation.ValidationSummary,
       RunValidation._build_summary RunValidation.sum_left Sample.entries = ret s
       /\ RunValidation.total s = 3
       /\ RunValidation.matches s = 2
       /\ RunValidation.mismatches s = 1
       /\ RunValidation.accuracy s = float_of_ratio 2 3
       /\ RunValidation.average_confidence s = float_of_ratio 1 2.
Proof.
  assert (H : len Sample.entries <= sys_maxsize)
    by (apply Z.leb_le; reflexivity).
  split; [exact H |].
  destruct (build_summary_statistics RunValidation.sum_left Sample.entries H)
    as (s & Hs & Ht & Hm & Hmm & _).
  exists s. split; [exact Hs |].
  vm_compute in Hs. injection Hs as <-.
  repeat split; reflexivity.
Defined.

Example build_summary_empty :
  RunValidation._build_summary RunValidation.sum_left []
  = ret {| RunValidation.total := 0; RunValidation.matches := 0;
           RunValidation.mismatches := 0;
           RunValidation.accuracy := fzero;
           RunValidation.average_confidence := fzero |}.
Proof. reflexivity. Qed.

(* ------------------------------------------------------------------ *)
(** ** Loader: segmentation is stored as a list of polygons *)

Module LoaderFacts.

Import DataLoader.

Lemma for_each_Forall2 {A B} (f : A -> result B) (l : list A) (ys : list B) :
  for_each f l = ret ys -> Forall2 (fun x y => f x = ret y) l ys.
Proof.
  revert ys. induction l as [| x l IH]; intros ys H; simpl in H.
  - injection H as <-. constructor.
  - apply bind_ret in H. destruct H as (y & Hy & H).
    apply bind_ret in H. destruct H as (ys' & Hys & H).
    injection H as <-. constructor; [exact Hy | apply IH; exact Hys].
Qed.

Lemma load_annotation_segmentation (entry : pyval) (a : Annotation) :
  load_annotation entry = ret a ->
  exists seg, py_get entry "segmentation" VNone = ret seg
              /\ segmentation a = normalize_segmentation seg.
Proof.
  unfold load_annotation. intros H.
  apply bind_ret in H. destruct H as (seg & Hseg & H).
  exists seg. split; [exact Hseg |].
  bind_steps H. injection H as <-. reflexivity.
Qed.

Lemma normalize_flat (l : list pyval) :
  l <> [] -> forallb is_number l = true ->
  normalize_segmentation (VList l) = VList [VList l].
Proof.
  destruct l as [| first rest]; intros Hne Hall; [contradiction |].
  simpl in Hall. apply andb_prop in Hall. destruct Hall as [Hfirst _].
  simpl. rewrite Hfirst. reflexivity.
Qed.

Lemma list_is_not_number (v : pyval) : is_list v = true -> is_number v = false.
Proof. destruct v; simpl; intros H; try discriminate; reflexivity. Qed.

Lemma normalize_nested (seg : pyval) :
  is_list_of_lists seg = true -> normalize_segmentation seg = seg.
Proof.
  destruct seg as [| | | | | ll |]; simpl; intros H; try reflexivity.
  destruct ll as [| first rest]; [reflexivity |].
  simpl in H. apply andb_prop in H. destruct H as [Hfirst _].
  rewrite (list_is_not_number _ Hfirst). reflexivity.
Qed.

Lemma numeric_list_is_list (v : pyval) :
  is_numeric_list v = true -> is_list v = true.
Proof. destruct v; simpl; intros H; try discriminate; reflexivity. Qed.

Lemma polygon_list_is_list_of_lists (seg : pyval) :
  is_polygon_list seg = true -> is_list_of_lists seg = true.
Proof.
  destruct seg as [| | | | | ll |]; simpl; intros H; try discriminate.
  rewrite forallb_forall in *. intros v Hv.
  apply numeric_list_is_list, H, Hv.
Qed.

Lemma normalize_gives_polygons (seg : pyval) :
  is_numeric_list seg = true \/ is_polygon_list seg = true ->
  is_polygon_list (normalize_segmentation seg) = true.
Proof.
  intros [Hflat | Hpoly].
  - destruct seg as [| | | | | l |]; simpl in Hflat; try discriminate.
    destruct l as [| first rest]; [reflexivity |].
    rewrite normalize_flat; [| discriminate | exact Hflat].
    simpl in *. rewrite Hflat. reflexivity.
  - rewrite normalize_nested; [exact Hpoly |].
    apply polygon_list_is_list_of_lists, Hpoly.
Qed.

Lemma load_annotation_stores (entry : pyval) (a : Annotation) :
  load_annotation entry = ret a -> Spec.stored_normalized entry a.
Proof.
  intros H. apply load_annotation_segmentation in H.
  destruct H as (seg & Hseg & Hnorm). exists seg.
  split; [exact Hseg |]. rewrite Hnorm. split; [| split].
  - intros l -> Hne Hall. apply normalize_flat; assumption.
  - apply normalize_nested.
  - apply normalize_gives_polygons.
Qed.

(** An entry with the three required keys always loads. *)
Lemma load_annotation_total (d : list (string * pyval)) (i im c : pyval) :
  assoc d "id" = Some i -> assoc d "image_id" = Some im ->
  assoc d "category_id" = Some c ->
  exists a, load_annotation (VDict d) = ret a.
Proof.
  intros Hi Him Hc. unfold load_annotation, py_getitem, py_get. simpl.
  rewrite Hi, Him, Hc. simpl. eexists. reflexivity.
Qed.

End LoaderFacts.

(** C6. Whenever the loader returns a dataset, its annotations
    correspond one to one, in order, to the entries of the source; an
    entry whose segmentation is a single flat (non-empty) numeric list
    is stored as the one-element list holding that list, a segmentation
    that is a list of lists is stored unchanged, and in both cases the
    stored segmentation is a list of polygons. *)
Theorem load_normalizes_segmentation :
  forall (coco : pyval) (ds : DataLoader.CocoDataset),
    DataLoader.load_coco_dataset coco = ret ds ->
    exists entries : list pyval,
      Spec.source_entries coco = ret entries
      /\ Forall2 Spec.stored_normalized entries (DataLoader.annotations ds).
Proof.
  intros coco ds H. unfold DataLoader.load_coco_dataset in H.
  bind_steps H.
  injection H as <-. simpl.
  match goal with
  | Ha : py_get coco "annotations" _ = ret ?v,
    Hi : py_iter ?v = ret ?es,
    Hf : DataLoader.for_each DataLoader.load_annotation ?es = ret _ |- _ =>
      exists es; split;
      [ unfold Spec.source_entries; rewrite Ha; exact Hi
      | apply LoaderFacts.for_each_Forall2 in Hf;
        eapply Forall2_impl; [| exact Hf];
        intros entry a Hload; apply LoaderFacts.load_annotation_stores, Hload ]
  end.
Qed.

(** The document of the specification: a flat square and the same
    square already wrapped both end up as [[8,8,24,8,24,24,8,24]]. *)
Lemma load_normalizes_segmentation_witness :
  exists ds,
    DataLoader.load_coco_dataset Sample.document = ret ds
    /\ map DataLoader.segmentation (DataLoader.annotations ds)
       = [VList [Sample.flat_square]; VList [Sample.flat_square]]
    /\ exists entries,
         Spec.source_entries Sample.document = ret entries
         /\ Forall2 Spec.stored_normalized entries (DataLoader.annotations ds).
Proof.
  eexists. split; [reflexivity |]. split; [reflexivity |].
  apply (load_normalizes_segmentation Sample.document _ eq_refl).
Defined.

(* ------------------------------------------------------------------ *)
(** ** Region extraction: the crop rectangle *)

Module RegionFacts.

Import DataLoader ImageUtils.

Lemma has_bbox_wrong_length (a : Annotation) (n : Z) :
  py_len (bbox a) = ret n -> n <> 4 -> has_bbox a = ret false.
Proof.
  intros Hlen Hn. unfold has_bbox. rewrite Hlen. cbn [bind ret].
  destruct (truthy (bbox a)); [| reflexivity].
  destruct (Z.eqb_spec n 4); [contradiction | reflexivity].
Qed.

Lemma has_bbox_absent (a : Annotation) :
  has_bbox (Spec.set_bbox VNone a) = ret false.
Proof. reflexivity. Qed.

Lemma has_bbox_four (a : Annotation) (x y w h : pyval) :
  bbox a = VList [x; y; w; h] -> has_bbox a = ret true.
Proof. intros Hb. unfold has_bbox. rewrite Hb. reflexivity. Qed.

Lemma expand_box_inv (x0 y0 x1 y1 : num) (p W H : Z) (b : box) :
  _expand_box x0 y0 x1 y1 p W H = ret b ->
  exists rl rt rr rb,
    py_int x0 = ret rl /\ py_int y0 = ret rt
    /\ py_int x1 = ret rr /\ py_int y1 = ret rb
    /\ b = (Z.max (rl - Z.max 0 p) 0, Z.max (rt - Z.max 0 p) 0,
            Z.min (rr + Z.max 0 p) W, Z.min (rb + Z.max 0 p) H).
Proof.
  unfold _expand_box. intros Hb.
  apply bind_ret in Hb. destruct Hb as (rl & Hl & Hb).
  apply bind_ret in Hb. destruct Hb as (rt & Ht & Hb).
  apply bind_ret in Hb. destruct Hb as (rr & Hr & Hb).
  apply bind_ret in Hb. destruct Hb as (rb & Hbt & Hb).
  injection Hb as <-. exists rl, rt, rr, rb. repeat split; assumption.
Qed.

Lemma expand_box_returns (x0 y0 x1 y1 : num) (p W H rl rt rr rb : Z) :
  py_int x0 = ret rl -> py_int y0 = ret rt ->
  py_int x1 = ret rr -> py_int y1 = ret rb ->
  _expand_box x0 y0 x1 y1 p W H
  = ret (Z.max (rl - Z.max 0 p) 0, Z.max (rt - Z.max 0 p) 0,
         Z.min (rr + Z.max 0 p) W, Z.min (rb + Z.max 0 p) H).
Proof.
  intros Hl Ht Hr Hb. unfold _expand_box.
  rewrite Hl, Ht, Hr, Hb. reflexivity.
Qed.

Lemma crop_box_inv (image : PIL.Image) (a : Annotation) (config : CropConfig)
                   (b : box) :
  crop_box image a config = ret b ->
  exists x0 y0 x1 y1,
    source_region a = ret (x0, y0, x1, y1)
    /\ _expand_box x0 y0 x1 y1 (padding config)
                   (PIL.width image) (PIL.height image) = ret b.
Proof.
  unfold crop_box. intros Hb.
  apply bind_ret in Hb. destruct Hb as ([[[x0 y0] x1] y1] & Hr & Hb).
  exists x0, y0, x1, y1. split; assumption.
Qed.

(** The rectangle is computed whenever the region is and its four
    coordinates convert to integers. *)
Lemma crop_box_returns (image : PIL.Image) (a : Annotation)
                       (config : CropConfig) (x0 y0 x1 y1 : num)
                       (rl rt rr rb : Z) :
  source_region a = ret (x0, y0, x1, y1) ->
  py_int x0 = ret rl -> py_int y0 = ret rt ->
  py_int x1 = ret rr -> py_int y1 = ret rb ->
  crop_box image a config
  = ret (Z.max (rl - Z.max 0 (padding config)) 0,
         Z.max (rt - Z.max 0 (padding config)) 0,
         Z.min (rr + Z.max 0 (padding config)) (PIL.width image),
         Z.min (rb + Z.max 0 (padding config)) (PIL.height image)).
Proof.
  intros Hs Hl Ht Hr Hb. unfold crop_box. rewrite Hs. simpl.
  apply expand_box_returns; assumption.
Qed.

Lemma source_region_without_bbox (a : Annotation) (n : Z) :
  py_len (bbox a) = ret n -> n <> 4 ->
  source_region a = source_region (Spec.set_bbox VNone a).
Proof.
  intros Hlen Hn. unfold source_region.
  rewrite (has_bbox_wrong_length a n Hlen Hn), has_bbox_absent.
  reflexivity.
Qed.

(** [bool(self.bbox)] decides alone when it is false. *)
Lemma has_bbox_falsy (a : Annotation) :
  truthy (bbox a) = false -> has_bbox a = ret false.
Proof. intros H. unfold has_bbox. rewrite H. reflexivity. Qed.

(** The bboxes that [has_bbox] answers [False] for: the empty and zero
    values, and the sized values whose length is not 4. *)
Lemma has_bbox_unusable (a : Annotation) :
  truthy (bbox a) = false \/ (exists n, py_len (bbox a) = ret n /\ n <> 4) ->
  has_bbox a = ret false.
Proof.
  intros [Hfalsy | (n & Hlen & Hn)].
  - apply has_bbox_falsy, Hfalsy.
  - apply (has_bbox_wrong_length a n Hlen Hn).
Qed.

Lemma source_region_unusable_bbox (a : Annotation) :
  has_bbox a = ret false ->
  source_region a = source_region (Spec.set_bbox VNone a).
Proof.
  intros Hhas. unfold source_region. rewrite Hhas, has_bbox_absent.
  reflexivity.
Qed.

End RegionFacts.

(** C10 (as amended). A bbox that is an empty or zero value ([[]],
    [0], [false], the empty string ...) or a sized value (a list, a
    string, an object) whose [len] is not 4 is treated as no bbox:
    [has_bbox] is false, the region is the polygon bounding box when
    the segmentation is non-empty and the "missing bbox and polygon"
    error otherwise, and both the crop rectangle and the whole
    extraction give exactly the outcome (value or error) they give for
    the same annotation without a bbox. *)
Theorem malformed_bbox_is_ignored :
  forall (polygon_fill : list (num * num) -> result (Z -> Z -> bool))
         (composite_pixel : PIL.pixel -> PIL.pixel -> PIL.pixel)
         (image : PIL.Image) (a : DataLoader.Annotation)
         (config : option ImageUtils.CropConfig),
    truthy (DataLoader.bbox a) = false
    \/ (exists n, py_len (DataLoader.bbox a) = ret n /\ n <> 4) ->
    DataLoader.has_bbox a = ret false
    /\ ImageUtils.source_region a
       = (if DataLoader.has_polygon a
          then ImageUtils._polygon_bbox (DataLoader.segmentation a)
          else raise (ValueError (Missing_bbox_and_polygon (DataLoader.id a))))
    /\ (forall c, ImageUtils.crop_box image a c
                  = ImageUtils.crop_box image (Spec.set_bbox VNone a) c)
    /\ ImageUtils.crop_annotation polygon_fill composite_pixel image a config
       = ImageUtils.crop_annotation polygon_fill composite_pixel image
                                    (Spec.set_bbox VNone a) config.
Proof.
  intros pf cp image a config Hbbox.
  pose proof (RegionFacts.has_bbox_unusable a Hbbox) as Hhas.
  pose proof (RegionFacts.source_region_unusable_bbox a Hhas) as Hsrc.
  split; [exact Hhas |]. split; [| split].
  - unfold ImageUtils.source_region. rewrite Hhas. cbn [bind ret].
    unfold DataLoader.has_polygon, py_or.
    destruct (truthy (DataLoader.segmentation a)); reflexivity.
  - intros c. unfold ImageUtils.crop_box. rewrite Hsrc. reflexivity.
  - unfold ImageUtils.crop_annotation, ImageUtils.crop_box.
    rewrite Hsrc. reflexivity.
Qed.

(** C2 (as amended). Whenever region extraction computes a crop
    rectangle, for any padding (a negative one counting as zero, a
    large one allowed), its left and top edges are at least 0 and its
    right and bottom edges are at most the image width and height.  The
    left (top) edge is moreover at most the width (height) when the
    truncated left (top) edge of the region is, and the right (bottom)
    edge is at least 0 when the truncated right (bottom) edge of the
    region is; so all four edges lie within the image unless the region
    lies entirely beyond one of its borders. *)
Theorem crop_box_clamped :
  forall (image : PIL.Image) (a : DataLoader.Annotation)
         (config : ImageUtils.CropConfig) (l t r b : Z),
    ImageUtils.crop_box image a config = ret (l, t, r, b) ->
    (0 <= l /\ 0 <= t /\ r <= PIL.width image /\ b <= PIL.height image)
    /\ exists (x0 y0 x1 y1 : num) (rl rt rr rb : Z),
         ImageUtils.source_region a = ret (x0, y0, x1, y1)
         /\ py_int x0 = ret rl /\ py_int y0 = ret rt
         /\ py_int x1 = ret rr /\ py_int y1 = ret rb
         /\ (0 <= PIL.width image -> rl <= PIL.width image ->
             l <= PIL.width image)
         /\ (0 <= PIL.height image -> rt <= PIL.height image ->
             t <= PIL.height image)
         /\ (0 <= PIL.width image -> 0 <= rr -> 0 <= r)
         /\ (0 <= PIL.height image -> 0 <= rb -> 0 <= b)
         /\ (0 <= PIL.width image -> 0 <= PIL.height image ->
             rl <= PIL.width image -> rt <= PIL.height image ->
             0 <= rr -> 0 <= rb ->
             Spec.within_image image (l, t, r, b)).
Proof.
  intros image a config l t r b Hbox.
  apply RegionFacts.crop_box_inv in Hbox.
  destruct Hbox as (x0 & y0 & x1 & y1 & Hsrc & Hexp).
  apply RegionFacts.expand_box_inv in Hexp.
  destruct Hexp as (rl & rt & rr & rb & Hl & Ht & Hr & Hb & Heq).
  injection Heq as -> -> -> ->.
  split; [lia |].
  exists x0, y0, x1, y1, rl, rt, rr, rb.
  repeat (split; [assumption |]).
  unfold Spec.within_image. repeat split; lia.
Qed.

(** A box inside the test image, padded by more than the image size. *)
Lemma crop_box_clamped_witness :
  ImageUtils.crop_box Sample.base_image
    (Sample.annotation (Sample.ints [16; 16; 32; 32]) VNone)
    (Sample.config 1000 false)
  = ret (0, 0, 64, 64)
  /\ (0 <= 0 /\ 0 <= 0
      /\ 64 <= PIL.width Sample.base_image
      /\ 64 <= PIL.height Sample.base_image).
Proof.
  split; [reflexivity |].
  exact (proj1 (crop_box_clamped Sample.base_image
                  (Sample.annotation (Sample.ints [16; 16; 32; 32]) VNone)
                  (Sample.config 1000 false) 0 0 64 64 eq_refl)).
Defined.

(** C2 as the specification states it fails on a box that starts beyond
    the image: the rectangle for the bbox [100, 100, 10, 10] in a
    64 x 64 image is [(100, 100, 64, 64)], whose left and top edges
    exceed the image. *)
Lemma crop_box_exceeds_image :
  ImageUtils.crop_box Sample.base_image Sample.outside_annotation
                      (Sample.config 0 false)
  = ret (100, 100, 64, 64)
  /\ ~ Spec.crop_box_always_within_image.
Proof.
  split; [reflexivity |].
  intros Hclaim.
  assert (H : Spec.within_image Sample.base_image (100, 100, 64, 64)).
  { apply (Hclaim Sample.base_image Sample.outside_annotation
                  (Sample.config 0 false)).
    - simpl. lia.
    - simpl. lia.
    - reflexivity. }
  simpl in H. lia.
Qed.

(** A bbox of three numbers next to a polygon: the polygon decides. *)
Lemma malformed_bbox_is_ignored_witness :
  py_len (DataLoader.bbox (Sample.annotation (Sample.ints [1; 2; 3])
                                             (VList [Sample.flat_square])))
  = ret 3
  /\ 3 <> 4
  /\ ImageUtils.source_region
       (Sample.annotation (Sample.ints [1; 2; 3]) (VList [Sample.flat_square]))
     = ret (NInt 8, NInt 8, NInt 24, NInt 24).
Proof.
  assert (Hn : 3 <> 4) by lia.
  split; [reflexivity |]. split; [exact Hn |].
  destruct (malformed_bbox_is_ignored
              Sample.fill_bounds Sample.keep_source Sample.base_image
              (Sample.annotation (Sample.ints [1; 2; 3])
                                 (VList [Sample.flat_square]))
              None
              (or_intror (ex_intro _ 3 (conj eq_refl Hn))))
    as (_ & Hsrc & _).
  rewrite Hsrc. reflexivity.
Defined.

(** C10 as the specification states it fails for a bbox that is
    present, holds no four elements and has no length at all: for the
    number 5, [bool(self.bbox)] is true and [len(self.bbox)] raises
    [TypeError], so the extraction raises where the same annotation
    without a bbox is cropped to its polygon. *)
Lemma malformed_bbox_not_as_specified :
  ~ Spec.malformed_bbox_as_specified
  /\ DataLoader.has_bbox Sample.numeric_bbox_annotation = raise TypeError
  /\ ImageUtils.crop_box Sample.base_image Sample.numeric_bbox_annotation
       (Sample.config 0 true)
     = raise TypeError
  /\ ImageUtils.crop_box Sample.base_image
       (Spec.set_bbox VNone Sample.numeric_bbox_annotation)
       (Sample.config 0 true)
     = ret (8, 8, 24, 24).
Proof.
  split; [| repeat split; reflexivity].
  intros Hclaim.
  specialize (Hclaim Sample.base_image Sample.numeric_bbox_annotation
                     (Sample.config 0 true)).
  assert (Hpresent : DataLoader.bbox Sample.numeric_bbox_annotation <> VNone)
    by discriminate.
  assert (Hlen : py_len (DataLoader.bbox Sample.numeric_bbox_annotation)
                 <> ret 4) by discriminate.
  specialize (Hclaim Hpresent Hlen). discriminate Hclaim.
Qed.

(* ------------------------------------------------------------------ *)
(** ** Region extraction: the crop and its mask *)

Module CropFacts.

Import DataLoader ImageUtils.

Section WithRasterizer.

Variable polygon_fill : list (num * num) -> result (Z -> Z -> bool).
Variable composite_pixel : PIL.pixel -> PIL.pixel -> PIL.pixel.

Lemma crop_not_inverted (image : PIL.Image) (l t r b : Z) :
  l <= r -> t <= b ->
  PIL.crop image (l, t, r, b) = ret (PIL.window image l t r b).
Proof.
  intros Hx Hy. unfold PIL.crop.
  destruct (Z.ltb_spec r l); [lia |].
  destruct (Z.ltb_spec b t); [lia |].
  reflexivity.
Qed.




Lemma apply_mask_size (crop crop' : PIL.Image) (l t : Z)
                      (a : Annotation) (config : CropConfig) :
  apply_mask polygon_fill composite_pixel crop l t a config = ret crop' ->
  PIL.width crop' = PIL.width crop /\ PIL.height crop' = PIL.height crop.
Proof.
  unfold apply_mask. intros H.
  apply bind_ret in H. destruct H as (segments & _ & H).
  apply bind_ret in H. destruct H as (mask & _ & H).
  destruct (background_color config) as [[[r g] b] al].
  destruct (0 <? al); injection H as <-; split; reflexivity.
Qed.

(** [crop_annotation] once the rectangle is known and not inverted. *)
Lemma crop_annotation_with_box (image : PIL.Image) (a : Annotation)
                               (config : CropConfig) (l t r b : Z) :
  crop_box image a config = ret (l, t, r, b) ->
  l <= r -> t <= b ->
  crop_annotation polygon_fill composite_pixel image a (Some config)
  = (if has_polygon a && mask_polygon config
     then apply_mask polygon_fill composite_pixel
                     (PIL.window image l t r b) l t a config
     else ret (PIL.window image l t r b)).
Proof.
  intros Hbox Hx Hy. unfold crop_annotation. rewrite Hbox.
  cbn [bind ret]. rewrite (crop_not_inverted image l t r b Hx Hy).
  reflexivity.
Qed.


(** The region of a four-number bbox. *)
Lemma source_region_bbox (a : Annotation) (vx vy vw vh : pyval)
                         (x y w h x1 y1 : num) :
  bbox a = VList [vx; vy; vw; vh] ->
  as_num vx = Some x -> as_num vy = Some y ->
  as_num vw = Some w -> as_num vh = Some h ->
  num_add x w = ret x1 -> num_add y h = ret y1 ->
  source_region a = ret (x, y, x1, y1).
Proof.
  intros Hb Hx Hy Hw Hh Hx1 Hy1. unfold source_region.
  rewrite (RegionFacts.has_bbox_four a vx vy vw vh Hb). cbn [bind ret].
  rewrite Hb, Hx, Hy, Hw, Hh, Hx1. cbn [bind ret]. rewrite Hy1. reflexivity.
Qed.

End WithRasterizer.

End CropFacts.

(** C3 (as amended). For a bbox [x, y, w, h] of numbers lying inside
    the image and padding 0, write [l], [t], [r], [b] for the
    truncations [int(x)], [int(y)], [int(x + w)], [int(y + h)].  Every
    crop that extraction returns has dimensions [(r - l, b - t)]; these
    are [(w, h)] when the four numbers are integers.  When no polygon
    mask is applied (no segmentation, or masking disabled) extraction
    does return a crop, and if it is non-empty its top-left pixel is
    the source pixel at [(l, t)]. *)
Theorem bbox_crop_zero_padding :
  forall (polygon_fill : list (num * num) -> result (Z -> Z -> bool))
         (composite_pixel : PIL.pixel -> PIL.pixel -> PIL.pixel)
         (image : PIL.Image) (a : DataLoader.Annotation)
         (config : ImageUtils.CropConfig)
         (vx vy vw vh : pyval) (x y w h x1 y1 : num) (l t r b : Z),
    DataLoader.bbox a = VList [vx; vy; vw; vh] ->
    as_num vx = Some x -> as_num vy = Some y ->
    as_num vw = Some w -> as_num vh = Some h ->
    num_add x w = ret x1 -> num_add y h = ret y1 ->
    py_int x = ret l -> py_int y = ret t ->
    py_int x1 = ret r -> py_int y1 = ret b ->
    0 <= l <= r -> r <= PIL.width image ->
    0 <= t <= b -> b <= PIL.height image ->
    ImageUtils.padding config = 0 ->
    (forall crop,
        ImageUtils.crop_annotation polygon_fill composite_pixel image a
                                   (Some config) = ret crop ->
        PIL.width crop = r - l /\ PIL.height crop = b - t)
    /\ (DataLoader.has_polygon a && ImageUtils.mask_polygon config = false ->
        exists crop,
          ImageUtils.crop_annotation polygon_fill composite_pixel image a
                                     (Some config) = ret crop
          /\ PIL.width crop = r - l /\ PIL.height crop = b - t
          /\ (l < r -> t < b ->
              PIL.getpixel crop 0 0 = PIL.getpixel image l t))
    /\ (forall ix iy iw ih,
          x = NInt ix -> y = NInt iy -> w = NInt iw -> h = NInt ih ->
          l = ix /\ t = iy /\ r - l = iw /\ b - t = ih).
Proof.
  intros pf cp image a config vx vy vw vh x y w h x1 y1 l t r b
         Hb Hx Hy Hw Hh Hx1 Hy1 Hl Ht Hr Hbt Hlr HrW Htb HbH Hpad.
  pose proof (CropFacts.source_region_bbox a vx vy vw vh x y w h x1 y1
                Hb Hx Hy Hw Hh Hx1 Hy1) as Hsrc.
  assert (Hbox : ImageUtils.crop_box image a config = ret (l, t, r, b)).
  { rewrite (RegionFacts.crop_box_returns image a config x y x1 y1 l t r b
               Hsrc Hl Ht Hr Hbt).
    rewrite Hpad. f_equal. repeat f_equal; lia. }
  assert (Hxx : l <= r) by lia. assert (Hyy : t <= b) by lia.
  pose proof (CropFacts.crop_annotation_with_box pf cp image a config
                l t r b Hbox Hxx Hyy) as Hcrop.
  split; [| split].
  - intros crop Hret. rewrite Hcrop in Hret.
    destruct (DataLoader.has_polygon a && ImageUtils.mask_polygon config).
    + apply CropFacts.apply_mask_size in Hret. exact Hret.
    + injection Hret as <-. split; reflexivity.
  - intros Hnomask. rewrite Hnomask in Hcrop.
    exists (PIL.window image l t r b).
    split; [exact Hcrop |]. split; [reflexivity |]. split; [reflexivity |].
    intros Hlt Htt. cbn [PIL.window PIL.getpixel].
    replace (l + 0) with l by lia. replace (t + 0) with t by lia.
    unfold PIL.inside.
    destruct (Z.leb_spec 0 l); [| lia].
    destruct (Z.ltb_spec l (PIL.width image)); [| lia].
    destruct (Z.leb_spec 0 t); [| lia].
    destruct (Z.ltb_spec t (PIL.height image)); [| lia].
    reflexivity.
  - intros ix iy iw ih -> -> -> ->.
    cbn [num_add ret] in Hx1, Hy1.
    injection Hx1 as <-. injection Hy1 as <-.
    cbn [py_int ret] in Hl, Ht, Hr, Hbt.
    injection Hl as <-. injection Ht as <-.
    injection Hr as <-. injection Hbt as <-.
    repeat split; lia.
Qed.

(** The bbox of [tests/test_image_utils.py]: a 32 x 32 crop whose first
    pixel is the red pixel at (16, 16). *)
Lemma bbox_crop_zero_padding_witness :
  DataLoader.bbox (Sample.annotation (Sample.ints [16; 16; 32; 32]) VNone)
  = VList [VInt 16; VInt 16; VInt 32; VInt 32]
  /\ ImageUtils.padding (Sample.config 0 false) = 0
  /\ exists crop,
       ImageUtils.crop_annotation Sample.fill_bounds Sample.keep_source
         Sample.base_image
         (Sample.annotation (Sample.ints [16; 16; 32; 32]) VNone)
         (Some (Sample.config 0 false)) = ret crop
       /\ PIL.width crop = 32 /\ PIL.height crop = 32
       /\ PIL.getpixel crop 0 0 = [255; 0; 0].
Proof.
  split; [reflexivity |]. split; [reflexivity |].
  destruct (bbox_crop_zero_padding Sample.fill_bounds Sample.keep_source
              Sample.base_image
              (Sample.annotation (Sample.ints [16; 16; 32; 32]) VNone)
              (Sample.config 0 false)
              (VInt 16) (VInt 16) (VInt 32) (VInt 32)
              (NInt 16) (NInt 16) (NInt 32) (NInt 32) (NInt 48) (NInt 48)
              16 16 48 48
              eq_refl eq_refl eq_refl eq_refl eq_refl eq_refl eq_refl
              eq_refl eq_refl eq_refl eq_refl
              ltac:(lia) ltac:(simpl; lia) ltac:(lia) ltac:(simpl; lia)
              eq_refl)
    as (_ & Hplain & _).
  destruct (Hplain eq_refl) as (crop & Hret & Hw & Hh & Hpx).
  exists crop. split; [exact Hret |].
  split; [rewrite Hw; reflexivity |].
  split; [rewrite Hh; reflexivity |].
  rewrite Hpx by lia. reflexivity.
Defined.

(** C3 as the specification states it fails.  The bbox
    [0.75, 0.0, 1.25, 1.0] lies inside the 64 x 64 image, yet its crop
    is 2 pixels wide while [round(1.25)] is 1.  And the crop of the
    integer bbox [16, 16, 32, 32] of an annotation that also carries a
    polygon is masked by default: its first pixel has four bands, the
    source pixel three. *)
Lemma bbox_crop_not_as_specified :
  ~ Spec.bbox_crop_as_specified
  /\ ImageUtils.crop_annotation Sample.fill_bounds Sample.keep_source
       Sample.base_image Sample.fractional_annotation
       (Some (Sample.config 0 false))
     = ret (PIL.window Sample.base_image 0 0 2 1)
  /\ Spec.py_round (NFloat (float_of_ratio 5 4)) = ret 1
  /\ (exists crop,
        ImageUtils.crop_annotation Sample.fill_bounds Sample.keep_source
          Sample.base_image Sample.masked_annotation
          (Some (Sample.config 0 true)) = ret crop
        /\ PIL.getpixel crop 0 0 = [255; 0; 0; 255]
        /\ PIL.getpixel Sample.base_image 16 16 = [255; 0; 0]).
Proof.
  assert (Hcrop :
    ImageUtils.crop_annotation Sample.fill_bounds Sample.keep_source
      Sample.base_image Sample.fractional_annotation
      (Some (Sample.config 0 false))
    = ret (PIL.window Sample.base_image 0 0 2 1)) by reflexivity.
  split; [| split; [exact Hcrop | split; [reflexivity |]]].
  - intros Hclaim.
    destruct (Hclaim Sample.fill_bounds Sample.keep_source Sample.base_image
                Sample.fractional_annotation (Sample.config 0 false)
                (VFloat (float_of_ratio 3 4)) (VFloat fzero)
                (VFloat (float_of_ratio 5 4)) (VFloat fone)
                (NFloat (float_of_ratio 3 4)) (NFloat fzero)
                (NFloat (float_of_ratio 5 4)) (NFloat fone)
                (NFloat (float_of_Z 2)) (NFloat fone)
                eq_refl eq_refl eq_refl eq_refl eq_refl eq_refl eq_refl
                eq_refl eq_refl eq_refl eq_refl eq_refl eq_refl eq_refl)
      as (crop & rw & rh & ix & iy & Hret & Hrw & _ & Hw & _).
    rewrite Hcrop in Hret. injection Hret as <-.
    vm_compute in Hrw. injection Hrw as <-.
    cbn [PIL.window PIL.width] in Hw. lia.
  - eexists. split; [reflexivity |]. split; reflexivity.
Qed.

(* ------------------------------------------------------------------ *)
(** ** Region extraction: bbox and polygon together *)

Module MaskFacts.

Import DataLoader ImageUtils.

Lemma pair_induction {A} (P : list A -> Prop) :
  P [] -> (forall x, P [x]) ->
  (forall x y l, P l -> P (x :: y :: l)) ->
  forall l, P l.
Proof.
  intros Hnil Hone Hstep l.
  assert (H : P l /\ forall x, P (x :: l)).
  { induction l as [| y l [IH1 IH2]].
    - split; [exact Hnil | exact Hone].
    - split; [apply IH2 | intros x; apply Hstep, IH1]. }
  exact (proj1 H).
Qed.



Section WithRasterizer.

Variable polygon_fill : list (num * num) -> result (Z -> Z -> bool).
Variable composite_pixel : PIL.pixel -> PIL.pixel -> PIL.pixel.




End WithRasterizer.

End MaskFacts.



(* ------------------------------------------------------------------ *)
(** ** Verification client: the prompt *)

Module PromptFacts.

Import GeminiValidator ClientSpec.

Lemma all_space_cons (c : ascii) (s : string) :
  all_space (String c s) = is_space c && all_space s.
Proof. reflexivity. Qed.

Lemma lstrip_split (s : string) :
  exists pre, s = (pre ++ lstrip s)%string /\ all_space pre = true.
Proof.
  induction s as [| c s (pre & Hs & Hpre)]; cbn [lstrip].
  - exists EmptyString. split; reflexivity.
  - destruct (is_space c) eqn:Hc.
    + exists (String c pre). split.
      * cbn [append]. f_equal. exact Hs.
      * rewrite all_space_cons, Hc, Hpre. reflexivity.
    + exists EmptyString. split; reflexivity.
Qed.

Lemma rstrip_split (s : string) :
  exists post, s = (rstrip s ++ post)%string /\ all_space post = true.
Proof.
  induction s as [| c s (post & Hs & Hpost)]; cbn [rstrip].
  - exists EmptyString. split; reflexivity.
  - destruct (rstrip s) as [| a r] eqn:Hr.
    + cbn [append] in Hs. subst post.
      destruct (is_space c) eqn:Hc.
      * exists (String c s). split; [reflexivity |].
        rewrite all_space_cons, Hc, Hpost. reflexivity.
      * exists s. split; [reflexivity | exact Hpost].
    + exists post. split; [| exact Hpost].
      cbn [append]. f_equal. exact Hs.
Qed.

(** [strip] removes whitespace at both ends and nothing else. *)
Lemma strip_split (s : string) :
  exists pre post,
    s = (pre ++ strip s ++ post)%string
    /\ all_space pre = true /\ all_space post = true.
Proof.
  destruct (lstrip_split s) as (pre & Hs & Hpre).
  destruct (rstrip_split (lstrip s)) as (post & Hl & Hpost).
  exists pre, post. unfold strip. rewrite <- Hl.
  repeat split; assumption.
Qed.

Lemma lstrip_fixed (s : string) : not_space (first_char s) -> lstrip s = s.
Proof.
  destruct s as [| c s]; intros H; cbn [lstrip]; [reflexivity |].
  rewrite (H c eq_refl). reflexivity.
Qed.

Lemma rstrip_fixed (s : string) : not_space (last_char s) -> rstrip s = s.
Proof.
  induction s as [| c s IH]; intros H; cbn [rstrip]; [reflexivity |].
  destruct s as [| a s'].
  - cbn [rstrip]. rewrite (H c eq_refl). reflexivity.
  - rewrite IH; [reflexivity |]. exact H.
Qed.

Lemma strip_fixed (s : string) :
  not_space (first_char s) -> not_space (last_char s) -> strip s = s.
Proof.
  intros Hf Hl. unfold strip. rewrite (lstrip_fixed s Hf).
  apply rstrip_fixed, Hl.
Qed.

Section WithLibrary.

Variable format_template : string -> string -> result string.
Variable b64encode : string -> string.

(** The request body holds the prompt of [build_prompt] as its text. *)
Lemma request_body_prompt (self : GeminiValidator)
                          (crop_bytes expected_label prompt : string)
                          (guidelines : option string) :
  build_prompt format_template self expected_label guidelines = ret prompt ->
  exists body,
    _build_request_body format_template b64encode self crop_bytes
                        expected_label guidelines = ret body
    /\ request_prompt body = ret (VStr prompt).
Proof.
  intros H. unfold _build_request_body. rewrite H. cbn [bind ret].
  eexists. split; reflexivity.
Qed.

End WithLibrary.

End PromptFacts.

(** C7 (as amended). When the template is filled successfully, the
    request body is built and its prompt is: for a non-empty guidelines
    text, the filled template, a blank line, the heading "Guidelines:"
    and, on the next line, the guidelines with leading and trailing
    whitespace removed (nothing else is changed, and the text is
    appended verbatim when it neither starts nor ends with whitespace);
    for absent or empty guidelines, the filled template alone. *)
Theorem guidelines_appended_stripped :
  forall (format_template : string -> string -> result string)
         (b64encode : string -> string)
         (self : GeminiValidator.GeminiValidator)
         (crop_bytes expected_label filled : string)
         (guidelines : option string),
    format_template (GeminiValidator.prompt_template self) expected_label
    = ret filled ->
    exists body,
      GeminiValidator._build_request_body format_template b64encode self
        crop_bytes expected_label guidelines = ret body
      /\ (forall g, guidelines = Some g -> g <> EmptyString ->
          ClientSpec.request_prompt body
          = ret (VStr (filled ++ LF ++ LF ++ "Guidelines:" ++ LF ++ strip g)%string)
          /\ (exists pre post,
                g = (pre ++ strip g ++ post)%string
                /\ ClientSpec.all_space pre = true
                /\ ClientSpec.all_space post = true)
          /\ (ClientSpec.not_space (ClientSpec.first_char g) ->
              ClientSpec.not_space (ClientSpec.last_char g) ->
              strip g = g))
      /\ (guidelines = None \/ guidelines = Some EmptyString ->
          ClientSpec.request_prompt body = ret (VStr filled)).
Proof.
  intros fmt b64 self crop label filled guidelines Hfmt.
  assert (Hprompt :
    GeminiValidator.build_prompt fmt self label guidelines
    = ret (match guidelines with
           | Some g =>
               if (g =? EmptyString)%string then filled
               else (filled ++ LF ++ LF ++ "Guidelines:" ++ LF ++ strip g)%string
           | None => filled
           end)).
  { unfold GeminiValidator.build_prompt. rewrite Hfmt. cbn [bind ret].
    destruct guidelines as [g |]; [| reflexivity].
    destruct (g =? EmptyString)%string; reflexivity. }
  destruct (PromptFacts.request_body_prompt fmt b64 self crop label _
              guidelines Hprompt) as (body & Hbody & Htext).
  exists body. split; [exact Hbody |]. split.
  - intros g -> Hne. split; [| split].
    + rewrite Htext.
      destruct (String.eqb_spec g EmptyString) as [Heq | _];
        [contradiction | reflexivity].
    + apply PromptFacts.strip_split.
    + apply PromptFacts.strip_fixed.
  - intros [-> | ->]; exact Htext.
Qed.

(** Guidelines read from a file, "Be strict." and a newline, reach the
    prompt without the newline. *)
Lemma guidelines_appended_stripped_witness :
  (exists filled,
     StrFormat.format
       (GeminiValidator.prompt_template (Sample.validator 3)) "cat"
     = ret filled)
  /\ exists body,
       GeminiValidator._build_request_body StrFormat.format Base64.b64encode
         (Sample.validator 3) "png" "cat" (Some Sample.guidelines_file)
       = ret body
       /\ exists filled,
            ClientSpec.request_prompt body
            = ret (VStr (filled ++ LF ++ LF ++ "Guidelines:" ++ LF
                         ++ "Be strict.")%string).
Proof.
  split; [eexists; reflexivity |].
  destruct (guidelines_appended_stripped StrFormat.format Base64.b64encode
              (Sample.validator 3) "png" "cat" _
              (Some Sample.guidelines_file) eq_refl)
    as (body & Hbody & Hsome & _).
  exists body. split; [exact Hbody |].
  destruct (Hsome Sample.guidelines_file eq_refl) as (Hprompt & _).
  - discriminate.
  - eexists. rewrite Hprompt. reflexivity.
Defined.

(** C7 as the specification states it fails: guidelines that end with a
    newline are not appended character for character. *)
Lemma guidelines_not_verbatim :
  ~ ClientSpec.guidelines_appended_verbatim
  /\ GeminiValidator.build_prompt StrFormat.format
       (Sample.validator 3) "cat" (Some Sample.guidelines_file)
     = ret (Sample.filled_for_cat ++ LF ++ LF ++ "Guidelines:" ++ LF
            ++ "Be strict.")%string.
Proof.
  split; [| reflexivity].
  intros Hclaim.
  destruct (Hclaim StrFormat.format Base64.b64encode
              (Sample.validator 3) "png" "cat" Sample.filled_for_cat
              (Some Sample.guidelines_file) eq_refl)
    as (body & Hbody & Hsome & _).
  specialize (Hsome Sample.guidelines_file eq_refl).
  assert (Hne : Sample.guidelines_file <> EmptyString) by discriminate.
  specialize (Hsome Hne).
  vm_compute in Hbody. injection Hbody as <-.
  vm_compute in Hsome. discriminate Hsome.
Qed.

(* ------------------------------------------------------------------ *)
(** ** Verification client: response parsing *)

Module ParseFacts.

Import GeminiValidator ClientSpec.

Lemma length_app (s q : string) :
  String.length (s ++ q) = (String.length s + String.length q)%nat.
Proof. induction s as [| c s IH]; cbn; [reflexivity | rewrite IH; reflexivity]. Qed.

Lemma drop_app (s q : string) : drop (String.length s) (s ++ q) = q.
Proof. induction s as [| c s IH]; cbn; [reflexivity | exact IH]. Qed.

Lemma take_app (s q : string) : take (String.length s) (s ++ q) = s.
Proof.
  induction s as [| c s IH]; cbn.
  - destruct q; reflexivity.
  - rewrite IH. reflexivity.
Qed.

Lemma endswith_app (s q : string) : endswith (s ++ q) q = true.
Proof.
  unfold endswith. rewrite length_app.
  replace (String.length s + String.length q - String.length q)%nat
    with (String.length s) by lia.
  rewrite drop_app, String.eqb_refl.
  replace (String.length q <=? String.length s + String.length q)%nat
    with true; [reflexivity |].
  symmetry. apply Nat.leb_le. lia.
Qed.

Lemma drop_last_app (s q : string) : drop_last (String.length q) (s ++ q) = s.
Proof.
  unfold drop_last. rewrite length_app.
  replace (String.length s + String.length q - String.length q)%nat
    with (String.length s) by lia.
  apply take_app.
Qed.

Lemma prefix_refl (t : string) : String.prefix t t = true.
Proof.
  induction t as [| c t IH]; cbn; [reflexivity |].
  destruct (ascii_dec c c) as [_ | Hne]; [exact IH | contradiction].
Qed.

Lemma prefix_nil (t : string) : String.prefix EmptyString t = true.
Proof. destruct t; reflexivity. Qed.

Lemma startswith_app (p s : string) : startswith (p ++ s) p = true.
Proof.
  unfold startswith. induction p as [| c p IH]; cbn.
  - apply prefix_nil.
  - destruct (ascii_dec c c) as [_ | Hne]; [exact IH | contradiction].
Qed.

Lemma occurs_suffix (p t : string) : occurs t (p ++ t) = true.
Proof.
  induction p as [| c p IH].
  - cbn [append]. destruct t; cbn [occurs]; rewrite prefix_refl; reflexivity.
  - cbn [append occurs]. rewrite IH. apply orb_true_r.
Qed.

Lemma no_fence_no_json_fence (s : string) :
  startswith s "```" = false -> startswith s "```json" = false.
Proof.
  unfold startswith.
  destruct s as [| a [| b [| c s]]]; cbn [String.prefix]; intros H;
    repeat match goal with
           | |- context [ascii_dec ?x ?y] => destruct (ascii_dec x y)
           | Hp : context [ascii_dec ?x ?y] |- _ => destruct (ascii_dec x y)
           end;
    try reflexivity; try discriminate H.
  destruct s; discriminate H.
Qed.

(** The three shapes of an answer: fenced with a language tag, fenced
    without, not fenced. *)
Lemma strip_fences_cases (s : string) :
  strip_fences ("```json" ++ s ++ "```") = strip s
  /\ (startswith ("```" ++ s ++ "```") "```json" = false ->
      strip_fences ("```" ++ s ++ "```") = strip s)
  /\ (startswith s "```" = false -> endswith s "```" = false ->
      strip_fences s = strip s).
Proof.
  split; [| split].
  - unfold strip_fences.
    rewrite (startswith_app "```json" (s ++ "```")).
    replace (drop 7 ("```json" ++ s ++ "```")) with (s ++ "```")%string
      by reflexivity.
    rewrite endswith_app.
    pose proof (drop_last_app s "```") as Hd. cbn [String.length] in Hd.
    rewrite Hd. reflexivity.
  - intros Hnot. unfold strip_fences. rewrite Hnot.
    rewrite (startswith_app "```" (s ++ "```")).
    replace (drop 3 ("```" ++ s ++ "```")) with (s ++ "```")%string
      by reflexivity.
    rewrite endswith_app.
    pose proof (drop_last_app s "```") as Hd. cbn [String.length] in Hd.
    rewrite Hd. reflexivity.
  - intros Hstart Hend. unfold strip_fences.
    rewrite (no_fence_no_json_fence s Hstart), Hstart, Hend. reflexivity.
Qed.

Section WithDecoder.

Variable json_loads : string -> option pyval.

Lemma parse_candidate_text (payload : pyval) (text : string) :
  candidate_text payload = ret text ->
  _parse_candidate json_loads payload = parse_text json_loads text.
Proof. intros H. unfold _parse_candidate. rewrite H. reflexivity. Qed.

Lemma parse_text_not_json (text : string) :
  json_loads (strip_fences text) = None ->
  parse_text json_loads text
  = raise (ValueError (Not_valid_JSON (strip_fences text))).
Proof. intros H. unfold parse_text. rewrite H. reflexivity. Qed.

(** Decoding of a JSON object, by the types of its fields. *)
Lemma parse_text_object (text : string) (d : list (string * pyval)) :
  json_loads (strip_fences text) = Some (VDict d) ->
  parse_text json_loads text
  = match json_field (VDict d) "prediction_label" with
    | VStr label =>
        if is_number (json_field (VDict d) "confidence") then
          c <- py_float (json_field (VDict d) "confidence") ;;
          ret {| prediction_label := label;
                 confidence := c;
                 rationale := match json_field (VDict d) "rationale" with
                              | VStr r => Some r
                              | _ => None
                              end;
                 raw_text := strip_fences text |}
        else raise (ValueError Missing_numeric_confidence)
    | _ => raise (ValueError Missing_prediction_label)
    end.
Proof. intros H. unfold parse_text. rewrite H. reflexivity. Qed.

(** A JSON value that is not an object has no [get]. *)
Lemma parse_text_not_object (text : string) (v : pyval) :
  json_loads (strip_fences text) = Some v ->
  (forall d, v <> VDict d) ->
  parse_text json_loads text = raise AttributeError.
Proof.
  intros H Hv. unfold parse_text. rewrite H.
  destruct v; try reflexivity. exfalso. eapply Hv. reflexivity.
Qed.

End WithDecoder.

End ParseFacts.

(** C9 (as amended). A JSON boolean under [confidence] passes the
    numeric check: for any payload whose answer decodes to an object
    with such a confidence, parsing never fails with the
    missing-numeric-confidence error; when [prediction_label] is a
    string it succeeds with confidence 1.0 for [true] and 0.0 for
    [false]; and when [prediction_label] is absent or not a string it
    fails with the missing-prediction-label error, the label being
    checked first. *)
Theorem boolean_confidence_is_numeric :
  forall (json_loads : string -> option pyval) (payload : pyval)
         (text : string) (d : list (string * pyval)) (b : bool),
    GeminiValidator.candidate_text payload = ret text ->
    json_loads (GeminiValidator.strip_fences text) = Some (VDict d) ->
    assoc d "confidence" = Some (VBool b) ->
    GeminiValidator._parse_candidate json_loads payload
    <> raise (ValueError Missing_numeric_confidence)
    /\ (forall label,
          assoc d "prediction_label" = Some (VStr label) ->
          exists r,
            GeminiValidator._parse_candidate json_loads payload = ret r
            /\ GeminiValidator.prediction_label r = label
            /\ GeminiValidator.confidence r = (if b then fone else fzero))
    /\ ((forall label, assoc d "prediction_label" <> Some (VStr label)) ->
        GeminiValidator._parse_candidate json_loads payload
        = raise (ValueError Missing_prediction_label)).
Proof.
  intros loads payload text d b Htext Hjson Hconf.
  rewrite (ParseFacts.parse_candidate_text loads payload text Htext).
  rewrite (ParseFacts.parse_text_object loads text d Hjson).
  unfold ClientSpec.json_field. rewrite Hconf. cbn [is_number].
  split; [| split].
  - destruct (assoc d "prediction_label") as [[] |]; discriminate.
  - intros label Hlabel. rewrite Hlabel. cbn [GeminiValidator.py_float bind ret].
    eexists. split; [reflexivity |]. split; [reflexivity |].
    destruct b; reflexivity.
  - intros Hnone.
    destruct (assoc d "prediction_label") as [[| | | | label | |] |];
      try reflexivity.
    exfalso. apply (Hnone label). reflexivity.
Qed.

(** The answer [{"prediction_label": "cat", "confidence": true}]. *)
Lemma boolean_confidence_is_numeric_witness :
  GeminiValidator.candidate_text
    (Sample.payload_of_text (Sample.answer "cat" "true"))
  = ret (Sample.answer "cat" "true")
  /\ exists r,
       GeminiValidator._parse_candidate Json.loads
         (Sample.payload_of_text (Sample.answer "cat" "true")) = ret r
       /\ GeminiValidator.prediction_label r = "cat"
       /\ GeminiValidator.confidence r = fone.
Proof.
  split; [reflexivity |].
  destruct (boolean_confidence_is_numeric Json.loads
              (Sample.payload_of_text (Sample.answer "cat" "true"))
              (Sample.answer "cat" "true")
              [("prediction_label", VStr "cat"); ("confidence", VBool true)]
              true eq_refl eq_refl eq_refl)
    as (_ & Hok & _).
  exact (Hok "cat" eq_refl).
Defined.

(** C9 as the specification states it fails when the object has a
    boolean confidence and no string label: the label is checked
    before the confidence, so [{"confidence": true}] is refused with
    the malformed-response error "Gemini JSON missing prediction_label
    string". *)
Lemma boolean_confidence_not_as_specified :
  ~ ClientSpec.boolean_confidence_as_specified Json.loads
  /\ GeminiValidator._parse_candidate Json.loads
       (Sample.payload_of_text Sample.confidence_only)
     = raise (ValueError Missing_prediction_label)
  /\ ClientSpec.malformed Missing_prediction_label = true.
Proof.
  split; [| split; reflexivity].
  intros Hclaim.
  destruct (Hclaim (Sample.payload_of_text Sample.confidence_only)
                   Sample.confidence_only [("confidence", VBool true)] true
                   eq_refl eq_refl eq_refl) as (Hnone & _).
  specialize (Hnone Missing_prediction_label eq_refl). discriminate Hnone.
Qed.

(** C4 (as amended). For a payload whose first text part is non-empty
    after trimming, write [t] for that text with an optional leading
    [```json] or [```] fence and trailing [```] fence removed and
    whitespace trimmed.  When [t] is not valid JSON, parsing fails with
    the malformed-response error whose message ends with [t].  When [t]
    is a JSON object: parsing succeeds only if [prediction_label] is a
    string and [confidence] is a number; if they are, and the
    confidence converts to a float, it returns that label, that float,
    the rationale if it is a string and none otherwise, and [t] as raw
    text; it fails with a malformed-response error of fixed message
    when [prediction_label] is absent or not a string, or when
    [confidence] is absent or not a number. *)
Theorem parse_candidate_outcomes :
  forall (json_loads : string -> option pyval) (payload : pyval)
         (text : string),
    GeminiValidator.candidate_text payload = ret text ->
    let t := GeminiValidator.strip_fences text in
    let parsed := GeminiValidator._parse_candidate json_loads payload in
    (json_loads t = None ->
     parsed = raise (ValueError (Not_valid_JSON t))
     /\ exists msg,
          GeminiValidator.message (Not_valid_JSON t) = Some msg
          /\ ClientSpec.occurs t msg = true)
    /\ (forall d : list (string * pyval),
          json_loads t = Some (VDict d) ->
          let label := ClientSpec.json_field (VDict d) "prediction_label" in
          let conf := ClientSpec.json_field (VDict d) "confidence" in
          let rat := ClientSpec.json_field (VDict d) "rationale" in
          ((exists r, parsed = ret r) ->
           is_str label = true /\ is_number conf = true)
          /\ (forall l c,
                label = VStr l -> is_number conf = true ->
                GeminiValidator.py_float conf = ret c ->
                parsed
                = ret {| GeminiValidator.prediction_label := l;
                         GeminiValidator.confidence := c;
                         GeminiValidator.rationale :=
                           match rat with VStr r => Some r | _ => None end;
                         GeminiValidator.raw_text := t |})
          /\ (is_str label = false ->
              parsed = raise (ValueError Missing_prediction_label))
          /\ (is_str label = true -> is_number conf = false ->
              parsed = raise (ValueError Missing_numeric_confidence)))
    /\ (forall s : string,
          GeminiValidator.strip_fences ("```json" ++ s ++ "```") = strip s
          /\ (startswith ("```" ++ s ++ "```") "```json" = false ->
              GeminiValidator.strip_fences ("```" ++ s ++ "```") = strip s)
          /\ (startswith s "```" = false -> endswith s "```" = false ->
              GeminiValidator.strip_fences s = strip s)).
Proof.
  intros loads payload text Htext t parsed.
  unfold parsed.
  rewrite (ParseFacts.parse_candidate_text loads payload text Htext).
  split; [| split].
  - intros Hnone. split.
    + apply ParseFacts.parse_text_not_json, Hnone.
    + eexists. split; [reflexivity |]. apply ParseFacts.occurs_suffix.
  - intros d Hjson. cbv zeta.
    rewrite (ParseFacts.parse_text_object loads text d Hjson).
    set (label := ClientSpec.json_field (VDict d) "prediction_label").
    set (conf := ClientSpec.json_field (VDict d) "confidence").
    set (rat := ClientSpec.json_field (VDict d) "rationale").
    split; [| split; [| split]].
    + intros [r Hr]. destruct label; try discriminate Hr.
      destruct (is_number conf); [| discriminate Hr].
      split; reflexivity.
    + intros l c -> Hnum Hc. rewrite Hnum, Hc. reflexivity.
    + intros Hstr. destruct label; try reflexivity. discriminate Hstr.
    + intros Hstr Hnum. destruct label; try discriminate Hstr.
      rewrite Hnum. reflexivity.
  - apply ParseFacts.strip_fences_cases.
Qed.

(** The answer of the test suite, wrapped in a [```json] fence. *)
Lemma parse_candidate_outcomes_witness :
  GeminiValidator.candidate_text
    (Sample.payload_of_text (Sample.fenced Sample.traffic_light))
  = ret (Sample.fenced Sample.traffic_light)
  /\ GeminiValidator._parse_candidate Json.loads
       (Sample.payload_of_text (Sample.fenced Sample.traffic_light))
     = ret {| GeminiValidator.prediction_label := "traffic_light";
              GeminiValidator.confidence := float_of_ratio 87 100;
              GeminiValidator.rationale :=
                Some "Object resembles a traffic light.";
              GeminiValidator.raw_text := Sample.traffic_light |}.
Proof.
  split; [reflexivity |].
  destruct (parse_candidate_outcomes Json.loads
              (Sample.payload_of_text (Sample.fenced Sample.traffic_light))
              (Sample.fenced Sample.traffic_light) eq_refl)
    as (_ & Hobject & _).
  destruct (Hobject
              [("prediction_label", VStr "traffic_light");
               ("confidence", VFloat (float_of_ratio 87 100));
               ("rationale", VStr "Object resembles a traffic light.")]
              eq_refl)
    as (_ & Hok & _).
  exact (Hok "traffic_light" (float_of_ratio 87 100) eq_refl eq_refl eq_refl).
Defined.

Example parse_rejects_invalid_json :
  GeminiValidator._parse_candidate Json.loads
    (Sample.payload_of_text "not json")
  = raise (ValueError (Not_valid_JSON "not json")).
Proof. reflexivity. Qed.

(** C4 as the specification states it fails.  The answer [{}] has no
    [prediction_label]: the error raised is a malformed-response error
    but its message does not carry the text.  Two further answers show
    outcomes that are neither success nor a malformed-response error:
    the JSON array [[]] has no [get], and an integer confidence of 400
    digits does not convert to a float. *)
Lemma parsing_not_as_specified :
  ~ ClientSpec.parsing_as_specified Json.loads
  /\ GeminiValidator._parse_candidate Json.loads (Sample.payload_of_text "{}")
     = raise (ValueError Missing_prediction_label)
  /\ GeminiValidator.message Missing_prediction_label
     = Some "Gemini JSON missing prediction_label string"
  /\ GeminiValidator._parse_candidate Json.loads (Sample.payload_of_text "[]")
     = raise AttributeError
  /\ GeminiValidator._parse_candidate Json.loads
       (Sample.payload_of_text (Sample.answer "cat" Sample.huge_integer))
     = raise OverflowError.
Proof.
  split; [| repeat split; reflexivity].
  intros Hclaim.
  destruct (Hclaim (Sample.payload_of_text "{}") "{}" eq_refl)
    as (_ & _ & Hfail).
  destruct Hfail as (why & msg & Hraise & _ & Hmsg & Hocc).
  - right. exists (VDict []). split; [reflexivity |]. left. reflexivity.
  - vm_compute in Hraise. injection Hraise as <-.
    vm_compute in Hmsg. injection Hmsg as <-.
    vm_compute in Hocc. discriminate Hocc.
Qed.

(* ------------------------------------------------------------------ *)
(** ** Verification client: retries *)

Module RetryFacts.

Import GeminiValidator ClientSpec.

Lemma requests_in_retry_trace (k : nat) (attempt : Z) :
  requests_in (retry_trace k attempt) = Z.of_nat k + 1.
Proof.
  revert attempt. induction k as [| k IH]; intros attempt.
  - reflexivity.
  - specialize (IH (attempt + 1)). unfold requests_in, len in *.
    cbn [retry_trace filter List.length]. lia.
Qed.

Lemma sleeps_in_retry_trace (k : nat) (attempt : Z) :
  sleeps_in (retry_trace k attempt)
  = map (fun i => sleep_seconds (attempt + Z.of_nat i)) (seq 1 k).
Proof.
  revert attempt. induction k as [| k IH]; intros attempt.
  - reflexivity.
  - cbn [retry_trace sleeps_in seq map]. f_equal.
    rewrite IH, <- (seq_shift k 1), map_map.
    apply map_ext. intros i. f_equal. lia.
Qed.

Lemma sleeps_in_retry_trace_0 (k : Z) :
  0 <= k -> sleeps_in (retry_trace (Z.to_nat k) 0) = backoffs k.
Proof. intros _. rewrite sleeps_in_retry_trace. reflexivity. Qed.

Section WithEnvironment.

Variable json_loads : string -> option pyval.
Variable requests_post : Z -> pyval -> result Response.
Variable self : GeminiValidator.
Variable body : pyval.

Let try := try_once json_loads requests_post body.

(** The loop retries [k] failing turns and stops at the next one, whose
    outcome [o] is a value, an exception the handler does not catch, or
    an exception at or past the retry budget. *)
Lemma retry_loop_run (k : nat) :
  forall (fuel : nat) (attempt : Z) (trace : list event)
         (o : result GeminiResponse),
    (k < fuel)%nat ->
    (forall i, attempt < i <= attempt + Z.of_nat k ->
               fails_at try i /\ i < max_retries self) ->
    try (attempt + Z.of_nat k + 1) = o ->
    match o with
    | inr _ => True
    | inl e => caught e = false \/ max_retries self <= attempt + Z.of_nat k + 1
    end ->
    retry_loop json_loads requests_post self body fuel attempt trace
    = Some (trace ++ retry_trace k attempt, o).
Proof.
  induction k as [| k IH]; intros fuel attempt trace o Hfuel Hfail Hlast Hstop;
    (destruct fuel as [| fuel]; [lia |]); cbn [retry_loop retry_trace].
  - replace (attempt + Z.of_nat 0 + 1) with (attempt + 1) in * by lia.
    fold try. rewrite Hlast.
    destruct o as [e | r]; [| reflexivity].
    destruct (caught e); [| reflexivity].
    destruct Hstop as [Hc | Hmax]; [discriminate |].
    destruct (Z.leb_spec (max_retries self) (attempt + 1)); [reflexivity | lia].
  - destruct (Hfail (attempt + 1)) as [(e & He & Hc) Hlt]; [lia |].
    fold try. rewrite He. unfold raise. rewrite Hc.
    destruct (Z.leb_spec (max_retries self) (attempt + 1)); [lia |].
    rewrite (IH fuel (attempt + 1) _ o).
    + rewrite <- !app_assoc. reflexivity.
    + lia.
    + intros i Hi. apply Hfail. lia.
    + rewrite <- Hlast. f_equal. lia.
    + destruct o; [| exact I].
      destruct Hstop as [Hs | Hs]; [left; exact Hs | right; lia].
Qed.

(** The loop ends within [max(n - attempt, 1)] turns, whatever the
    service does. *)
Lemma retry_loop_terminates (fuel : nat) :
  forall (attempt : Z) (trace : list event),
    (Z.to_nat (Z.max (max_retries self - attempt) 1) <= fuel)%nat ->
    exists outcome,
      retry_loop json_loads requests_post self body fuel attempt trace
      = Some outcome.
Proof.
  induction fuel as [| fuel IH]; intros attempt trace Hfuel; [lia |].
  cbn [retry_loop]. fold try.
  destruct (try (attempt + 1)) as [e | r]; [| eexists; reflexivity].
  destruct (caught e); [| eexists; reflexivity].
  destruct (Z.leb_spec (max_retries self) (attempt + 1));
    [eexists; reflexivity |].
  apply IH. lia.
Qed.

End WithEnvironment.

End RetryFacts.

(** C1 (as amended). For a call whose request body is built, with
    [max_retries = n] (and fuel for [max(n, 1)] turns of the loop): if
    the first [k < n] attempts fail with a transport or parsing error
    that the handler catches and attempt [k + 1] succeeds, the call
    returns that result after exactly [k + 1] requests, having slept
    [min(2^(i-1), 30)] after each failed attempt [i]; if every attempt
    fails, the call raises after exactly [max(n, 1)] requests, and what
    it raises is the error of the last attempt. *)
Theorem validate_crop_retries :
  forall (format_template : string -> string -> result string)
         (b64encode : string -> string)
         (json_loads : string -> option pyval)
         (requests_post : Z -> pyval -> result GeminiValidator.Response)
         (self : GeminiValidator.GeminiValidator) (fuel : nat)
         (crop_bytes expected_label : string) (guidelines : option string)
         (body : pyval),
    GeminiValidator._build_request_body format_template b64encode self
      crop_bytes expected_label guidelines = ret body ->
    (Z.to_nat (Z.max (GeminiValidator.max_retries self) 1) <= fuel)%nat ->
    let n := GeminiValidator.max_retries self in
    let try := GeminiValidator.try_once json_loads requests_post body in
    let outcome :=
      GeminiValidator.validate_crop format_template b64encode json_loads
        requests_post self fuel crop_bytes expected_label guidelines in
    (forall k r,
        0 <= k < n ->
        (forall i, 1 <= i <= k -> ClientSpec.fails_at try i) ->
        try (k + 1) = ret r ->
        exists trace,
          outcome = Some (trace, ret r)
          /\ GeminiValidator.requests_in trace = k + 1
          /\ GeminiValidator.sleeps_in trace = ClientSpec.backoffs k)
    /\ ((forall i, 1 <= i -> ClientSpec.fails_at try i) ->
        exists trace e,
          outcome = Some (trace, raise e)
          /\ GeminiValidator.requests_in trace = Z.max n 1
          /\ try (Z.max n 1) = raise e
          /\ GeminiValidator.sleeps_in trace
             = ClientSpec.backoffs (Z.max n 1 - 1)).
Proof.
  intros fmt b64 loads post self fuel crop label guidelines body Hbody Hfuel
         n try outcome.
  assert (Hout : outcome
                 = GeminiValidator.retry_loop loads post self body fuel 0 []).
  { unfold outcome, GeminiValidator.validate_crop. rewrite Hbody. reflexivity. }
  split.
  - intros k r Hk Hfail Hok.
    exists (ClientSpec.retry_trace (Z.to_nat k) 0).
    split; [| split].
    + rewrite Hout.
      rewrite (RetryFacts.retry_loop_run loads post self body (Z.to_nat k)
                 fuel 0 [] (ret r)).
      * reflexivity.
      * fold n in Hfuel. lia.
      * intros i Hi. split; [apply Hfail; lia | fold n; lia].
      * rewrite Z2Nat.id by lia. exact Hok.
      * exact I.
    + rewrite RetryFacts.requests_in_retry_trace. lia.
    + apply RetryFacts.sleeps_in_retry_trace_0. lia.
  - intros Hfail.
    destruct (Hfail (Z.max n 1)) as (e & He & Hc); [lia |].
    exists (ClientSpec.retry_trace (Z.to_nat (Z.max n 1 - 1)) 0), e.
    split; [| split; [| split]].
    + rewrite Hout.
      rewrite (RetryFacts.retry_loop_run loads post self body
                 (Z.to_nat (Z.max n 1 - 1)) fuel 0 [] (raise e)).
      * reflexivity.
      * fold n in Hfuel. lia.
      * intros i Hi. split; [apply Hfail; lia | fold n; lia].
      * replace (0 + Z.of_nat (Z.to_nat (Z.max n 1 - 1)) + 1)
          with (Z.max n 1) by lia.
        exact He.
      * right. fold n. lia.
    + rewrite RetryFacts.requests_in_retry_trace. lia.
    + exact He.
    + apply RetryFacts.sleeps_in_retry_trace_0. lia.
Qed.

(** A service that fails twice and then answers, with the default
    budget of three attempts: three requests, sleeps of 1 and 2. *)
Lemma validate_crop_retries_witness :
  GeminiValidator._build_request_body StrFormat.format Base64.b64encode
    (Sample.validator 3) "png" "cat" None = ret Sample.body_for_cat
  /\ (Z.to_nat (Z.max (GeminiValidator.max_retries (Sample.validator 3)) 1)
      <= 3)%nat
  /\ exists trace r,
       GeminiValidator.validate_crop StrFormat.format Base64.b64encode
         Json.loads (Sample.flaky 2 (Sample.answer "cat" "1"))
         (Sample.validator 3) 3 "png" "cat" None
       = Some (trace, ret r)
       /\ GeminiValidator.requests_in trace = 3
       /\ GeminiValidator.sleeps_in trace = [1; 2].
Proof.
  assert (Hfuel :
    (Z.to_nat (Z.max (GeminiValidator.max_retries (Sample.validator 3)) 1)
     <= 3)%nat) by (vm_compute; lia).
  split; [reflexivity |]. split; [exact Hfuel |].
  destruct (validate_crop_retries StrFormat.format Base64.b64encode
              Json.loads (Sample.flaky 2 (Sample.answer "cat" "1"))
              (Sample.validator 3) 3 "png" "cat" None Sample.body_for_cat
              eq_refl Hfuel)
    as (Hsuccess & _).
  destruct (Hsuccess 2
              {| GeminiValidator.prediction_label := "cat";
                 GeminiValidator.confidence := fone;
                 GeminiValidator.rationale := None;
                 GeminiValidator.raw_text := Sample.answer "cat" "1" |})
    as (trace & Hout & Hreq & Hsleep).
  - simpl. lia.
  - intros i Hi. exists RequestException.
    assert (Hcase : i = 1 \/ i = 2) by lia.
    destruct Hcase as [-> | ->]; split; reflexivity.
  - reflexivity.
  - exists trace. eexists. split; [exact Hout |].
    split; [exact Hreq | exact Hsleep].
Defined.

(** C1 as the specification states it fails for [max_retries = 0]: the
    loop makes its first attempt before it looks at the budget, so an
    unreachable service is asked once, not zero times. *)
Lemma retry_not_as_specified :
  ~ ClientSpec.retry_as_specified
  /\ GeminiValidator.validate_crop StrFormat.format Base64.b64encode
       Json.loads Sample.unreachable (Sample.validator 0) 1 "png" "cat" None
     = Some ([GeminiValidator.Request 1], raise RequestException).
Proof.
  split; [| reflexivity].
  intros Hclaim.
  destruct (Hclaim StrFormat.format Base64.b64encode Json.loads
              Sample.unreachable (Sample.validator 0) 1%nat "png" "cat" None
              Sample.body_for_cat eq_refl)
    as (_ & Hexhausted).
  - vm_compute. lia.
  - destruct Hexhausted as (trace & e & Hout & Hreq & _).
    + intros i _. exists RequestException. split; reflexivity.
    + vm_compute in Hout. injection Hout as <- _.
      vm_compute in Hreq. discriminate Hreq.
Qed.

(* ------------------------------------------------------------------ *)
(** ** Checks of the embedding against known values *)

(** The largest integer that converts to a float, and the first that
    does not. *)
Example float_of_int_boundary :
  float_of_Z (overflow_bound - 1) = S754_finite false (2 ^ 53 - 1) 971
  /\ float_of_Z overflow_bound = S754_infinity false
  /\ float_of_int (overflow_bound - 1)
     = ret (S754_finite false (2 ^ 53 - 1) 971)
  /\ float_of_int overflow_bound = raise OverflowError.
Proof. repeat split; reflexivity. Qed.

(** [0.87] is [0x1.bd70a3d70a3d7p-1], [2 / 3] is [0x1.5555555555555p-1],
    [int(-3.5)] is [-3]. *)
Example binary64_values :
  float_of_ratio 87 100 = S754_finite false 7836263351624663 (-53)
  /\ int_truediv 2 3 = ret (S754_finite false 6004799503160661 (-53))
  /\ int_of_float (float_of_ratio (-7) 2) = ret (-3)
  /\ fone = S754_finite false 4503599627370496 (-52).
Proof. repeat split; reflexivity. Qed.

(** [test_polygon_mask_applies_transparency]: a white 32 x 32 image, the
    square polygon, padding 2.  The crop is 20 x 20, its corner is
    transparent and its centre opaque. *)
Example polygon_mask_applies_transparency :
  exists crop,
    ImageUtils.crop_annotation Sample.fill_bounds Sample.keep_source
      (PIL.new PIL.RGB 32 32 [255; 255; 255])
      (Sample.annotation VNone (VList [Sample.flat_square]))
      (Some (Sample.config 2 true)) = ret crop
    /\ PIL.mode_of crop = PIL.RGBA
    /\ (PIL.width crop, PIL.height crop) = (20, 20)
    /\ PIL.getpixel crop 0 0 = [255; 255; 255; 0]
    /\ PIL.getpixel crop 10 10 = [255; 255; 255; 255].
Proof. eexists. repeat split; reflexivity. Qed.

(** The backoff doubles from 1 and is capped at 30. *)
Example backoff_schedule :
  map GeminiValidator.sleep_seconds [1; 2; 3; 4; 5; 6; 7]
  = [1; 2; 4; 8; 16; 30; 30].
Proof. reflexivity. Qed.

(** An exception the handler does not catch ends the call at the first
    attempt, whatever the budget. *)
Example uncaught_error_is_not_retried :
  GeminiValidator.validate_crop StrFormat.format Base64.b64encode Json.loads
    (Sample.flaky 0 "[]") (Sample.validator 3) 3 "png" "cat" None
  = Some ([GeminiValidator.Request 1], raise AttributeError).
Proof. reflexivity. Qed.

(* ================================================================== *)
(** * Further properties: lookups, geometry, the client, the run *)
(* ================================================================== *)

(* ------------------------------------------------------------------ *)
(** ** Iterating a dataset *)

Module LookupFacts.

Import DataLoader Keys Dataset.

Lemma find_Some {V} (d : list (pyval * V)) (k : pyval) (v : V) :
  find d k = Some v -> exists k', In (k', v) d /\ key_eq k' k = true.
Proof.
  induction d as [| [k' v'] d IH]; simpl; intros H; [discriminate |].
  destruct (find d k) as [x |] eqn:Hd.
  - injection H as ->. destruct (IH eq_refl) as (k0 & Hin & Hk).
    exists k0. split; [right; exact Hin | exact Hk].
  - destruct (key_eq k' k) eqn:Hk; [| discriminate].
    injection H as ->. exists k'. split; [left; reflexivity | exact Hk].
Qed.

Lemma find_None {V} (d : list (pyval * V)) (k : pyval) :
  find d k = None -> forall k' v, In (k', v) d -> key_eq k' k = false.
Proof.
  induction d as [| [k0 v0] d IH]; simpl; intros H k' v Hin; [contradiction |].
  destruct (find d k) as [x |] eqn:Hd; [discriminate |].
  destruct (key_eq k0 k) eqn:Hk; [discriminate |].
  destruct Hin as [Heq | Hin].
  - injection Heq as <- _. exact Hk.
  - apply (IH eq_refl k' v Hin).
Qed.

Lemma resolve_inv (ds : CocoDataset) (ann a : Annotation)
                  (image : ImageInfo) (category : Category) :
  resolve ds ann = inr (image, a, category) ->
  a = ann
  /\ find (images ds) (image_id ann) = Some image
  /\ find (categories ds) (category_id ann) = Some category.
Proof.
  unfold resolve. intros H.
  destruct (hashable (image_id ann)); simpl in H; [| discriminate].
  destruct (find (images ds) (image_id ann)) as [im |]; [| discriminate].
  destruct (hashable (category_id ann)); simpl in H; [| discriminate].
  destruct (find (categories ds) (category_id ann)) as [c |]; [| discriminate].
  injection H as <- <- <-. repeat split.
Qed.

(** What the generator has yielded when it stops on [anns]. *)
Lemma iter_from_yields (ds : CocoDataset) (anns : list Annotation) :
  map (fun t : resolved => snd (fst t)) (fst (iter_from ds anns))
  = firstn (List.length (fst (iter_from ds anns))) anns
  /\ (snd (iter_from ds anns) = None ->
      List.length (fst (iter_from ds anns)) = List.length anns)
  /\ Forall (fun t : resolved => resolve ds (snd (fst t)) = inr t)
            (fst (iter_from ds anns)).
Proof.
  induction anns as [| ann rest IH]; simpl.
  - repeat split. constructor.
  - destruct (resolve ds ann) as [e | [[image a] category]] eqn:Hres; simpl.
    + repeat split; [discriminate | constructor].
    + destruct (resolve_inv _ _ _ _ _ Hres) as (-> & _ & _).
      destruct (iter_from ds rest) as [triples e]. simpl in *.
      destruct IH as (Hmap & Hlen & Hall).
      split; [f_equal; exact Hmap |].
      split; [intros He; f_equal; apply Hlen, He |].
      constructor; [exact Hres | exact Hall].
Qed.


Lemma for_each_Forall {A B} (f : A -> result B) (P : B -> Prop)
                       (l : list A) (ys : list B) :
  (forall x y, f x = ret y -> P y) -> for_each f l = ret ys -> Forall P ys.
Proof.
  intros HP H. apply LoaderFacts.for_each_Forall2 in H.
  induction H as [| x y l ys Hxy _ IH]; constructor;
    [exact (HP x y Hxy) | exact IH].
Qed.

Lemma loaded_keys (coco : pyval) (ds : CocoDataset) :
  load_coco_dataset coco = ret ds ->
  Forall (fun kv => fst kv = image_ident (snd kv)) (images ds)
  /\ Forall (fun kv => fst kv = category_ident (snd kv)) (categories ds).
Proof.
  unfold load_coco_dataset. intros H. bind_steps H. injection H as <-. simpl.
  split.
  - match goal with
    | Hf : for_each load_image _ = ret _ |- _ =>
        refine (for_each_Forall _ _ _ _ _ Hf); intros entry kv Hload
    end.
    unfold load_image in Hload. bind_steps Hload.
    injection Hload as <-. simpl. unfold ret in *. congruence.
  - match goal with
    | Hf : for_each load_category _ = ret _ |- _ =>
        refine (for_each_Forall _ _ _ _ _ Hf); intros entry kv Hload
    end.
    unfold load_category in Hload. bind_steps Hload.
    injection Hload as <-. simpl. unfold ret in *. congruence.
Qed.

End LookupFacts.

(** X1. For a dataset in which no annotation refers to its image or
    category by a NaN, [iter_annotations] yields the annotations in
    their stored order, from the first one on and without gaps; when
    it ends without an error it has yielded every annotation; and each
    annotation comes with an image stored under a key equal to its
    [image_id] and a category stored under a key equal to its
    [category_id].  (A NaN reference is set aside because a dict finds
    a NaN key by identity, which the embedding does not model; for
    every other key, being found and being equal to a stored key are
    the same.) *)
Theorem iter_annotations_in_order :
  forall ds : DataLoader.CocoDataset,
    Dataset.no_nan_references ds = true ->
    let triples := fst (Dataset.iter_annotations ds) in
    map (fun t : Dataset.resolved => snd (fst t)) triples
    = firstn (List.length triples) (DataLoader.annotations ds)
    /\ (snd (Dataset.iter_annotations ds) = None ->
        List.length triples = List.length (DataLoader.annotations ds))
    /\ Forall (fun t : Dataset.resolved =>
                 let '(image, ann, category) := t in
                 (exists k, In (k, image) (DataLoader.images ds)
                            /\ Keys.key_eq k (DataLoader.image_id ann) = true)
                 /\ (exists k, In (k, category) (DataLoader.categories ds)
                               /\ Keys.key_eq k (DataLoader.category_id ann)
                                  = true))
              triples.
Proof.
  intros ds _ triples. unfold triples, Dataset.iter_annotations.
  destruct (LookupFacts.iter_from_yields ds (DataLoader.annotations ds))
    as (Hmap & Hlen & Hall).
  split; [exact Hmap |]. split; [exact Hlen |].
  eapply Forall_impl; [| exact Hall].
  intros [[image ann] category] Hres. simpl in Hres.
  destruct (LookupFacts.resolve_inv _ _ _ _ _ Hres) as (_ & Hi & Hc).
  split; [apply LookupFacts.find_Some, Hi | apply LookupFacts.find_Some, Hc].
Qed.

(** The sample whose second annotation is dangling yields its first
    annotation only; the complete sample yields all three. *)
Lemma iter_annotations_in_order_witness :
  Dataset.no_nan_references Cases.dataset = true
  /\ snd (Dataset.iter_annotations Cases.dataset) = None
  /\ List.length (fst (Dataset.iter_annotations Cases.dataset))
     = List.length (DataLoader.annotations Cases.dataset)
  /\ map (fun t : Dataset.resolved => DataLoader.id (snd (fst t)))
         (fst (Dataset.iter_annotations Cases.dataset_dangling))
     = [VInt 100].
Proof.
  split; [reflexivity |]. split; [reflexivity |]. split; [| reflexivity].
  destruct (iter_annotations_in_order Cases.dataset eq_refl)
    as (_ & Hall & _).
  exact (Hall eq_refl).
Defined.



(** X3. In a dataset that [load_coco_dataset] has returned, every image
    and every category is stored under its own id; so, when no
    annotation refers to its image or category by a NaN, each triple
    that [iter_annotations] yields holds the image whose [id] equals
    the annotation's [image_id] and the category whose [id] equals its
    [category_id].  (A NaN reference is set aside: the dict finds it by
    identity, which the embedding does not model, and a NaN equals
    nothing.) *)
Theorem loaded_annotations_resolve_by_id :
  forall (coco : pyval) (ds : DataLoader.CocoDataset),
    DataLoader.load_coco_dataset coco = ret ds ->
    Dataset.no_nan_references ds = true ->
    Forall (fun t : Dataset.resolved =>
              let '(image, ann, category) := t in
              Keys.key_eq (DataLoader.image_ident image)
                          (DataLoader.image_id ann) = true
              /\ Keys.key_eq (DataLoader.category_ident category)
                             (DataLoader.category_id ann) = true)
           (fst (Dataset.iter_annotations ds)).
Proof.
  intros coco ds Hload _.
  destruct (LookupFacts.loaded_keys coco ds Hload) as (Him & Hcat).
  rewrite Forall_forall in Him, Hcat.
  destruct (LookupFacts.iter_from_yields ds (DataLoader.annotations ds))
    as (_ & _ & Hall).
  unfold Dataset.iter_annotations.
  eapply Forall_impl; [| exact Hall].
  intros [[image ann] category] Hres. simpl in Hres.
  destruct (LookupFacts.resolve_inv _ _ _ _ _ Hres) as (_ & Hi & Hc).
  apply LookupFacts.find_Some in Hi, Hc.
  destruct Hi as (ki & Hini & Hki). destruct Hc as (kc & Hinc & Hkc).
  specialize (Him _ Hini). specialize (Hcat _ Hinc). simpl in Him, Hcat.
  subst ki kc. split; assumption.
Qed.

(** The sample document: three annotations, each with its image and its
    category. *)
Lemma loaded_annotations_resolve_by_id_witness :
  DataLoader.load_coco_dataset Cases.coco = ret Cases.dataset
  /\ Dataset.no_nan_references Cases.dataset = true
  /\ map (fun t : Dataset.resolved =>
            let '(image, ann, category) := t in
            (DataLoader.id ann, DataLoader.file_name image,
             DataLoader.name category))
         (fst (Dataset.iter_annotations Cases.dataset))
     = [(VInt 100, VStr "a.png", VStr "cat");
        (VInt 101, VStr "b.png", VStr "dog");
        (VInt 102, VStr "a.png", VStr "dog")]
  /\ Forall (fun t : Dataset.resolved =>
               let '(image, ann, category) := t in
               Keys.key_eq (DataLoader.image_ident image)
                           (DataLoader.image_id ann) = true
               /\ Keys.key_eq (DataLoader.category_ident category)
                              (DataLoader.category_id ann) = true)
            (fst (Dataset.iter_annotations Cases.dataset)).
Proof.
  split; [reflexivity |]. split; [reflexivity |]. split; [reflexivity |].
  exact (loaded_annotations_resolve_by_id Cases.coco Cases.dataset eq_refl
           eq_refl).
Defined.

(* ------------------------------------------------------------------ *)
(** ** Which documents load *)

Module LoadFacts.

Import DataLoader Keys Dataset.

Lemma for_each_total {A B} (f : A -> result B) (l : list A) :
  Forall (fun x => exists y, f x = ret y) l ->
  exists ys, for_each f l = ret ys /\ List.length ys = List.length l.
Proof.
  induction 1 as [| x l (y & Hy) _ (ys & Hys & Hlen)]; simpl.
  - exists []. split; reflexivity.
  - rewrite Hy, Hys. exists (y :: ys). simpl. split; [reflexivity | congruence].
Qed.

Lemma for_each_inputs {A B} (f : A -> result B) (l : list A) (ys : list B) :
  for_each f l = ret ys -> Forall (fun x => exists y, f x = ret y) l.
Proof.
  intros H. apply LoaderFacts.for_each_Forall2 in H.
  induction H as [| x y l ys Hxy _ IH]; constructor;
    [exists y; exact Hxy | exact IH].
Qed.

Lemma getitem_inv (entry : pyval) (k : string) (v : pyval) :
  py_getitem entry k = ret v ->
  exists d, entry = VDict d /\ assoc d k = Some v.
Proof.
  destruct entry as [| | | | | |d]; simpl; try discriminate.
  destruct (assoc d k) as [x |] eqn:Hk; [| discriminate].
  intros H. injection H as ->. exists d. split; [reflexivity | exact Hk].
Qed.

Ltac has_key :=
  match goal with
  | H : py_getitem (VDict ?d) ?k = ret _ |- context [assoc ?d ?k] =>
      let d' := fresh in
      let E := fresh in
      let A := fresh in
      destruct (getitem_inv _ _ _ H) as (d' & E & A);
      injection E as <-; rewrite A
  end.

Lemma load_category_keys (entry : pyval) (kv : pyval * Category) :
  load_category entry = ret kv -> has_keys ["id"; "name"] entry = true.
Proof.
  unfold load_category. intros H. bind_steps H.
  match goal with
  | H0 : py_getitem entry _ = ret _ |- _ =>
      destruct (getitem_inv _ _ _ H0) as (d & -> & _)
  end.
  simpl. repeat has_key. reflexivity.
Qed.

Lemma load_image_keys (entry : pyval) (kv : pyval * ImageInfo) :
  load_image entry = ret kv ->
  has_keys ["id"; "file_name"; "width"; "height"] entry = true.
Proof.
  unfold load_image. intros H. bind_steps H.
  match goal with
  | H0 : py_getitem entry _ = ret _ |- _ =>
      destruct (getitem_inv _ _ _ H0) as (d & -> & _)
  end.
  simpl. repeat has_key. reflexivity.
Qed.

Lemma load_annotation_keys (entry : pyval) (a : Annotation) :
  load_annotation entry = ret a ->
  has_keys ["id"; "image_id"; "category_id"] entry = true.
Proof.
  unfold load_annotation. intros H. bind_steps H.
  match goal with
  | H0 : py_getitem entry _ = ret _ |- _ =>
      destruct (getitem_inv _ _ _ H0) as (d & -> & _)
  end.
  simpl. repeat has_key. reflexivity.
Qed.

Lemma has_keys_inv (keys : list string) (entry : pyval) :
  has_keys keys entry = true ->
  keys = [] \/ exists d, entry = VDict d
                 /\ forall k, In k keys -> exists v, assoc d k = Some v.
Proof.
  destruct entry as [| | | | | |d]; simpl; try discriminate.
  intros H. right. exists d. split; [reflexivity |].
  rewrite forallb_forall in H. intros k Hk. specialize (H k Hk).
  destruct (assoc d k) as [v |]; [exists v; reflexivity | discriminate].
Qed.

Ltac keys_of H :=
  apply has_keys_inv in H; destruct H as [H | (?d & -> & H)];
  [discriminate |].

Lemma load_category_total (entry : pyval) :
  has_keys ["id"; "name"] entry = true -> exists kv, load_category entry = ret kv.
Proof.
  intros H. keys_of H.
  destruct (H "id") as (i & Hi); [simpl; tauto |].
  destruct (H "name") as (n & Hn); [simpl; tauto |].
  unfold load_category, py_getitem, py_get. rewrite Hi, Hn. simpl.
  eexists. reflexivity.
Qed.

Lemma load_image_total (entry : pyval) :
  has_keys ["id"; "file_name"; "width"; "height"] entry = true ->
  exists kv, load_image entry = ret kv.
Proof.
  intros H. keys_of H.
  destruct (H "id") as (i & Hi); [simpl; tauto |].
  destruct (H "file_name") as (n & Hn); [simpl; tauto |].
  destruct (H "width") as (w & Hw); [simpl; tauto |].
  destruct (H "height") as (h & Hh); [simpl; tauto |].
  unfold load_image, py_getitem. rewrite Hi, Hn, Hw, Hh. simpl.
  eexists. reflexivity.
Qed.

Lemma load_annotation_total' (entry : pyval) :
  has_keys ["id"; "image_id"; "category_id"] entry = true ->
  exists a, load_annotation entry = ret a.
Proof.
  intros H. keys_of H.
  destruct (H "id") as (i & Hi); [simpl; tauto |].
  destruct (H "image_id") as (n & Hn); [simpl; tauto |].
  destruct (H "category_id") as (w & Hw); [simpl; tauto |].
  apply (LoaderFacts.load_annotation_total d i n w); assumption.
Qed.

Lemma section_ok_inv (coco : pyval) (name : string) (ok : pyval -> bool) :
  section_ok coco name ok = true ->
  exists v entries,
    py_get coco name (VList []) = ret v /\ py_iter v = ret entries
    /\ Forall (fun e => ok e = true) entries.
Proof.
  unfold section_ok, section. intros H.
  destruct (py_get coco name (VList [])) as [e | v]; simpl in H;
    [discriminate |].
  destruct (py_iter v) as [e | entries] eqn:Hi; [discriminate |].
  exists v, entries. repeat split; [exact Hi |].
  apply Forall_forall. apply forallb_forall. exact H.
Qed.

Lemma section_ok_intro (coco : pyval) (name : string) (ok : pyval -> bool)
                       (v : pyval) (entries : list pyval) :
  py_get coco name (VList []) = ret v -> py_iter v = ret entries ->
  Forall (fun e => ok e = true) entries ->
  section_ok coco name ok = true.
Proof.
  intros Hg Hi Hall. unfold section_ok, section. rewrite Hg. simpl.
  rewrite Hi. apply forallb_forall. apply Forall_forall. exact Hall.
Qed.

End LoadFacts.

(** X4. [load_coco_dataset] returns a dataset for every document that
    is an object whose three sections (taken as empty when absent) can
    be iterated and whose entries are objects with the keys the loader
    subscripts ([id], [name]; [id], [file_name], [width], [height];
    [id], [image_id], [category_id]), the ids of images and categories
    being hashable; the dataset has one annotation per entry of the
    [annotations] section.  The optional keys ([bbox], [segmentation],
    [supercategory], ...) may all be missing.  (The embedding keeps the
    pairs of the two dict comprehensions and does not hash their keys;
    the hypothesis on the ids keeps the statement to the documents for
    which Python builds the dicts.) *)
Theorem load_coco_dataset_returns :
  forall coco : pyval,
    Dataset.loadable coco = true ->
    Dataset.keys_hashable coco = true ->
    exists ds entries,
      DataLoader.load_coco_dataset coco = ret ds
      /\ Dataset.section coco "annotations" = ret entries
      /\ List.length (DataLoader.annotations ds) = List.length entries.
Proof.
  intros coco Hok _. unfold Dataset.loadable in Hok.
  apply andb_prop in Hok. destruct Hok as [Hok Hanns].
  apply andb_prop in Hok. destruct Hok as [Hcats Hims].
  apply LoadFacts.section_ok_inv in Hcats, Hims, Hanns.
  destruct Hcats as (vc & cs & Hgc & Hic & Hcs).
  destruct Hims as (vi & ims & Hgi & Hii & Hims).
  destruct Hanns as (va & anns & Hga & Hia & Hanns).
  destruct (LoadFacts.for_each_total DataLoader.load_category cs)
    as (categories & Hc & _).
  { eapply Forall_impl; [| exact Hcs].
    intros e He. apply LoadFacts.load_category_total, He. }
  destruct (LoadFacts.for_each_total DataLoader.load_image ims)
    as (images & Hi & _).
  { eapply Forall_impl; [| exact Hims].
    intros e He. apply LoadFacts.load_image_total, He. }
  destruct (LoadFacts.for_each_total DataLoader.load_annotation anns)
    as (annotations & Ha & Hlen).
  { eapply Forall_impl; [| exact Hanns].
    intros e He. apply LoadFacts.load_annotation_total', He. }
  eexists. exists anns.
  unfold DataLoader.load_coco_dataset, Dataset.section.
  rewrite Hgc. simpl. rewrite Hic. simpl. rewrite Hc. simpl.
  rewrite Hgi. simpl. rewrite Hii. simpl. rewrite Hi. simpl.
  rewrite Hga. simpl. rewrite Hia. simpl. rewrite Ha. simpl.
  split; [reflexivity |]. split; [reflexivity | exact Hlen].
Qed.

(** The sample document loads; so does the empty object. *)
Lemma load_coco_dataset_returns_witness :
  Dataset.loadable Cases.coco = true
  /\ Dataset.keys_hashable Cases.coco = true
  /\ DataLoader.load_coco_dataset (VDict []) = ret Cases.empty_dataset
  /\ exists ds entries,
       DataLoader.load_coco_dataset Cases.coco = ret ds
       /\ Dataset.section Cases.coco "annotations" = ret entries
       /\ List.length (DataLoader.annotations ds) = List.length entries.
Proof.
  split; [reflexivity |]. split; [reflexivity |]. split; [reflexivity |].
  exact (load_coco_dataset_returns Cases.coco eq_refl eq_refl).
Defined.

(** X5. [load_coco_dataset] builds no partial dataset: when the
    document is not an object, a section cannot be iterated, or any
    entry of any section is not an object with its required keys, it
    raises. *)
Theorem load_coco_dataset_all_or_nothing :
  forall coco : pyval,
    Dataset.loadable coco = false ->
    exists e, DataLoader.load_coco_dataset coco = raise e.
Proof.
  intros coco Hbad.
  destruct (DataLoader.load_coco_dataset coco) as [e | ds] eqn:Hload;
    [exists e; reflexivity |].
  exfalso. revert Hbad. apply eq_true_false_abs.
  unfold DataLoader.load_coco_dataset in Hload. bind_steps Hload.
  unfold Dataset.loadable.
  repeat match goal with
  | Hg : py_get coco ?name _ = ret ?v, Hi : py_iter ?v = ret ?es,
    Hf : DataLoader.for_each _ ?es = ret _ |- _ =>
      apply LoadFacts.for_each_inputs in Hf;
      let Hs := fresh "Hs" in
      pose proof (fun ok => LoadFacts.section_ok_intro coco name ok v es Hg Hi)
        as Hs;
      clear Hg
  end.
  rewrite !andb_true_iff. split; [split |];
    match goal with
    | Hs : forall ok, _ -> Dataset.section_ok coco ?name ok = true
      |- Dataset.section_ok coco ?name _ = true => apply Hs
    end;
    (eapply Forall_impl; [| eassumption]); intros entry (y & Hy).
  - apply (LoadFacts.load_category_keys entry y Hy).
  - apply (LoadFacts.load_image_keys entry y Hy).
  - apply (LoadFacts.load_annotation_keys entry y Hy).
Qed.

(** An annotation entry without [image_id] stops the load with
    [KeyError('image_id')], though two entries before it were fine. *)
Lemma load_coco_dataset_all_or_nothing_witness :
  Dataset.loadable Cases.coco_missing_key = false
  /\ DataLoader.load_coco_dataset Cases.coco_missing_key
     = raise (KeyError "image_id")
  /\ exists e, DataLoader.load_coco_dataset Cases.coco_missing_key = raise e.
Proof.
  split; [reflexivity |]. split; [reflexivity |].
  exact (load_coco_dataset_all_or_nothing Cases.coco_missing_key eq_refl).
Defined.

(** X6. Normalizing a segmentation twice is the same as normalizing it
    once: a flat list is wrapped once and the wrapped list, whose first
    item is a list, is left alone. *)
Theorem normalize_segmentation_idempotent :
  forall segmentation : pyval,
    DataLoader.normalize_segmentation
      (DataLoader.normalize_segmentation segmentation)
    = DataLoader.normalize_segmentation segmentation.
Proof.
  intros seg. destruct seg as [| | | | | l |]; try reflexivity.
  destruct l as [| first rest]; [reflexivity |].
  simpl. destruct (is_number first) eqn:Hn.
  - reflexivity.
  - simpl. rewrite Hn. reflexivity.
Qed.

(* ------------------------------------------------------------------ *)
(** ** The bounding box of a polygon and the padded rectangle *)

Module PolygonFacts.

Import DataLoader ImageUtils Geometry.

Lemma evens_cons {A} (x : A) (l : list A) : evens (x :: l) = x :: odds l.
Proof. unfold evens, odds. simpl. destruct (alternate l). reflexivity. Qed.

Lemma odds_cons {A} (x : A) (l : list A) : odds (x :: l) = evens l.
Proof. unfold evens, odds. simpl. destruct (alternate l). reflexivity. Qed.

Lemma odds_nil_iff {A} (l : list A) :
  odds l = [] <-> (List.length l <= 1)%nat.
Proof.
  destruct l as [| x [| y l]].
  - simpl. split; [lia | reflexivity].
  - simpl. split; [lia | reflexivity].
  - rewrite odds_cons, evens_cons. simpl. split; [discriminate | lia].
Qed.

Lemma evens_nil_iff {A} (l : list A) : evens l = [] <-> l = [].
Proof.
  destruct l as [| x l]; [split; reflexivity |].
  rewrite evens_cons. split; discriminate.
Qed.

(** The inner loop sends the values alternately to the two lists,
    starting with [xs] at an even index. *)
Lemma enumerate_xy_alternate (values xs ys : list pyval) (i : Z) :
  enumerate_xy i values xs ys
  = if i mod 2 =? 0 then (xs ++ evens values, ys ++ odds values)
    else (xs ++ odds values, ys ++ evens values).
Proof.
  revert xs ys i. induction values as [| v rest IH]; intros xs ys i.
  - simpl. rewrite !app_nil_r. destruct (i mod 2 =? 0); reflexivity.
  - cbn [enumerate_xy]. rewrite evens_cons, odds_cons.
    destruct (Z.eqb_spec (i mod 2) 0) as [He | Ho]; rewrite IH.
    + destruct (Z.eqb_spec ((i + 1) mod 2) 0) as [He' | _].
      * exfalso. rewrite Zplus_mod, He in He'. discriminate.
      * rewrite <- app_assoc. reflexivity.
    + destruct (Z.eqb_spec ((i + 1) mod 2) 0) as [_ | Ho'].
      * rewrite <- app_assoc. reflexivity.
      * exfalso. pose proof (Z.mod_pos_bound i 2 ltac:(lia)).
        assert (Hi : i mod 2 = 1) by lia.
        apply Ho'. rewrite Zplus_mod, Hi. reflexivity.
Qed.

Lemma collect_xy_lists (segments : list (list pyval)) (xs ys : list pyval) :
  collect_xy (map VList segments) xs ys
  = ret (xs ++ xs_of segments, ys ++ ys_of segments).
Proof.
  revert xs ys. induction segments as [| s rest IH]; intros xs ys.
  - simpl. rewrite !app_nil_r. reflexivity.
  - cbn [map collect_xy py_iter bind ret].
    rewrite enumerate_xy_alternate. cbn [Z.eqb Z.modulo Z.div_eucl].
    rewrite IH. unfold xs_of, ys_of. cbn [flat_map].
    rewrite <- !app_assoc. reflexivity.
Qed.

Lemma numbers_length (l : list pyval) (ns : list num) :
  numbers l = ret ns -> List.length ns = List.length l.
Proof.
  unfold numbers. revert ns. induction l as [| v l IH]; intros ns; simpl.
  - intros H. injection H as <-. reflexivity.
  - destruct (as_num v) as [n |]; [| discriminate].
    destruct (as_nums l) as [ns' |]; [| discriminate].
    intros H. injection H as <-. simpl. f_equal. apply IH. reflexivity.
Qed.

Lemma numbers_ints (zs : list Z) : numbers (map VInt zs) = ret (map NInt zs).
Proof.
  unfold numbers. induction zs as [| z zs IH]; [reflexivity |].
  simpl. destruct (as_nums (map VInt zs)) as [ns |]; [| discriminate].
  injection IH as ->. reflexivity.
Qed.

Lemma py_min_ints (xs : list Z) (x : Z) :
  py_min (NInt x) (map NInt xs) = NInt (fold_left Z.min xs x).
Proof.
  unfold py_min. revert x. induction xs as [| y xs IH]; intros x;
    [reflexivity |].
  simpl. unfold num_lt at 2. simpl.
  destruct (Z.compare_spec y x); rewrite IH; f_equal; f_equal; lia.
Qed.

Lemma py_max_ints (xs : list Z) (x : Z) :
  py_max (NInt x) (map NInt xs) = NInt (fold_left Z.max xs x).
Proof.
  unfold py_max. revert x. induction xs as [| y xs IH]; intros x;
    [reflexivity |].
  simpl. unfold num_lt at 2. simpl.
  destruct (Z.compare_spec x y); rewrite IH; f_equal; f_equal; lia.
Qed.

Lemma fold_min_least (xs : list Z) (x : Z) :
  In (fold_left Z.min xs x) (x :: xs)
  /\ Forall (fun y => fold_left Z.min xs x <= y) (x :: xs).
Proof.
  revert x. induction xs as [| y xs IH]; intros x; simpl.
  - split; [left; reflexivity | constructor; [lia | constructor]].
  - destruct (IH (Z.min x y)) as (Hin & Hall).
    inversion Hall as [| ? ? Hhd Htl]; subst.
    split.
    + simpl in Hin. destruct Hin as [Heq | Hin]; [| right; right; exact Hin].
      rewrite <- Heq. destruct (Z.min_spec x y) as [(_ & ->) | (_ & ->)];
        [left | right; left]; reflexivity.
    + constructor; [lia |]. constructor; [lia | exact Htl].
Qed.

Lemma fold_max_greatest (xs : list Z) (x : Z) :
  In (fold_left Z.max xs x) (x :: xs)
  /\ Forall (fun y => y <= fold_left Z.max xs x) (x :: xs).
Proof.
  revert x. induction xs as [| y xs IH]; intros x; simpl.
  - split; [left; reflexivity | constructor; [lia | constructor]].
  - destruct (IH (Z.max x y)) as (Hin & Hall).
    inversion Hall as [| ? ? Hhd Htl]; subst.
    split.
    + simpl in Hin. destruct Hin as [Heq | Hin]; [| right; right; exact Hin].
      rewrite <- Heq. destruct (Z.max_spec x y) as [(_ & ->) | (_ & ->)];
        [right; left | left]; reflexivity.
    + constructor; [lia |]. constructor; [lia | exact Htl].
Qed.

Lemma flat_map_ints (f : forall A, list A -> list A)
                    (Hf : forall (l : list Z), f pyval (map VInt l) = map VInt (f Z l))
                    (polygons : list (list Z)) :
  flat_map (f pyval) (map (map VInt) polygons)
  = map VInt (flat_map (f Z) polygons).
Proof.
  induction polygons as [| p rest IH]; [reflexivity |].
  simpl. rewrite Hf, IH, map_app. reflexivity.
Qed.

Lemma alternate_map {A B} (g : A -> B) (l : list A) :
  evens (map g l) = map g (evens l) /\ odds (map g l) = map g (odds l).
Proof.
  induction l as [| x l (He & Ho)]; [split; reflexivity |].
  simpl map. rewrite !evens_cons, !odds_cons. simpl. rewrite He, Ho.
  split; reflexivity.
Qed.

Lemma xs_of_ints (polygons : list (list Z)) :
  xs_of (map (map VInt) polygons) = map VInt (xs_of polygons).
Proof.
  apply (flat_map_ints (@evens)). intros l. apply alternate_map.
Qed.

Lemma ys_of_ints (polygons : list (list Z)) :
  ys_of (map (map VInt) polygons) = map VInt (ys_of polygons).
Proof.
  apply (flat_map_ints (@odds)). intros l. apply alternate_map.
Qed.

(** The bounding box of integer polygons, computed. *)
Lemma polygon_bbox_ints (polygons : list (list Z)) (x y : Z) (xs ys : list Z) :
  xs_of polygons = x :: xs -> ys_of polygons = y :: ys ->
  _polygon_bbox (int_polygons polygons)
  = ret (NInt (fold_left Z.min xs x), NInt (fold_left Z.min ys y),
         NInt (fold_left Z.max xs x), NInt (fold_left Z.max ys y)).
Proof.
  intros Hx Hy. unfold _polygon_bbox, int_polygons.
  cbn [py_iter bind ret].
  rewrite <- (map_map (map VInt) VList), collect_xy_lists.
  cbn [bind ret app]. rewrite xs_of_ints, ys_of_ints, Hx, Hy.
  cbn [map].
  change (VInt x :: map VInt xs) with (map VInt (x :: xs)).
  change (VInt y :: map VInt ys) with (map VInt (y :: ys)).
  rewrite !numbers_ints. cbn [bind ret map].
  rewrite !py_min_ints, !py_max_ints. reflexivity.
Qed.

Lemma xs_of_nil {A} (polygons : list (list A)) :
  xs_of polygons = [] -> ys_of polygons = [].
Proof.
  unfold xs_of, ys_of. induction polygons as [| p rest IH]; [reflexivity |].
  simpl. intros H. apply app_eq_nil in H. destruct H as [Hp Hrest].
  apply (proj1 (evens_nil_iff p)) in Hp. subst p. simpl. apply IH, Hrest.
Qed.

Lemma ys_of_nil_iff {A} (polygons : list (list A)) :
  ys_of polygons = []
  <-> Forall (fun p => (List.length p <= 1)%nat) polygons.
Proof.
  unfold ys_of. induction polygons as [| p rest IH]; simpl.
  - split; [constructor | reflexivity].
  - split.
    + intros H. apply app_eq_nil in H. destruct H as [Hp Hrest].
      constructor; [apply (proj1 (odds_nil_iff p)), Hp | apply IH, Hrest].
    + intros H. inversion H as [| ? ? Hp Hrest]; subst.
      apply (proj2 (odds_nil_iff p)) in Hp. apply IH in Hrest. rewrite Hp, Hrest.
      reflexivity.
Qed.

(** Without a usable bbox the region is the bounding box of the
    polygons. *)
Lemma source_region_polygon (a : Annotation) :
  has_bbox a = ret false -> has_polygon a = true ->
  source_region a = _polygon_bbox (segmentation a).
Proof.
  intros Hb Hp. unfold source_region. rewrite Hb. cbn [bind ret].
  rewrite Hp. unfold py_or. unfold has_polygon in Hp. rewrite Hp.
  reflexivity.
Qed.

(** The box of integer polygons bounds every coordinate. *)
Lemma polygon_bbox_bounds (polygons : list (list Z)) :
  ys_of polygons <> [] ->
  exists x0 y0 x1 y1,
    _polygon_bbox (int_polygons polygons)
    = ret (NInt x0, NInt y0, NInt x1, NInt y1)
    /\ Forall (fun x => x0 <= x <= x1) (xs_of polygons)
    /\ Forall (fun y => y0 <= y <= y1) (ys_of polygons).
Proof.
  intros Hys.
  destruct (xs_of polygons) as [| x xs] eqn:Hx;
    [apply xs_of_nil in Hx; contradiction |].
  destruct (ys_of polygons) as [| y ys] eqn:Hy; [contradiction |].
  rewrite (polygon_bbox_ints polygons x y xs ys Hx Hy).
  destruct (fold_min_least xs x) as (_ & Hxl).
  destruct (fold_max_greatest xs x) as (_ & Hxg).
  destruct (fold_min_least ys y) as (_ & Hyl).
  destruct (fold_max_greatest ys y) as (_ & Hyg).
  do 4 eexists. split; [reflexivity |].
  rewrite Forall_forall in Hxl, Hxg, Hyl, Hyg.
  split; apply Forall_forall; intros v Hv; split; auto.
Qed.

End PolygonFacts.

(** X7. For polygons with integer coordinates of which at least one
    has two values, [_polygon_bbox] returns (min x, min y, max x,
    max y): each of the four numbers is a coordinate of the polygons,
    every x lies between the first and the third and every y between
    the second and the fourth. *)
Theorem polygon_bbox_is_tight :
  forall polygons : list (list Z),
    Geometry.ys_of polygons <> [] ->
    exists x0 y0 x1 y1,
      ImageUtils._polygon_bbox (Geometry.int_polygons polygons)
      = ret (NInt x0, NInt y0, NInt x1, NInt y1)
      /\ In x0 (Geometry.xs_of polygons) /\ In x1 (Geometry.xs_of polygons)
      /\ In y0 (Geometry.ys_of polygons) /\ In y1 (Geometry.ys_of polygons)
      /\ Forall (fun x => x0 <= x <= x1) (Geometry.xs_of polygons)
      /\ Forall (fun y => y0 <= y <= y1) (Geometry.ys_of polygons).
Proof.
  intros polygons Hys.
  destruct (Geometry.xs_of polygons) as [| x xs] eqn:Hx;
    [apply PolygonFacts.xs_of_nil in Hx; contradiction |].
  destruct (Geometry.ys_of polygons) as [| y ys] eqn:Hy; [contradiction |].
  rewrite (PolygonFacts.polygon_bbox_ints polygons x y xs ys Hx Hy).
  destruct (PolygonFacts.fold_min_least xs x) as (Hx0 & Hxl).
  destruct (PolygonFacts.fold_max_greatest xs x) as (Hx1 & Hxg).
  destruct (PolygonFacts.fold_min_least ys y) as (Hy0 & Hyl).
  destruct (PolygonFacts.fold_max_greatest ys y) as (Hy1 & Hyg).
  do 4 eexists. split; [reflexivity |].
  do 4 (split; [assumption |]).
  rewrite Forall_forall in Hxl, Hxg, Hyl, Hyg.
  split; apply Forall_forall; intros v Hv; split; auto.
Qed.

(** An L-shaped outline and a separate triangle: the box runs from
    (2, 1) to (30, 22). *)
Lemma polygon_bbox_is_tight_witness :
  Geometry.ys_of [[4; 1; 12; 1; 12; 9; 8; 9; 8; 20; 4; 20];
                  [2; 22; 30; 22; 16; 5]] <> []
  /\ ImageUtils._polygon_bbox
       (Geometry.int_polygons [[4; 1; 12; 1; 12; 9; 8; 9; 8; 20; 4; 20];
                               [2; 22; 30; 22; 16; 5]])
     = ret (NInt 2, NInt 1, NInt 30, NInt 22)
  /\ exists x0 y0 x1 y1,
       ImageUtils._polygon_bbox
         (Geometry.int_polygons [[4; 1; 12; 1; 12; 9; 8; 9; 8; 20; 4; 20];
                                 [2; 22; 30; 22; 16; 5]])
       = ret (NInt x0, NInt y0, NInt x1, NInt y1)
       /\ Forall (fun x => x0 <= x <= x1)
                 (Geometry.xs_of [[4; 1; 12; 1; 12; 9; 8; 9; 8; 20; 4; 20];
                                  [2; 22; 30; 22; 16; 5]]).
Proof.
  assert (Hne : Geometry.ys_of [[4; 1; 12; 1; 12; 9; 8; 9; 8; 20; 4; 20];
                                [2; 22; 30; 22; 16; 5]] <> [])
    by (vm_compute; discriminate).
  split; [exact Hne |]. split; [reflexivity |].
  destruct (polygon_bbox_is_tight _ Hne)
    as (x0 & y0 & x1 & y1 & Hbox & _ & _ & _ & _ & Hxs & _).
  exists x0, y0, x1, y1. split; [exact Hbox | exact Hxs].
Defined.

(** X8. [_polygon_bbox] raises "Polygon segmentation is empty" exactly
    when no polygon has two values, so that there is no y coordinate
    (no polygons at all, empty polygons, polygons of a single value);
    for an annotation without a usable bbox whose segmentation is a
    non-empty list of such polygons, this is what [crop_annotation]
    raises, for every image and configuration. *)
Theorem degenerate_polygons_are_rejected :
  forall segments : list (list pyval),
    (ImageUtils._polygon_bbox (VList (map VList segments))
     = raise (ValueError Polygon_empty)
     <-> Forall (fun s => (List.length s <= 1)%nat) segments)
    /\ forall (polygon_fill : list (num * num) -> result (Z -> Z -> bool))
              (composite_pixel : PIL.pixel -> PIL.pixel -> PIL.pixel)
              (image : PIL.Image) (a : DataLoader.Annotation)
              (config : option ImageUtils.CropConfig),
        DataLoader.has_bbox a = ret false ->
        DataLoader.segmentation a = VList (map VList segments) ->
        segments <> [] ->
        Forall (fun s => (List.length s <= 1)%nat) segments ->
        ImageUtils.crop_annotation polygon_fill composite_pixel image a config
        = raise (ValueError Polygon_empty).
Proof.
  intros segments.
  assert (Hiff : ImageUtils._polygon_bbox (VList (map VList segments))
                 = raise (ValueError Polygon_empty)
                 <-> Forall (fun s => (List.length s <= 1)%nat) segments).
  { rewrite <- PolygonFacts.ys_of_nil_iff.
    unfold ImageUtils._polygon_bbox. cbn [py_iter bind ret].
    rewrite PolygonFacts.collect_xy_lists. cbn [bind ret app].
    destruct (Geometry.ys_of segments) as [| y ys] eqn:Hy.
    - destruct (Geometry.xs_of segments); split; reflexivity.
    - destruct (Geometry.xs_of segments) as [| x xs] eqn:Hx.
      + apply PolygonFacts.xs_of_nil in Hx. congruence.
      + split; [| discriminate].
        destruct (ImageUtils.numbers (x :: xs)) as [e | nxs] eqn:Hnx.
        * unfold ImageUtils.numbers in Hnx.
          destruct (as_nums (x :: xs)); [discriminate |].
          injection Hnx as <-. discriminate.
        * apply PolygonFacts.numbers_length in Hnx.
          destruct nxs as [| nx nxs]; [discriminate |]. cbn [bind ret].
          destruct (ImageUtils.numbers (y :: ys)) as [e | nys] eqn:Hny.
          -- unfold ImageUtils.numbers in Hny.
             destruct (as_nums (y :: ys)); [discriminate |].
             injection Hny as <-. discriminate.
          -- apply PolygonFacts.numbers_length in Hny.
             destruct nys as [| ny nys]; discriminate. }
  split; [exact Hiff |].
  intros fill comp image a config Hb Hseg Hne Hall.
  assert (Hp : DataLoader.has_polygon a = true).
  { unfold DataLoader.has_polygon. rewrite Hseg.
    destruct segments; [contradiction | reflexivity]. }
  unfold ImageUtils.crop_annotation, ImageUtils.crop_box.
  rewrite (PolygonFacts.source_region_polygon a Hb Hp), Hseg.
  apply Hiff in Hall. rewrite Hall. reflexivity.
Qed.

(** A polygon of one value, in an annotation without a bbox. *)
Lemma degenerate_polygons_are_rejected_witness :
  DataLoader.has_bbox (Sample.annotation VNone (VList [VList [VInt 5]]))
  = ret false
  /\ ImageUtils.crop_annotation Sample.fill_bounds Sample.keep_source
       Sample.base_image (Sample.annotation VNone (VList [VList [VInt 5]]))
       None
     = raise (ValueError Polygon_empty).
Proof.
  split; [reflexivity |].
  destruct (degenerate_polygons_are_rejected [[VInt 5]]) as (_ & Hcrop).
  apply Hcrop.
  - reflexivity.
  - reflexivity.
  - discriminate.
  - repeat constructor.
Defined.

(** X9. For an annotation without a usable bbox whose polygons have
    integer coordinates (one of them with two values at least), the
    crop rectangle exists for every image and every padding, and it
    contains every polygon coordinate that lies within the image:
    each x with [0 <= x <= width] is between its left and right edge,
    each y with [0 <= y <= height] between its top and bottom edge. *)
Theorem polygon_crop_covers_vertices :
  forall (image : PIL.Image) (a : DataLoader.Annotation)
         (config : ImageUtils.CropConfig) (polygons : list (list Z)),
    DataLoader.has_bbox a = ret false ->
    DataLoader.segmentation a = Geometry.int_polygons polygons ->
    Geometry.ys_of polygons <> [] ->
    exists l t r b,
      ImageUtils.crop_box image a config = ret (l, t, r, b)
      /\ Forall (fun x => 0 <= x <= PIL.width image -> l <= x <= r)
                (Geometry.xs_of polygons)
      /\ Forall (fun y => 0 <= y <= PIL.height image -> t <= y <= b)
                (Geometry.ys_of polygons).
Proof.
  intros image a config polygons Hb Hseg Hys.
  destruct (PolygonFacts.polygon_bbox_bounds polygons Hys)
    as (x0 & y0 & x1 & y1 & Hbox & Hxs & Hyys).
  assert (Hp : DataLoader.has_polygon a = true).
  { unfold DataLoader.has_polygon. rewrite Hseg.
    destruct polygons; [contradiction Hys; reflexivity | reflexivity]. }
  do 4 eexists. split.
  - apply (RegionFacts.crop_box_returns image a config
             (NInt x0) (NInt y0) (NInt x1) (NInt y1) x0 y0 x1 y1);
      try reflexivity.
    rewrite (PolygonFacts.source_region_polygon a Hb Hp), Hseg. exact Hbox.
  - split; (eapply Forall_impl; [| eassumption]); cbv beta; intros v Hv Hin;
      lia.
Qed.

(** A triangle in the 64 x 64 sample image with padding 3: the
    rectangle (5, 2, 33, 25) holds every vertex. *)
Lemma polygon_crop_covers_vertices_witness :
  DataLoader.has_bbox
    (Sample.annotation VNone (Geometry.int_polygons [[8; 22; 30; 22; 16; 5]]))
  = ret false
  /\ Geometry.ys_of [[8; 22; 30; 22; 16; 5]] <> []
  /\ ImageUtils.crop_box Sample.base_image
       (Sample.annotation VNone
          (Geometry.int_polygons [[8; 22; 30; 22; 16; 5]]))
       (Sample.config 3 true)
     = ret (5, 2, 33, 25)
  /\ exists l t r b,
       ImageUtils.crop_box Sample.base_image
         (Sample.annotation VNone
            (Geometry.int_polygons [[8; 22; 30; 22; 16; 5]]))
         (Sample.config 3 true)
       = ret (l, t, r, b)
       /\ Forall (fun x => 0 <= x <= PIL.width Sample.base_image -> l <= x <= r)
                 (Geometry.xs_of [[8; 22; 30; 22; 16; 5]]).
Proof.
  assert (Hne : Geometry.ys_of [[8; 22; 30; 22; 16; 5]] <> [])
    by (vm_compute; discriminate).
  split; [reflexivity |]. split; [exact Hne |]. split; [reflexivity |].
  destruct (polygon_crop_covers_vertices Sample.base_image
              (Sample.annotation VNone
                 (Geometry.int_polygons [[8; 22; 30; 22; 16; 5]]))
              (Sample.config 3 true) [[8; 22; 30; 22; 16; 5]]
              eq_refl eq_refl Hne)
    as (l & t & r & b & Hbox & Hxs & _).
  exists l, t, r, b. split; [exact Hbox | exact Hxs].
Defined.

(** X10. Padding only enlarges the crop rectangle: if the rectangle
    exists for one padding it exists for every padding at least as
    large, over the same image and annotation, and contains the first;
    paddings that are zero or negative all give the same rectangle. *)
Theorem padding_enlarges_crop_box :
  forall (image : PIL.Image) (a : DataLoader.Annotation)
         (small large : ImageUtils.CropConfig) (inner : ImageUtils.box),
    ImageUtils.crop_box image a small = ret inner ->
    ImageUtils.padding small <= ImageUtils.padding large ->
    exists outer,
      ImageUtils.crop_box image a large = ret outer
      /\ Geometry.box_within inner outer
      /\ (ImageUtils.padding large <= 0 -> outer = inner).
Proof.
  intros image a small large inner Hin Hpad.
  destruct (RegionFacts.crop_box_inv image a small inner Hin)
    as (x0 & y0 & x1 & y1 & Hreg & Hexp).
  destruct (RegionFacts.expand_box_inv _ _ _ _ _ _ _ _ Hexp)
    as (rl & rt & rr & rb & Hl & Ht & Hr & Hb & ->).
  eexists. split.
  - apply (RegionFacts.crop_box_returns image a large x0 y0 x1 y1
             rl rt rr rb Hreg Hl Ht Hr Hb).
  - split.
    + unfold Geometry.box_within. lia.
    + intros Hneg.
      replace (Z.max 0 (ImageUtils.padding large)) with 0 by lia.
      replace (Z.max 0 (ImageUtils.padding small)) with 0 by lia.
      reflexivity.
Qed.

(** The sample bbox [16, 16, 32, 32] with paddings 4 and 40. *)
Lemma padding_enlarges_crop_box_witness :
  ImageUtils.crop_box Sample.base_image
    (Sample.annotation (Sample.ints [16; 16; 32; 32]) VNone)
    (Sample.config 4 true)
  = ret (12, 12, 52, 52)
  /\ ImageUtils.crop_box Sample.base_image
       (Sample.annotation (Sample.ints [16; 16; 32; 32]) VNone)
       (Sample.config 40 false)
     = ret (0, 0, 64, 64)
  /\ exists outer,
       ImageUtils.crop_box Sample.base_image
         (Sample.annotation (Sample.ints [16; 16; 32; 32]) VNone)
         (Sample.config 40 false)
       = ret outer
       /\ Geometry.box_within (12, 12, 52, 52) outer.
Proof.
  split; [reflexivity |]. split; [reflexivity |].
  destruct (padding_enlarges_crop_box Sample.base_image
              (Sample.annotation (Sample.ints [16; 16; 32; 32]) VNone)
              (Sample.config 4 true) (Sample.config 40 false)
              (12, 12, 52, 52) eq_refl)
    as (outer & Hbox & Hwithin & _).
  - simpl. lia.
  - exists outer. split; [exact Hbox | exact Hwithin].
Defined.

(* ------------------------------------------------------------------ *)
(** ** The client: requests, statuses, batches *)

Module ClientFacts.

Import GeminiValidator ClientSpec.

Section WithEnvironment.

Variable json_loads : string -> option pyval.
Variable requests_post : Z -> pyval -> result Response.
Variable self : GeminiValidator.
Variable body : pyval.

Let try := try_once json_loads requests_post body.

(** Every finished run of the loop is a run of [k] retried turns and a
    last turn that decides the outcome. *)
Lemma retry_loop_shape (fuel : nat) :
  forall (attempt : Z) (trace trace' : list event)
         (o : result GeminiResponse),
    retry_loop json_loads requests_post self body fuel attempt trace
    = Some (trace', o) ->
    exists k : nat,
      trace' = trace ++ retry_trace k attempt
      /\ try (attempt + Z.of_nat k + 1) = o
      /\ (forall i, attempt < i <= attempt + Z.of_nat k ->
                    fails_at try i /\ i < max_retries self)
      /\ match o with
         | inr _ => True
         | inl e =>
             caught e = false \/ max_retries self <= attempt + Z.of_nat k + 1
         end.
Proof.
  induction fuel as [| fuel IH]; intros attempt trace trace' o H;
    [discriminate |].
  cbn [retry_loop] in H. fold try in H.
  destruct (try (attempt + 1)) as [e | r] eqn:Htry.
  - destruct (caught e) eqn:Hc.
    + destruct (Z.leb_spec (max_retries self) (attempt + 1)) as [Hmax | Hmax].
      * injection H as <- <-. exists 0%nat.
        replace (attempt + Z.of_nat 0 + 1) with (attempt + 1) by lia.
        split; [reflexivity |]. split; [exact Htry |].
        split; [intros i Hi; lia |]. right. exact Hmax.
      * apply IH in H. destruct H as (k & -> & Hlast & Hfail & Hstop).
        exists (S k).
        replace (attempt + Z.of_nat (S k) + 1)
          with (attempt + 1 + Z.of_nat k + 1) by lia.
        split; [cbn [retry_trace]; rewrite <- !app_assoc; reflexivity |].
        split; [exact Hlast |]. split; [| exact Hstop].
        intros i Hi.
        destruct (Z.eq_dec i (attempt + 1)) as [-> | Hne].
        -- split; [exists e; split; assumption | exact Hmax].
        -- apply Hfail. lia.
    + injection H as <- <-. exists 0%nat.
      replace (attempt + Z.of_nat 0 + 1) with (attempt + 1) by lia.
      split; [reflexivity |]. split; [exact Htry |].
      split; [intros i Hi; lia |]. left. exact Hc.
  - injection H as <- <-. exists 0%nat.
    replace (attempt + Z.of_nat 0 + 1) with (attempt + 1) by lia.
    split; [reflexivity |]. split; [exact Htry |].
    split; [intros i Hi; lia | exact I].
Qed.

End WithEnvironment.

(** The loop sees the service only through the outcome of each turn. *)
Lemma retry_loop_ext (json_loads : string -> option pyval)
                     (post post' : Z -> pyval -> result Response)
                     (self : GeminiValidator) (body : pyval) :
  (forall n, try_once json_loads post body n
             = try_once json_loads post' body n) ->
  forall (fuel : nat) (attempt : Z) (trace : list event),
    retry_loop json_loads post self body fuel attempt trace
    = retry_loop json_loads post' self body fuel attempt trace.
Proof.
  intros Hext fuel. induction fuel as [| fuel IH]; intros attempt trace;
    [reflexivity |].
  cbn [retry_loop]. rewrite Hext.
  destruct (try_once json_loads post' body (attempt + 1)) as [e | r];
    [| reflexivity].
  destruct (caught e); [| reflexivity].
  destruct (max_retries self <=? attempt + 1); [reflexivity | apply IH].
Qed.

End ClientFacts.

(** X11. Whatever the service does: when the request body is built and
    the loop has fuel for [max(max_retries, 1)] turns, [validate_crop]
    ends, after at least one and at most [max(max_retries, 1)]
    requests; it has slept [min(2^(i-1), 30)] after each request [i]
    but the last and never after the last; its outcome is the outcome
    of the last request; and an error of a retried kind
    ([RequestException], [ValueError]) is raised only once the budget
    is used up.  When the body cannot be built, no request is made. *)
Theorem validate_crop_request_budget :
  forall (format_template : string -> string -> result string)
         (b64encode : string -> string)
         (json_loads : string -> option pyval)
         (requests_post : Z -> pyval -> result GeminiValidator.Response)
         (self : GeminiValidator.GeminiValidator) (fuel : nat)
         (crop_bytes expected_label : string) (guidelines : option string),
    (Z.to_nat (Z.max (GeminiValidator.max_retries self) 1) <= fuel)%nat ->
    let n := GeminiValidator.max_retries self in
    let outcome :=
      GeminiValidator.validate_crop format_template b64encode json_loads
        requests_post self fuel crop_bytes expected_label guidelines in
    match GeminiValidator._build_request_body format_template b64encode self
            crop_bytes expected_label guidelines with
    | inl e => outcome = Some ([], raise e)
    | inr body =>
        exists trace o,
          outcome = Some (trace, o)
          /\ 1 <= GeminiValidator.requests_in trace <= Z.max n 1
          /\ GeminiValidator.sleeps_in trace
             = ClientSpec.backoffs (GeminiValidator.requests_in trace - 1)
          /\ GeminiValidator.try_once json_loads requests_post body
               (GeminiValidator.requests_in trace) = o
          /\ (forall e, o = raise e -> GeminiValidator.caught e = true ->
                        GeminiValidator.requests_in trace = Z.max n 1)
    end.
Proof.
  intros fmt b64 loads post self fuel crop label guidelines Hfuel n outcome.
  unfold outcome, GeminiValidator.validate_crop.
  destruct (GeminiValidator._build_request_body fmt b64 self crop label
              guidelines) as [e | body]; [reflexivity |].
  destruct (RetryFacts.retry_loop_terminates loads post self body fuel 0 [])
    as ([trace o] & Hrun); [fold n; lia |].
  exists trace, o. split; [exact Hrun |].
  apply ClientFacts.retry_loop_shape in Hrun.
  destruct Hrun as (k & -> & Hlast & Hfail & Hstop).
  cbn [app]. rewrite RetryFacts.requests_in_retry_trace.
  assert (Hk : Z.of_nat k + 1 <= Z.max n 1).
  { destruct k as [| k]; [lia |].
    destruct (Hfail (Z.of_nat (S k))) as (_ & Hlt); [lia |]. fold n in Hlt.
    lia. }
  split; [lia |]. split; [| split].
  - replace (Z.of_nat k + 1 - 1) with (Z.of_nat k) by lia.
    rewrite <- (Nat2Z.id k) at 1.
    apply RetryFacts.sleeps_in_retry_trace_0. lia.
  - rewrite <- Hlast. f_equal; lia.
  - intros e -> Hc. destruct Hstop as [Hs | Hs]; [congruence |].
    fold n in Hs. lia.
Qed.

(** A service that fails twice and then answers uses three requests of
    a budget of five; one that is unreachable uses all five. *)
Lemma validate_crop_request_budget_witness :
  (Z.to_nat (Z.max (GeminiValidator.max_retries (Sample.validator 5)) 1)
   <= 5)%nat
  /\ (exists trace o,
        GeminiValidator.validate_crop StrFormat.format Base64.b64encode
          Json.loads (Sample.flaky 2 (Sample.answer "cat" "1"))
          (Sample.validator 5) 5 "png" "cat" None
        = Some (trace, o)
        /\ 1 <= GeminiValidator.requests_in trace <= 5
        /\ GeminiValidator.sleeps_in trace
           = ClientSpec.backoffs (GeminiValidator.requests_in trace - 1))
  /\ GeminiValidator.validate_crop StrFormat.format Base64.b64encode
       Json.loads Sample.unreachable (Sample.validator 5) 5 "png" "cat" None
     = Some ([GeminiValidator.Request 1; GeminiValidator.Sleep 1;
              GeminiValidator.Request 2; GeminiValidator.Sleep 2;
              GeminiValidator.Request 3; GeminiValidator.Sleep 4;
              GeminiValidator.Request 4; GeminiValidator.Sleep 8;
              GeminiValidator.Request 5],
             raise RequestException).
Proof.
  assert (Hfuel :
    (Z.to_nat (Z.max (GeminiValidator.max_retries (Sample.validator 5)) 1)
     <= 5)%nat) by (vm_compute; lia).
  split; [exact Hfuel |]. split; [| reflexivity].
  pose proof (validate_crop_request_budget StrFormat.format Base64.b64encode
                Json.loads (Sample.flaky 2 (Sample.answer "cat" "1"))
                (Sample.validator 5) 5 "png" "cat" None Hfuel) as H.
  cbv zeta in H.
  change (GeminiValidator._build_request_body StrFormat.format
            Base64.b64encode (Sample.validator 5) "png" "cat" None)
    with (@inr exn pyval Sample.body_for_cat) in H.
  cbv iota beta in H.
  destruct H as (trace & o & Hout & Hreq & Hsleep & _).
  exists trace, o. split; [exact Hout |]. split; [exact Hreq | exact Hsleep].
Defined.

(** X12. A reply whose status is neither 200 nor in the range 400-599
    (204, 302, ...) is not an error: [raise_for_status] lets it pass
    and its body is parsed.  For a service that never replies with a
    4xx or 5xx status, [validate_crop] does exactly what it does when
    every reply carries the status 200. *)
Theorem other_statuses_pass_as_200 :
  forall (format_template : string -> string -> result string)
         (b64encode : string -> string)
         (json_loads : string -> option pyval)
         (requests_post : Z -> pyval -> result GeminiValidator.Response)
         (self : GeminiValidator.GeminiValidator) (fuel : nat)
         (crop_bytes expected_label : string) (guidelines : option string),
    (forall n body r, requests_post n body = ret r ->
                      Client.is_http_error r = false) ->
    GeminiValidator.validate_crop format_template b64encode json_loads
      requests_post self fuel crop_bytes expected_label guidelines
    = GeminiValidator.validate_crop format_template b64encode json_loads
        (Client.relabelled requests_post) self fuel crop_bytes expected_label
        guidelines.
Proof.
  intros fmt b64 loads post self fuel crop label guidelines Hok.
  unfold GeminiValidator.validate_crop.
  destruct (GeminiValidator._build_request_body fmt b64 self crop label
              guidelines) as [e | body]; [reflexivity |].
  apply ClientFacts.retry_loop_ext. intros n.
  unfold GeminiValidator.try_once, GeminiValidator._execute_request,
    Client.relabelled.
  destruct (post n body) as [e | r] eqn:Hr; [reflexivity |].
  specialize (Hok n body r Hr). unfold Client.is_http_error in Hok.
  cbn [bind ret Client.with_status GeminiValidator.status_code
       GeminiValidator.json Z.eqb negb].
  unfold GeminiValidator.raise_for_status. rewrite Hok.
  destruct (negb (GeminiValidator.status_code r =? 200)); reflexivity.
Qed.

(** A reply with the status 204 and a well-formed answer is accepted at
    the first request. *)
Lemma other_statuses_pass_as_200_witness :
  (forall n body r,
      Cases.replying 204 (Sample.answer "cat" "1") n body = ret r ->
      Client.is_http_error r = false)
  /\ GeminiValidator.validate_crop StrFormat.format Base64.b64encode
       Json.loads (Cases.replying 204 (Sample.answer "cat" "1"))
       (Sample.validator 3) 3 "png" "cat" None
     = Some ([GeminiValidator.Request 1],
             ret {| GeminiValidator.prediction_label := "cat";
                    GeminiValidator.confidence := fone;
                    GeminiValidator.rationale := None;
                    GeminiValidator.raw_text := Sample.answer "cat" "1" |}).
Proof.
  assert (Hok : forall n body r,
             Cases.replying 204 (Sample.answer "cat" "1") n body = ret r ->
             Client.is_http_error r = false).
  { intros n body r Hr. injection Hr as <-. reflexivity. }
  split; [exact Hok |].
  rewrite (other_statuses_pass_as_200 StrFormat.format Base64.b64encode
             Json.loads (Cases.replying 204 (Sample.answer "cat" "1"))
             (Sample.validator 3) 3 "png" "cat" None Hok).
  reflexivity.
Defined.

(** X13. Replies with a 4xx or 5xx status are failures of the retried
    kind, whatever their body holds: when every reply is one,
    [validate_crop] makes [max(max_retries, 1)] requests, sleeping in
    between, and raises the [RequestException] of
    [raise_for_status]. *)
Theorem http_errors_are_retried :
  forall (format_template : string -> string -> result string)
         (b64encode : string -> string)
         (json_loads : string -> option pyval)
         (requests_post : Z -> pyval -> result GeminiValidator.Response)
         (self : GeminiValidator.GeminiValidator) (fuel : nat)
         (crop_bytes expected_label : string) (guidelines : option string)
         (body : pyval),
    GeminiValidator._build_request_body format_template b64encode self
      crop_bytes expected_label guidelines = ret body ->
    (Z.to_nat (Z.max (GeminiValidator.max_retries self) 1) <= fuel)%nat ->
    (forall n, 1 <= n ->
               exists r, requests_post n body = ret r
                         /\ Client.is_http_error r = true) ->
    exists trace,
      GeminiValidator.validate_crop format_template b64encode json_loads
        requests_post self fuel crop_bytes expected_label guidelines
      = Some (trace, raise RequestException)
      /\ GeminiValidator.requests_in trace
         = Z.max (GeminiValidator.max_retries self) 1
      /\ GeminiValidator.sleeps_in trace
         = ClientSpec.backoffs (Z.max (GeminiValidator.max_retries self) 1 - 1).
Proof.
  intros fmt b64 loads post self fuel crop label guidelines body Hbody Hfuel
         Herr.
  set (n := GeminiValidator.max_retries self) in *.
  assert (Htry : forall i, 1 <= i ->
            GeminiValidator.try_once loads post body i
            = raise RequestException).
  { intros i Hi. destruct (Herr i Hi) as (r & Hr & Hs).
    unfold GeminiValidator.try_once, GeminiValidator._execute_request.
    rewrite Hr. cbn [bind ret].
    unfold Client.is_http_error in Hs.
    unfold GeminiValidator.raise_for_status. rewrite Hs.
    destruct (Z.eqb_spec (GeminiValidator.status_code r) 200) as [E | _];
      [| reflexivity].
    rewrite E in Hs. discriminate Hs. }
  exists (ClientSpec.retry_trace (Z.to_nat (Z.max n 1 - 1)) 0).
  split; [| split].
  - unfold GeminiValidator.validate_crop. rewrite Hbody.
    cbv beta iota delta [ret].
    rewrite (RetryFacts.retry_loop_run loads post self body
               (Z.to_nat (Z.max n 1 - 1)) fuel 0 [] (raise RequestException)).
    + reflexivity.
    + lia.
    + intros i Hi. split; [| fold n; lia].
      exists RequestException. split; [apply Htry; lia | reflexivity].
    + apply Htry. lia.
    + right. fold n. lia.
  - rewrite RetryFacts.requests_in_retry_trace. lia.
  - apply RetryFacts.sleeps_in_retry_trace_0. lia.
Qed.

(** A service that answers 503 with a well-formed body, and a budget of
    three: three requests, sleeps of 1 and 2, then the error. *)
Lemma http_errors_are_retried_witness :
  (Z.to_nat (Z.max (GeminiValidator.max_retries (Sample.validator 3)) 1)
   <= 3)%nat
  /\ exists trace,
       GeminiValidator.validate_crop StrFormat.format Base64.b64encode
         Json.loads (Cases.replying 503 (Sample.answer "cat" "1"))
         (Sample.validator 3) 3 "png" "cat" None
       = Some (trace, raise RequestException)
       /\ GeminiValidator.requests_in trace = 3
       /\ GeminiValidator.sleeps_in trace = [1; 2].
Proof.
  assert (Hfuel :
    (Z.to_nat (Z.max (GeminiValidator.max_retries (Sample.validator 3)) 1)
     <= 3)%nat) by (vm_compute; lia).
  split; [exact Hfuel |].
  destruct (http_errors_are_retried StrFormat.format Base64.b64encode
              Json.loads (Cases.replying 503 (Sample.answer "cat" "1"))
              (Sample.validator 3) 3 "png" "cat" None Sample.body_for_cat
              eq_refl Hfuel)
    as (trace & Hout & Hreq & Hsleep).
  - intros n _. eexists. split; reflexivity.
  - exists trace. split; [exact Hout |]. split; [exact Hreq | exact Hsleep].
Defined.

Module BatchFacts.

Import GeminiValidator Client.

Section WithEnvironment.

Variable format_template : string -> string -> result string.
Variable b64encode : string -> string.
Variable json_loads : string -> option pyval.
Variable requests_post : nat -> Z -> pyval -> result Response.
Variable self : GeminiValidator.
Variable fuel : nat.
Variable guidelines : option string.

Let run := item_run format_template b64encode json_loads requests_post
                    self fuel guidelines.
Let batch_from := validate_batch_from format_template b64encode json_loads
                                      requests_post self fuel.

(** A batch that returns has validated every item, in order. *)
Lemma batch_from_returns (items : list item) :
  forall (i : nat) (responses responses' : list GeminiResponse)
         (traces traces' : list (list event)),
    batch_from i items guidelines responses traces
    = Some (traces', ret responses') ->
    exists rs ts,
      responses' = responses ++ rs /\ traces' = traces ++ ts
      /\ List.length rs = List.length items
      /\ List.length ts = List.length items
      /\ forall j it,
           nth_error items j = Some it ->
           exists t r, nth_error ts j = Some t /\ nth_error rs j = Some r
                       /\ run (i + j)%nat it t (ret r).
Proof.
  unfold batch_from.
  induction items as [| it rest IH]; intros i responses responses' traces
                                            traces' H; cbn [validate_batch_from] in H.
  - injection H as <- <-. exists [], [].
    rewrite !app_nil_r. repeat split. intros [| j] it' Hj; discriminate Hj.
  - destruct (item_get it "crop_bytes") as [e | crop] eqn:Hcrop;
      [discriminate |].
    destruct (item_get it "expected_label") as [e | label] eqn:Hlabel;
      [discriminate |].
    destruct (validate_crop format_template b64encode json_loads
                (requests_post i) self fuel crop label guidelines)
      as [[trace [e | response]] |] eqn:Hrun; try discriminate.
    apply IH in H. destruct H as (rs & ts & -> & -> & Hlr & Hlt & Hnth).
    exists (response :: rs), (trace :: ts).
    rewrite <- !app_assoc. cbn [app List.length].
    split; [reflexivity |]. split; [reflexivity |].
    split; [congruence |]. split; [congruence |].
    intros [| j] it' Hj; cbn [nth_error] in *.
    + injection Hj as <-. exists trace, response.
      split; [reflexivity |]. split; [reflexivity |].
      rewrite Nat.add_0_r. exists crop, label.
      split; [exact Hcrop |]. split; [exact Hlabel | exact Hrun].
    + destruct (Hnth j it' Hj) as (t & r & Ht & Hr & Hitem).
      exists t, r. split; [exact Ht |]. split; [exact Hr |].
      replace (i + S j)%nat with (S i + j)%nat by lia. exact Hitem.
Qed.

(** A batch that raises has validated the items before the failing
    one, and has made no call for any item after it. *)
Lemma batch_from_raises (items : list item) :
  forall (i : nat) (responses : list GeminiResponse)
         (traces traces' : list (list event)) (e : exn),
    batch_from i items guidelines responses traces = Some (traces', raise e) ->
    exists ts j it,
      traces' = traces ++ ts
      /\ nth_error items j = Some it
      /\ (forall j' it', (j' < j)%nat -> nth_error items j' = Some it' ->
            exists t r, nth_error ts j' = Some t
                        /\ run (i + j')%nat it' t (ret r))
      /\ ((List.length ts = j
           /\ exists k, (k = "crop_bytes" \/ k = "expected_label")%string
                        /\ item_get it k = raise e)
          \/ (List.length ts = S j
              /\ exists t, nth_error ts j = Some t
                           /\ run (i + j)%nat it t (raise e))).
Proof.
  unfold batch_from.
  induction items as [| it rest IH]; intros i responses traces traces' e H;
    cbn [validate_batch_from] in H; [discriminate |].
  destruct (item_get it "crop_bytes") as [e' | crop] eqn:Hcrop.
  { injection H as <- <-. exists [], 0%nat, it. rewrite app_nil_r.
    split; [reflexivity |]. split; [reflexivity |].
    split; [intros j' it' Hlt; lia |].
    left. split; [reflexivity |]. exists "crop_bytes"%string.
    split; [left; reflexivity | exact Hcrop]. }
  destruct (item_get it "expected_label") as [e' | label] eqn:Hlabel.
  { injection H as <- <-. exists [], 0%nat, it. rewrite app_nil_r.
    split; [reflexivity |]. split; [reflexivity |].
    split; [intros j' it' Hlt; lia |].
    left. split; [reflexivity |]. exists "expected_label"%string.
    split; [right; reflexivity | exact Hlabel]. }
  destruct (validate_crop format_template b64encode json_loads
              (requests_post i) self fuel crop label guidelines)
    as [[trace [e' | response]] |] eqn:Hrun; [| | discriminate].
  - injection H as <- <-. exists [trace], 0%nat, it.
    split; [reflexivity |]. split; [reflexivity |].
    split; [intros j' it' Hlt; lia |].
    right. split; [reflexivity |]. exists trace. split; [reflexivity |].
    rewrite Nat.add_0_r. exists crop, label.
    split; [exact Hcrop |]. split; [exact Hlabel | exact Hrun].
  - apply IH in H.
    destruct H as (ts & j & it' & -> & Hj & Hbefore & Hfail).
    exists (trace :: ts), (S j), it'.
    rewrite <- app_assoc. split; [reflexivity |]. split; [exact Hj |].
    split.
    + intros [| j'] it'' Hlt Hnth; cbn [nth_error] in *.
      * injection Hnth as <-. exists trace, response.
        split; [reflexivity |]. rewrite Nat.add_0_r. exists crop, label.
        split; [exact Hcrop |]. split; [exact Hlabel | exact Hrun].
      * destruct (Hbefore j' it'' ltac:(lia) Hnth) as (t & r & Ht & Hitem).
        exists t, r. split; [exact Ht |].
        replace (i + S j')%nat with (S i + j')%nat by lia. exact Hitem.
    + cbn [List.length nth_error].
      replace (i + S j)%nat with (S i + j)%nat by lia.
      destruct Hfail as [(Hlen & Hkey) | (Hlen & Hcall)];
        [left | right]; (split; [congruence | assumption]).
Qed.

(** With fuel for every call, the batch ends. *)
Lemma batch_from_terminates (items : list item) :
  (Z.to_nat (Z.max (max_retries self) 1) <= fuel)%nat ->
  forall (i : nat) (responses : list GeminiResponse)
         (traces : list (list event)),
    exists out, batch_from i items guidelines responses traces = Some out.
Proof.
  intros Hfuel. unfold batch_from.
  induction items as [| it rest IH]; intros i responses traces;
    cbn [validate_batch_from]; [eexists; reflexivity |].
  destruct (item_get it "crop_bytes") as [e | crop];
    [eexists; reflexivity |].
  destruct (item_get it "expected_label") as [e | label];
    [eexists; reflexivity |].
  unfold validate_crop.
  destruct (_build_request_body format_template b64encode self crop label
              guidelines) as [e | body]; [eexists; reflexivity |].
  destruct (RetryFacts.retry_loop_terminates json_loads (requests_post i)
              self body fuel 0 []) as ([trace o] & ->); [lia |].
  destruct o as [e | response]; [eexists; reflexivity | apply IH].
Qed.

End WithEnvironment.

End BatchFacts.

(** X14. When [validate_batch] returns, it returns one response per
    item, in the order of the items: the response at position [i] is
    what [validate_crop] returned for the [crop_bytes] and
    [expected_label] of item [i] (and the shared guidelines).  With
    fuel for [max(max_retries, 1)] turns of every call the batch always
    ends, by returning or by raising. *)
Theorem validate_batch_in_order :
  forall (format_template : string -> string -> result string)
         (b64encode : string -> string)
         (json_loads : string -> option pyval)
         (requests_post : nat -> Z -> pyval -> result GeminiValidator.Response)
         (self : GeminiValidator.GeminiValidator) (fuel : nat)
         (items : list Client.item) (guidelines : option string),
    (Z.to_nat (Z.max (GeminiValidator.max_retries self) 1) <= fuel)%nat ->
    exists traces outcome,
      Client.validate_batch format_template b64encode json_loads requests_post
        self fuel items guidelines = Some (traces, outcome)
      /\ forall responses,
           outcome = ret responses ->
           List.length responses = List.length items
           /\ List.length traces = List.length items
           /\ forall i it,
                nth_error items i = Some it ->
                exists trace response,
                  nth_error traces i = Some trace
                  /\ nth_error responses i = Some response
                  /\ Client.item_run format_template b64encode json_loads
                       requests_post self fuel guidelines i it trace
                       (ret response).
Proof.
  intros fmt b64 loads post self fuel items guidelines Hfuel.
  destruct (BatchFacts.batch_from_terminates fmt b64 loads post self fuel
              guidelines items Hfuel 0%nat [] []) as ([traces outcome] & Hrun).
  exists traces, outcome. split; [exact Hrun |].
  intros responses ->.
  apply BatchFacts.batch_from_returns in Hrun.
  destruct Hrun as (rs & ts & -> & -> & Hlr & Hlt & Hnth).
  cbn [app]. split; [exact Hlr |]. split; [exact Hlt | exact Hnth].
Qed.

(** Three crops, each answered at the first request. *)
Lemma validate_batch_in_order_witness :
  (Z.to_nat (Z.max (GeminiValidator.max_retries (Sample.validator 3)) 1)
   <= 3)%nat
  /\ exists traces responses,
       Client.validate_batch StrFormat.format Base64.b64encode Json.loads
         (Cases.batch_service 7) (Sample.validator 3) 3 Cases.batch None
       = Some (traces, ret responses)
       /\ List.length responses = 3%nat
       /\ traces = [[GeminiValidator.Request 1]; [GeminiValidator.Request 1];
                    [GeminiValidator.Request 1]].
Proof.
  assert (Hfuel :
    (Z.to_nat (Z.max (GeminiValidator.max_retries (Sample.validator 3)) 1)
     <= 3)%nat) by (vm_compute; lia).
  split; [exact Hfuel |].
  destruct (validate_batch_in_order StrFormat.format Base64.b64encode
              Json.loads (Cases.batch_service 7) (Sample.validator 3) 3
              Cases.batch None Hfuel) as (traces & outcome & Hrun & Hok).
  vm_compute in Hrun. injection Hrun as <- <-.
  eexists. eexists. split; [vm_compute; reflexivity |].
  split; [| reflexivity].
  destruct (Hok _ eq_refl) as (Hlen & _). exact Hlen.
Defined.

(** X15. When [validate_batch] raises, the error is that of the first
    item that fails, either the [KeyError] of a missing [crop_bytes] or
    [expected_label] or what [validate_crop] raised for it; every item
    before it had been validated with success, the responses gathered
    are lost, and no call was made for any item after it. *)
Theorem validate_batch_stops_at_first_failure :
  forall (format_template : string -> string -> result string)
         (b64encode : string -> string)
         (json_loads : string -> option pyval)
         (requests_post : nat -> Z -> pyval -> result GeminiValidator.Response)
         (self : GeminiValidator.GeminiValidator) (fuel : nat)
         (items : list Client.item) (guidelines : option string)
         (traces : list (list GeminiValidator.event)) (e : exn),
    Client.validate_batch format_template b64encode json_loads requests_post
      self fuel items guidelines = Some (traces, raise e) ->
    exists i it,
      nth_error items i = Some it
      /\ (forall j it', (j < i)%nat -> nth_error items j = Some it' ->
            exists trace response,
              nth_error traces j = Some trace
              /\ Client.item_run format_template b64encode json_loads
                   requests_post self fuel guidelines j it' trace
                   (ret response))
      /\ ((List.length traces = i
           /\ exists k, (k = "crop_bytes" \/ k = "expected_label")%string
                        /\ Client.item_get it k = raise e)
          \/ (List.length traces = S i
              /\ exists trace,
                   nth_error traces i = Some trace
                   /\ Client.item_run format_template b64encode json_loads
                        requests_post self fuel guidelines i it trace
                        (raise e))).
Proof.
  intros fmt b64 loads post self fuel items guidelines traces e Hrun.
  apply BatchFacts.batch_from_raises in Hrun.
  destruct Hrun as (ts & i & it & -> & Hnth & Hbefore & Hfail).
  exists i, it. cbn [app]. split; [exact Hnth |].
  split; [exact Hbefore | exact Hfail].
Qed.

(** The service is down for the second of three items: one request for
    the first item, the three requests of the budget for the second,
    none for the third. *)
Lemma validate_batch_stops_at_first_failure_witness :
  Client.validate_batch StrFormat.format Base64.b64encode Json.loads
    (Cases.batch_service 1) (Sample.validator 3) 3 Cases.batch None
  = Some ([[GeminiValidator.Request 1];
           [GeminiValidator.Request 1; GeminiValidator.Sleep 1;
            GeminiValidator.Request 2; GeminiValidator.Sleep 2;
            GeminiValidator.Request 3]],
          raise RequestException)
  /\ Client.validate_batch StrFormat.format Base64.b64encode Json.loads
       (Cases.batch_service 7) (Sample.validator 3) 3
       Cases.batch_missing_label None
     = Some ([[GeminiValidator.Request 1]], raise (KeyError "expected_label"))
  /\ exists i it,
       nth_error Cases.batch i = Some it
       /\ (List.length [[GeminiValidator.Request 1];
                        [GeminiValidator.Request 1; GeminiValidator.Sleep 1;
                         GeminiValidator.Request 2; GeminiValidator.Sleep 2;
                         GeminiValidator.Request 3]] <= S i)%nat.
Proof.
  split; [vm_compute; reflexivity |]. split; [vm_compute; reflexivity |].
  destruct (validate_batch_stops_at_first_failure StrFormat.format
              Base64.b64encode Json.loads (Cases.batch_service 1)
              (Sample.validator 3) 3 Cases.batch None _ RequestException
              eq_refl)
    as (i & it & Hnth & _ & Hfail).
  exists i, it. split; [exact Hnth |].
  cbn [List.length].
  destruct Hfail as [(Hlen & _) | (Hlen & _)]; vm_compute in Hlen; lia.
Defined.

Module EndpointFacts.

Import GeminiValidator Client ClientSpec.

Lemma append_cons (s t : string) (c : ascii) :
  (s ++ String c t = (s ++ String c EmptyString) ++ t)%string.
Proof. induction s as [| a s IH]; cbn [append]; [| rewrite IH]; reflexivity. Qed.

Lemma rstrip_slash_app_slash (s : string) :
  rstrip_slash (s ++ "/") = rstrip_slash s.
Proof.
  induction s as [| c s IH]; [reflexivity |].
  cbn [append rstrip_slash]. rewrite IH. reflexivity.
Qed.

Lemma rstrip_slash_slashes (n : nat) :
  forall s, rstrip_slash (s ++ slashes n) = rstrip_slash s.
Proof.
  induction n as [| n IH]; intros s; cbn [slashes].
  - f_equal. induction s as [| c s IHs]; cbn [append]; [| rewrite IHs];
      reflexivity.
  - rewrite append_cons, IH. apply rstrip_slash_app_slash.
Qed.

Lemma rstrip_slash_no_trailing (s : string) :
  last_char (rstrip_slash s) <> Some (ascii_of_nat 47).
Proof.
  induction s as [| c s IH]; cbn [rstrip_slash]; [discriminate |].
  destruct (rstrip_slash s) as [| a r].
  - destruct (N.eqb_spec (N_of_ascii c) 47) as [E | E]; [discriminate |].
    cbn [last_char]. intros H. injection H as ->. apply E. reflexivity.
  - exact IH.
Qed.

Lemma rstrip_slash_fixed (s : string) :
  last_char s <> Some (ascii_of_nat 47) -> rstrip_slash s = s.
Proof.
  induction s as [| c s IH]; intros H; cbn [rstrip_slash]; [reflexivity |].
  destruct s as [| a s'].
  - cbn [rstrip_slash].
    destruct (N.eqb_spec (N_of_ascii c) 47) as [E | E]; [| reflexivity].
    exfalso. apply H. cbn [last_char]. f_equal.
    rewrite <- (ascii_N_embedding c), E. reflexivity.
  - rewrite IH; [reflexivity | exact H].
Qed.

End EndpointFacts.

(** X16. Slashes at the end of [base_url] do not reach the endpoint:
    the stored base URL never ends with a slash, any number of added
    trailing slashes gives the same endpoint, and for a base URL
    without a trailing slash the endpoint is
    [base_url/models/model_name:generateContent]. *)
Theorem endpoint_ignores_trailing_slashes :
  forall (api_key model_name base_url : string) (temperature : float)
         (top_p : option float) (max_retries timeout_seconds : Z)
         (prompt_template : string) (n : nat),
    let self :=
      Client.__init__ api_key model_name base_url temperature top_p
                      max_retries timeout_seconds prompt_template in
    Client._endpoint
      (Client.__init__ api_key model_name (base_url ++ Client.slashes n)
                       temperature top_p max_retries timeout_seconds
                       prompt_template)
    = Client._endpoint self
    /\ ClientSpec.last_char (GeminiValidator.base_url self)
       <> Some (ascii_of_nat 47)
    /\ (ClientSpec.last_char base_url <> Some (ascii_of_nat 47) ->
        Client._endpoint self
        = (base_url ++ "/models/" ++ model_name ++ ":generateContent")%string).
Proof.
  intros key model base temp top retries timeout template n self.
  unfold self, Client._endpoint, Client.__init__.
  cbn [GeminiValidator.base_url GeminiValidator.model_name].
  rewrite EndpointFacts.rstrip_slash_slashes.
  split; [reflexivity |].
  split; [apply EndpointFacts.rstrip_slash_no_trailing |].
  intros H. rewrite (EndpointFacts.rstrip_slash_fixed base H). reflexivity.
Qed.

(** The default base URL, written with and without a final slash. *)
Lemma endpoint_ignores_trailing_slashes_witness :
  ClientSpec.last_char "https://generativelanguage.googleapis.com/v1beta"
  <> Some (ascii_of_nat 47)
  /\ Client._endpoint
       (Client.__init__ "key" "gemini-2.5-flash"
          "https://generativelanguage.googleapis.com/v1beta/"
          fzero None 3 30 EmptyString)
     = "https://generativelanguage.googleapis.com/v1beta/models/gemini-2.5-flash:generateContent"%string.
Proof.
  assert (H : ClientSpec.last_char
                "https://generativelanguage.googleapis.com/v1beta"
              <> Some (ascii_of_nat 47)) by (vm_compute; discriminate).
  split; [exact H |].
  destruct (endpoint_ignores_trailing_slashes "key" "gemini-2.5-flash"
              "https://generativelanguage.googleapis.com/v1beta"
              fzero None 3 30 EmptyString 1) as (Hsame & _ & Hplain).
  etransitivity; [exact Hsame | exact (Hplain H)].
Defined.

(* ------------------------------------------------------------------ *)
(** ** Comparing labels *)

Module LabelFacts.

Import ClientSpec Orchestrator.

Lemma lower_char_space (c : ascii) : is_space (lower_char c) = is_space c.
Proof. destruct c as [[] [] [] [] [] [] [] []]; reflexivity. Qed.

Lemma lower_char_idempotent (c : ascii) :
  lower_char (lower_char c) = lower_char c.
Proof. destruct c as [[] [] [] [] [] [] [] []]; reflexivity. Qed.

Lemma lower_idempotent (s : string) : lower (lower s) = lower s.
Proof.
  induction s as [| c s IH]; [reflexivity |].
  cbn [lower]. rewrite lower_char_idempotent, IH. reflexivity.
Qed.

Lemma lstrip_lower (s : string) : lstrip (lower s) = lower (lstrip s).
Proof.
  induction s as [| c s IH]; [reflexivity |].
  cbn [lower lstrip]. rewrite lower_char_space.
  destruct (is_space c); [exact IH | reflexivity].
Qed.

Lemma rstrip_lower (s : string) : rstrip (lower s) = lower (rstrip s).
Proof.
  induction s as [| c s IH]; [reflexivity |].
  cbn [lower rstrip]. rewrite IH, lower_char_space.
  destruct (rstrip s) as [| a r]; cbn [lower].
  - destruct (is_space c); reflexivity.
  - reflexivity.
Qed.

Lemma strip_lower (s : string) : strip (lower s) = lower (strip s).
Proof. unfold strip. rewrite lstrip_lower, rstrip_lower. reflexivity. Qed.

Lemma lstrip_spaces (pre s : string) :
  all_space pre = true -> lstrip (pre ++ s) = lstrip s.
Proof.
  induction pre as [| c pre IH]; intros H; [reflexivity |].
  rewrite PromptFacts.all_space_cons in H. apply andb_prop in H.
  destruct H as [Hc Hpre]. cbn [append lstrip]. rewrite Hc. apply IH, Hpre.
Qed.

Lemma rstrip_all_space (post : string) :
  all_space post = true -> rstrip post = EmptyString.
Proof.
  induction post as [| c post IH]; intros H; [reflexivity |].
  rewrite PromptFacts.all_space_cons in H. apply andb_prop in H.
  destruct H as [Hc Hpost]. cbn [rstrip]. rewrite (IH Hpost), Hc. reflexivity.
Qed.

Lemma rstrip_spaces (s post : string) :
  all_space post = true -> rstrip (s ++ post) = rstrip s.
Proof.
  intros H. induction s as [| c s IH]; cbn [append rstrip].
  - apply rstrip_all_space, H.
  - rewrite IH. reflexivity.
Qed.

Lemma lstrip_all_space (post : string) :
  all_space post = true -> lstrip post = EmptyString.
Proof.
  induction post as [| c post IH]; intros H; [reflexivity |].
  rewrite PromptFacts.all_space_cons in H. apply andb_prop in H.
  destruct H as [Hc Hpost]. cbn [lstrip]. rewrite Hc. apply IH, Hpost.
Qed.

Lemma strip_padding (pre s post : string) :
  all_space pre = true -> all_space post = true ->
  strip (pre ++ s ++ post) = strip s.
Proof.
  intros Hpre Hpost. unfold strip. rewrite (lstrip_spaces pre _ Hpre).
  induction s as [| c s IH]; cbn [append lstrip].
  - rewrite (lstrip_all_space post Hpost). reflexivity.
  - destruct (is_space c); [exact IH |].
    apply (rstrip_spaces (String c s) post Hpost).
Qed.

End LabelFacts.

(** X17. [_match_labels] ignores whitespace around either label and
    the case of letters: padding either label with whitespace at both
    ends does not change the answer, labels with the same lower-case
    form match, and the answer does not depend on the order of the two
    arguments. *)
Theorem match_labels_ignores_padding_and_case :
  forall (predicted expected pre post pre' post' : string),
    ClientSpec.all_space pre = true -> ClientSpec.all_space post = true ->
    ClientSpec.all_space pre' = true -> ClientSpec.all_space post' = true ->
    Orchestrator._match_labels (pre ++ predicted ++ post)
                               (pre' ++ expected ++ post')
    = Orchestrator._match_labels predicted expected
    /\ (Orchestrator.lower predicted = Orchestrator.lower expected ->
        Orchestrator._match_labels predicted expected = true)
    /\ Orchestrator._match_labels predicted expected
       = Orchestrator._match_labels expected predicted.
Proof.
  intros p e pre post pre' post' Hpre Hpost Hpre' Hpost'.
  unfold Orchestrator._match_labels.
  rewrite (LabelFacts.strip_padding pre p post Hpre Hpost).
  rewrite (LabelFacts.strip_padding pre' e post' Hpre' Hpost').
  split; [reflexivity |]. split.
  - intros Hlow. rewrite <- !LabelFacts.strip_lower, Hlow.
    apply String.eqb_refl.
  - apply String.eqb_sym.
Qed.

(** "  Traffic Light" followed by a newline matches "traffic light";
    "traffic_light" does not. *)
Lemma match_labels_ignores_padding_and_case_witness :
  ClientSpec.all_space "  " = true /\ ClientSpec.all_space LF = true
  /\ Orchestrator._match_labels ("  " ++ "Traffic Light" ++ LF)
                                "traffic light" = true
  /\ Orchestrator._match_labels "traffic_light" "traffic light" = false.
Proof.
  split; [reflexivity |]. split; [reflexivity |]. split; [| reflexivity].
  destruct (match_labels_ignores_padding_and_case
              "Traffic Light" "traffic light" "  " LF EmptyString EmptyString
              eq_refl eq_refl eq_refl eq_refl) as (Hpad & Hcase & _).
  etransitivity; [exact Hpad | exact (Hcase eq_refl)].
Defined.

(* ------------------------------------------------------------------ *)
(** ** A validation run *)

Module RunFacts.

Import DataLoader Keys Dataset Orchestrator.

Lemma pairwise_distinct_snoc (ids : list pyval) (k : pyval) :
  pairwise_distinct ids -> Forall (fun k' => key_eq k' k = false) ids ->
  pairwise_distinct (ids ++ [k]).
Proof.
  induction ids as [| a ids IH]; intros Hd Hk; cbn [app pairwise_distinct].
  - split; constructor.
  - destruct Hd as (Ha & Hd). inversion Hk as [| ? ? Hak Hk']; subst.
    split; [| apply IH; assumption].
    apply Forall_app. split; [exact Ha |]. constructor; [exact Hak | constructor].
Qed.

Section WithEnvironment.

Variable polygon_fill : list (num * num) -> result (Z -> Z -> bool).
Variable composite_pixel : PIL.pixel -> PIL.pixel -> PIL.pixel.
Variable open_rgb : ImageInfo -> result PIL.Image.
Variable image_to_png_bytes : PIL.Image -> result string.
Variable validate_crop :
  nat -> string -> pyval -> option string -> result GeminiValidator.GeminiResponse.
Variable sum_floats : list float -> float.
Variable dataset : CocoDataset.
Variable guidelines : option string.
Variable crop_config : ImageUtils.CropConfig.

Let process := process polygon_fill composite_pixel open_rgb
                       image_to_png_bytes validate_crop guidelines crop_config.
Let run_loop := run_loop polygon_fill composite_pixel open_rgb
                         image_to_png_bytes validate_crop dataset guidelines
                         crop_config.
Let entry_for := entry_for validate_crop dataset guidelines.

Lemma cached_image_ok (P : pyval -> Prop) (st : state)
                      (image_info : ImageInfo) :
  cache_ok P st -> P (image_ident image_info) ->
  cache_ok P (fst (cached_image open_rgb st image_info))
  /\ entries (fst (cached_image open_rgb st image_info)) = entries st.
Proof.
  intros (Hev & Hd & HP) Hid. unfold cached_image.
  destruct (negb (hashable (image_ident image_info)));
    [split; [repeat split; assumption | reflexivity] |].
  destruct (find (image_cache st) (image_ident image_info)) as [image |] eqn:Hf;
    [split; [repeat split; assumption | reflexivity] |].
  destruct (open_rgb image_info) as [e | image];
    [split; [repeat split; assumption | reflexivity] |].
  cbn [fst entries]. split; [| reflexivity].
  unfold cache_ok. cbn [events image_cache].
  rewrite !map_app. cbn [map fst]. rewrite Hev.
  split; [reflexivity |]. split.
  - apply pairwise_distinct_snoc; [exact Hd |].
    apply Forall_forall. intros k Hk. apply in_map_iff in Hk.
    destruct Hk as ([k' v] & <- & Hin).
    apply (LookupFacts.find_None _ _ Hf k' v Hin).
  - apply Forall_app. split; [exact HP |]. constructor; [exact Hid | constructor].
Qed.

Lemma make_entry_inv (image_info : ImageInfo) (ann : Annotation)
                     (category : Category)
                     (response : GeminiValidator.GeminiResponse)
                     (e : RunValidation.ValidationEntry) :
  make_entry image_info ann category response = ret e ->
  name category = VStr (RunValidation.expected_label e)
  /\ RunValidation.image_id e = image_ident image_info
  /\ RunValidation.annotation_id e = id ann
  /\ RunValidation.prediction_label e = GeminiValidator.prediction_label response
  /\ RunValidation.confidence e = GeminiValidator.confidence response
  /\ RunValidation.rationale e = GeminiValidator.rationale response
  /\ RunValidation.is_match e
     = _match_labels (RunValidation.prediction_label e)
                     (RunValidation.expected_label e).
Proof.
  unfold make_entry. intros H.
  destruct (name category) as [| | | | expected | |]; try discriminate.
  bind_steps H. injection H as <-. cbn. repeat split.
Qed.

Lemma process_ok (P : pyval -> Prop) (st : state) (image_info : ImageInfo)
                 (ann : Annotation) (category : Category) :
  cache_ok P st -> P (image_ident image_info) ->
  resolve dataset ann = inr (image_info, ann, category) ->
  cache_ok P (fst (process st (image_info, ann, category)))
  /\ match snd (process st (image_info, ann, category)) with
     | Some _ => True
     | None =>
         exists e,
           entries (fst (process st (image_info, ann, category)))
           = entries st ++ [e]
           /\ entry_for (List.length (entries st)) ann e
     end.
Proof.
  intros Hok Hid Hres. unfold process, Orchestrator.process.
  destruct (cached_image_ok P st image_info Hok Hid) as (Hok' & Hent).
  destruct (cached_image open_rgb st image_info) as [st' base]. cbn [fst] in *.
  match goal with
  | |- context [match ?step with inl _ => _ | inr _ => _ end] =>
      destruct step as [exc | e] eqn:Hstep
  end; cbn [fst snd].
  - split; [exact Hok' | exact I].
  - split.
    + destruct Hok' as (Hev & Hd & HP). repeat split; assumption.
    + exists e. cbn [entries]. rewrite Hent. split; [reflexivity |].
      bind_steps Hstep.
      match goal with
      | Hv : validate_crop _ ?bytes _ _ = ret ?response,
        Hm : make_entry _ _ _ _ = ret e |- _ =>
          rewrite Hent in Hv;
          exists image_info, category, bytes, response;
          split; [exact Hres |]; split; [exact Hv |];
          exact (make_entry_inv _ _ _ _ _ Hm)
      end.
Qed.

Lemma run_loop_ok (P : pyval -> Prop) (anns : list Annotation) :
  (forall ann image_info category,
      In ann anns -> resolve dataset ann = inr (image_info, ann, category) ->
      P (image_ident image_info)) ->
  forall st,
    cache_ok P st ->
    cache_ok P (fst (run_loop st anns))
    /\ (snd (run_loop st anns) = None ->
        exists new,
          entries (fst (run_loop st anns)) = entries st ++ new
          /\ List.length new = List.length anns
          /\ forall j ann,
               nth_error anns j = Some ann ->
               exists e, nth_error new j = Some e
                         /\ entry_for (List.length (entries st) + j)%nat ann e).
Proof.
  unfold run_loop.
  induction anns as [| ann rest IH]; intros HP st Hok; cbn [Orchestrator.run_loop].
  - split; [exact Hok |]. intros _. exists []. rewrite app_nil_r.
    repeat split. intros [| j] a Hj; discriminate Hj.
  - destruct (resolve dataset ann) as [e | [[image_info a] category]] eqn:Hres.
    + split; [exact Hok | discriminate].
    + destruct (LookupFacts.resolve_inv _ _ _ _ _ Hres) as (-> & _ & _).
      assert (Hid : P (image_ident image_info))
        by (apply (HP ann image_info category); [left; reflexivity | exact Hres]).
      destruct (process_ok P st image_info ann category Hok Hid Hres)
        as (Hok' & Hentry).
      fold process.
      destruct (process st (image_info, ann, category)) as [st' [err |]];
        cbn [fst snd] in *.
      * split; [exact Hok' | discriminate].
      * destruct Hentry as (e & He & Hof).
        destruct (IH (fun a i c Hin => HP a i c (or_intror Hin)) st' Hok')
          as (Hok'' & Hrest).
        split; [exact Hok'' |]. intros Hnone.
        destruct (Hrest Hnone) as (new & Hnew & Hlen & Hnth).
        exists (e :: new). rewrite Hnew, He, <- app_assoc.
        split; [reflexivity |]. split; [cbn; congruence |].
        intros [| j] a Hj; cbn [nth_error] in *.
        -- injection Hj as <-. exists e. split; [reflexivity |].
           rewrite Nat.add_0_r. exact Hof.
        -- destruct (Hnth j a Hj) as (e' & He' & Hof').
           exists e'. split; [exact He' |].
           rewrite He, length_app in Hof'. cbn [List.length] in Hof'.
           replace (List.length (entries st) + S j)%nat
             with (List.length (entries st) + 1 + j)%nat by lia.
           exact Hof'.
Qed.

End WithEnvironment.

End RunFacts.

(** X18. However a run of [run_validation] ends (with a report, with a
    lookup error of the dataset, or with an exception of decoding,
    cropping, encoding, the validator or the summary), every image it
    has loaded into its cache is closed, once, after the last load and
    in the order of loading; nothing else is closed. *)
Theorem run_validation_closes_loaded_images :
  forall (polygon_fill : list (num * num) -> result (Z -> Z -> bool))
         (composite_pixel : PIL.pixel -> PIL.pixel -> PIL.pixel)
         (open_rgb : DataLoader.ImageInfo -> result PIL.Image)
         (image_to_png_bytes : PIL.Image -> result string)
         (validate_crop : nat -> string -> pyval -> option string ->
                          result GeminiValidator.GeminiResponse)
         (sum_floats : list float -> float)
         (dataset : DataLoader.CocoDataset) (guidelines : option string)
         (crop_config : ImageUtils.CropConfig),
  exists ids,
    fst (Orchestrator.run_validation polygon_fill composite_pixel open_rgb
           image_to_png_bytes validate_crop sum_floats dataset guidelines
           crop_config)
    = map Orchestrator.Loaded ids ++ map Orchestrator.Closed ids.
Proof.
  intros fill comp open png validate sum ds g cfg.
  unfold Orchestrator.run_validation.
  destruct (RunFacts.run_loop_ok fill comp open png validate ds g cfg
              (fun _ => True) (DataLoader.annotations ds)
              (fun _ _ _ _ _ => I)
              {| Orchestrator.entries := []; Orchestrator.image_cache := [];
                 Orchestrator.events := [] |})
    as ((Hev & _ & _) & _).
  { repeat split; constructor. }
  destruct (Orchestrator.run_loop fill comp open png validate ds g cfg _ _)
    as [st failure]. cbn [fst] in Hev.
  exists (map fst (Orchestrator.image_cache st)).
  rewrite (map_map fst Orchestrator.Closed), <- Hev.
  destruct failure as [e |]; [reflexivity |].
  destruct (RunValidation._build_summary sum (Orchestrator.entries st));
    reflexivity.
Qed.

(** X19. [run_validation] decodes an image file at most once, however
    many annotations lie on the image: no two of the ids it loads are
    equal.  It loads only images that an annotation of the dataset
    refers to. *)
Theorem run_validation_loads_each_image_once :
  forall (polygon_fill : list (num * num) -> result (Z -> Z -> bool))
         (composite_pixel : PIL.pixel -> PIL.pixel -> PIL.pixel)
         (open_rgb : DataLoader.ImageInfo -> result PIL.Image)
         (image_to_png_bytes : PIL.Image -> result string)
         (validate_crop : nat -> string -> pyval -> option string ->
                          result GeminiValidator.GeminiResponse)
         (sum_floats : list float -> float)
         (dataset : DataLoader.CocoDataset) (guidelines : option string)
         (crop_config : ImageUtils.CropConfig),
  exists ids,
    filter (fun ev => match ev with
                      | Orchestrator.Loaded _ => true
                      | Orchestrator.Closed _ => false
                      end)
           (fst (Orchestrator.run_validation polygon_fill composite_pixel
                   open_rgb image_to_png_bytes validate_crop sum_floats
                   dataset guidelines crop_config))
    = map Orchestrator.Loaded ids
    /\ Orchestrator.pairwise_distinct ids
    /\ Forall (Orchestrator.referenced dataset) ids.
Proof.
  intros fill comp open png validate sum ds g cfg.
  unfold Orchestrator.run_validation.
  destruct (RunFacts.run_loop_ok fill comp open png validate ds g cfg
              (Orchestrator.referenced ds) (DataLoader.annotations ds))
    with (st := {| Orchestrator.entries := []; Orchestrator.image_cache := [];
                   Orchestrator.events := [] |})
    as ((Hev & Hd & HP) & _).
  { intros ann image category Hin Hres. exists ann, image, category.
    repeat split; assumption. }
  { repeat split; constructor. }
  destruct (Orchestrator.run_loop fill comp open png validate ds g cfg _ _)
    as [st failure]. cbn [fst] in Hev, Hd, HP.
  exists (map fst (Orchestrator.image_cache st)).
  split; [| split; assumption].
  assert (Htrace : forall ids,
            filter (fun ev => match ev with
                              | Orchestrator.Loaded _ => true
                              | Orchestrator.Closed _ => false
                              end)
                   (map Orchestrator.Loaded ids
                    ++ map Orchestrator.Closed ids)
            = map Orchestrator.Loaded ids).
  { intros ids. rewrite filter_app.
    replace (filter _ (map Orchestrator.Closed ids)) with (@nil Orchestrator.io_event)
      by (induction ids; [reflexivity | assumption]).
    rewrite app_nil_r. induction ids as [| k ids IH]; [reflexivity |].
    cbn [map filter]. f_equal. exact IH. }
  rewrite <- (Htrace (map fst (Orchestrator.image_cache st))).
  rewrite <- Hev, (map_map fst Orchestrator.Closed).
  destruct failure as [e |]; [reflexivity |].
  destruct (RunValidation._build_summary sum (Orchestrator.entries st));
    reflexivity.
Qed.

(** X20. When [run_validation] returns a report, the report has one
    entry per annotation of the dataset, in order; the entry of the
    [k]-th annotation carries that annotation's id, the id of its
    image, the name of its category as expected label, and the label,
    confidence and rationale that the [k]-th call of the validator
    returned for that expected label; its [is_match] is [_match_labels]
    of the two labels; and the summary counts exactly these entries. *)
Theorem run_validation_report :
  forall (polygon_fill : list (num * num) -> result (Z -> Z -> bool))
         (composite_pixel : PIL.pixel -> PIL.pixel -> PIL.pixel)
         (open_rgb : DataLoader.ImageInfo -> result PIL.Image)
         (image_to_png_bytes : PIL.Image -> result string)
         (validate_crop : nat -> string -> pyval -> option string ->
                          result GeminiValidator.GeminiResponse)
         (sum_floats : list float -> float)
         (dataset : DataLoader.CocoDataset) (guidelines : option string)
         (crop_config : ImageUtils.CropConfig)
         (trace : list Orchestrator.io_event)
         (entries : list RunValidation.ValidationEntry)
         (summary : RunValidation.ValidationSummary),
    Orchestrator.run_validation polygon_fill composite_pixel open_rgb
      image_to_png_bytes validate_crop sum_floats dataset guidelines
      crop_config
    = (trace, inr (entries, summary)) ->
    List.length entries = List.length (DataLoader.annotations dataset)
    /\ (forall k ann,
          nth_error (DataLoader.annotations dataset) k = Some ann ->
          exists e,
            nth_error entries k = Some e
            /\ Orchestrator.entry_for validate_crop dataset guidelines k ann e)
    /\ RunValidation.total summary = len (DataLoader.annotations dataset)
    /\ RunValidation.matches summary = RunValidation.count_matches entries
    /\ RunValidation.mismatches summary
       = RunValidation.total summary - RunValidation.matches summary.
Proof.
  intros fill comp open png validate sum ds g cfg trace entries summary Hrun.
  unfold Orchestrator.run_validation in Hrun.
  destruct (RunFacts.run_loop_ok fill comp open png validate ds g cfg
              (fun _ => True) (DataLoader.annotations ds)
              (fun _ _ _ _ _ => I)
              {| Orchestrator.entries := []; Orchestrator.image_cache := [];
                 Orchestrator.events := [] |})
    as (_ & Hentries).
  { repeat split; constructor. }
  destruct (Orchestrator.run_loop fill comp open png validate ds g cfg _ _)
    as [st failure]. cbn [fst snd] in Hentries.
  destruct failure as [e |]; [discriminate |].
  destruct (Hentries eq_refl) as (new & Hnew & Hlen & Hnth).
  cbn [Orchestrator.entries app List.length Nat.add] in Hnew, Hnth.
  destruct (RunValidation._build_summary sum (Orchestrator.entries st))
    as [exc | s] eqn:Hsum; [discriminate |].
  injection Hrun as _ <- <-. rewrite Hnew in *.
  split; [exact Hlen |]. split; [exact Hnth |].
  unfold RunValidation._build_summary in Hsum. bind_steps Hsum.
  injection Hsum as <-. cbn. unfold len. rewrite Hlen. repeat split.
Qed.

(** The sample dataset, three annotations on two images: image 10 is
    loaded once for its two annotations, the report has three entries
    and one match (" Cat" against "cat"). *)
Lemma run_validation_report_witness :
  exists trace entries summary,
    Orchestrator.run_validation Sample.fill_bounds Sample.keep_source
      Cases.open_sample Cases.png_sample (Cases.validator_sample 7)
      RunValidation.sum_left Cases.dataset None (Sample.config 0 true)
    = (trace, inr (entries, summary))
    /\ trace = [Orchestrator.Loaded (VInt 10); Orchestrator.Loaded (VInt 11);
                Orchestrator.Closed (VInt 10); Orchestrator.Closed (VInt 11)]
    /\ map RunValidation.is_match entries = [true; false; false]
    /\ List.length entries = List.length (DataLoader.annotations Cases.dataset)
    /\ RunValidation.total summary = 3.
Proof.
  do 3 eexists. split; [vm_compute; reflexivity |].
  split; [reflexivity |]. split; [reflexivity |].
  match goal with
  | |- List.length ?es = _ /\ RunValidation.total ?s = _ =>
      destruct (run_validation_report Sample.fill_bounds Sample.keep_source
                  Cases.open_sample Cases.png_sample (Cases.validator_sample 7)
                  RunValidation.sum_left Cases.dataset None
                  (Sample.config 0 true) _ es s eq_refl)
        as (Hlen & _ & Htotal & _)
  end.
  split; [exact Hlen | exact Htotal].
Defined.

(* ------------------------------------------------------------------ *)
(** ** Masking, and the file name of a saved crop *)

Module MaskEdgeFacts.

Import DataLoader ImageUtils.

(** The loop over [range(0, len(segment), 2)] reads [segment[i + 1]]
    past the end when the number of values is odd. *)
Lemma segment_points_odd (l t : Z) (values : list Z) :
  Nat.odd (List.length values) = true ->
  segment_points l t (map NInt values) = raise IndexError.
Proof.
  pattern values. apply MaskFacts.pair_induction.
  - discriminate.
  - reflexivity.
  - intros x y rest IH Hodd. cbn [map segment_points num_sub_int bind ret].
    change (Nat.odd (List.length (x :: y :: rest)))
      with (Nat.odd (List.length rest)) in Hodd.
    rewrite (IH Hodd). reflexivity.
Qed.

End MaskEdgeFacts.

(** X22. A polygon with an odd number of coordinates is accepted when
    the bounding box is computed but not when the mask is drawn: for an
    annotation whose first polygon has integer coordinates, an odd
    number of them, and whose crop rectangle is not inverted, a masked
    [crop_annotation] raises [IndexError], while with [mask_polygon]
    off the same call returns the crop. *)
Theorem odd_polygon_breaks_masking :
  forall (polygon_fill : list (num * num) -> result (Z -> Z -> bool))
         (composite_pixel : PIL.pixel -> PIL.pixel -> PIL.pixel)
         (image : PIL.Image) (a : DataLoader.Annotation)
         (config : ImageUtils.CropConfig)
         (polygon : list Z) (rest : list pyval) (l t r b : Z),
    DataLoader.segmentation a = VList (VList (map VInt polygon) :: rest) ->
    Nat.odd (List.length polygon) = true ->
    ImageUtils.crop_box image a config = ret (l, t, r, b) ->
    l <= r -> t <= b ->
    ImageUtils.crop_annotation polygon_fill composite_pixel image a
      (Some config)
    = (if ImageUtils.mask_polygon config then raise IndexError
       else ret (PIL.window image l t r b)).
Proof.
  intros fill comp image a config polygon rest l t r b Hseg Hodd Hbox Hlr Htb.
  unfold ImageUtils.crop_annotation. rewrite Hbox. cbn [bind ret].
  unfold PIL.crop.
  destruct (Z.ltb_spec r l) as [Hbad |]; [lia |].
  destruct (Z.ltb_spec b t) as [Hbad |]; [lia |].
  cbn [bind ret]. unfold DataLoader.has_polygon. rewrite Hseg.
  cbn [truthy andb].
  destruct (ImageUtils.mask_polygon config); [| reflexivity].
  unfold ImageUtils.apply_mask, py_or. rewrite Hseg.
  cbn [truthy py_iter bind ret ImageUtils.draw_segments
       ImageUtils.segment_values].
  rewrite PolygonFacts.numbers_ints. cbn [bind ret].
  rewrite (MaskEdgeFacts.segment_points_odd l t polygon Hodd). reflexivity.
Qed.

(** A triangle with a stray seventh value, in an annotation that also
    has a bbox. *)
Lemma odd_polygon_breaks_masking_witness :
  ImageUtils.crop_box Sample.base_image
    (Sample.annotation (Sample.ints [16; 16; 32; 32])
       (VList [VList (map VInt [16; 16; 48; 16; 32; 48; 7])]))
    (Sample.config 0 true)
  = ret (16, 16, 48, 48)
  /\ ImageUtils.crop_annotation Sample.fill_bounds Sample.keep_source
       Sample.base_image
       (Sample.annotation (Sample.ints [16; 16; 32; 32])
          (VList [VList (map VInt [16; 16; 48; 16; 32; 48; 7])]))
       (Some (Sample.config 0 true))
     = raise IndexError.
Proof.
  split; [reflexivity |].
  apply (odd_polygon_breaks_masking Sample.fill_bounds Sample.keep_source
           Sample.base_image
           (Sample.annotation (Sample.ints [16; 16; 32; 32])
              (VList [VList (map VInt [16; 16; 48; 16; 32; 48; 7])]))
           (Sample.config 0 true) [16; 16; 48; 16; 32; 48; 7] []
           16 16 48 48 eq_refl eq_refl eq_refl); lia.
Defined.

Module FileNameFacts.

Import Demo.

Lemma chars_app (s t : string) :
  list_ascii_of_string (s ++ t)
  = list_ascii_of_string s ++ list_ascii_of_string t.
Proof.
  induction s as [| c s IH]; [reflexivity |].
  cbn [append list_ascii_of_string app]. rewrite IH. reflexivity.
Qed.

Lemma replace_char_length (old new : ascii) (s : string) :
  String.length (replace_char old new s) = String.length s.
Proof.
  induction s as [| c s IH]; [reflexivity |].
  cbn [replace_char String.length]. rewrite IH. reflexivity.
Qed.

Lemma replace_char_chars (old new : ascii) (s : string) (c : ascii) :
  In c (list_ascii_of_string (replace_char old new s)) ->
  c = new \/ (c <> old /\ In c (list_ascii_of_string s)).
Proof.
  induction s as [| a s IH]; [contradiction |].
  cbn [replace_char list_ascii_of_string In].
  intros [Hc | Hc].
  - destruct (Ascii.eqb_spec a old) as [-> | Hne].
    + left. symmetry. exact Hc.
    + right. subst c. split; [exact Hne | left; reflexivity].
  - destruct (IH Hc) as [Hn | (Hne & Hin)];
      [left; exact Hn | right; split; [exact Hne | right; exact Hin]].
Qed.

Lemma replace_char_absent (old new : ascii) (s : string) :
  ~ In old (list_ascii_of_string s) -> replace_char old new s = s.
Proof.
  induction s as [| a s IH]; intros H; [reflexivity |].
  cbn [replace_char]. cbn [list_ascii_of_string In] in H.
  destruct (Ascii.eqb_spec a old) as [-> | _]; [exfalso; apply H; left; reflexivity |].
  rewrite IH; [reflexivity |]. intros Hin. apply H. right. exact Hin.
Qed.

Lemma safe_label_chars (label : string) (c : ascii) :
  In c (list_ascii_of_string (safe_label label)) -> c <> SPACE /\ c <> SLASH.
Proof.
  unfold safe_label. intros H.
  apply replace_char_chars in H. destruct H as [-> | (Hslash & H)].
  - split; discriminate.
  - split; [| exact Hslash].
    apply replace_char_chars in H. destruct H as [-> | (Hspace & _)];
      [discriminate | exact Hspace].
Qed.

End FileNameFacts.

(** X21. The label part of a crop's file name is the label with every
    space and every slash turned into an underscore and nothing else
    changed: it has the length of the label, holds neither character,
    and is the label itself when the label holds neither.  So the file
    name has no slash, and names a file directly in the crops
    directory, whenever the text of the annotation id has none. *)
Theorem crop_filename_is_sanitized :
  forall annotation_id label : string,
    String.length (Demo.safe_label label) = String.length label
    /\ (forall c, In c (list_ascii_of_string (Demo.safe_label label)) ->
                  c <> Demo.SPACE /\ c <> Demo.SLASH)
    /\ (~ In Demo.SPACE (list_ascii_of_string label) ->
        ~ In Demo.SLASH (list_ascii_of_string label) ->
        Demo.safe_label label = label)
    /\ (~ In Demo.SLASH (list_ascii_of_string annotation_id) ->
        ~ In Demo.SLASH
             (list_ascii_of_string (Demo.crop_filename annotation_id label))).
Proof.
  intros ident label. split; [| split; [| split]].
  - unfold Demo.safe_label. rewrite !FileNameFacts.replace_char_length.
    reflexivity.
  - apply FileNameFacts.safe_label_chars.
  - intros Hspace Hslash. unfold Demo.safe_label.
    rewrite (FileNameFacts.replace_char_absent Demo.SPACE _ label Hspace).
    apply FileNameFacts.replace_char_absent, Hslash.
  - intros Hid. unfold Demo.crop_filename.
    rewrite !FileNameFacts.chars_app, !in_app_iff.
    intros [H | [H | [H | [H | H]]]].
    + revert H. vm_compute. intuition discriminate.
    + exact (Hid H).
    + revert H. vm_compute. intuition discriminate.
    + apply FileNameFacts.safe_label_chars in H. destruct H as (_ & H).
      apply H. reflexivity.
    + revert H. vm_compute. intuition discriminate.
Qed.

(** The crop of annotation 12, labelled "traffic light/red". *)
Lemma crop_filename_is_sanitized_witness :
  ~ In Demo.SLASH (list_ascii_of_string "12")
  /\ Demo.crop_filename "12" "traffic light/red"
     = "crop_12_traffic_light_red.png"%string
  /\ ~ In Demo.SLASH
         (list_ascii_of_string (Demo.crop_filename "12" "traffic light/red")).
Proof.
  assert (Hid : ~ In Demo.SLASH (list_ascii_of_string "12"))
    by (vm_compute; intuition discriminate).
  split; [exact Hid |]. split; [reflexivity |].
  destruct (crop_filename_is_sanitized "12" "traffic light/red")
    as (_ & _ & _ & Hname).
  exact (Hname Hid).
Defined.

(* ------------------------------------------------------------------ *)
(** ** The demo run *)

Module DemoFacts.

Import DataLoader Keys Dataset DemoRun.

Lemma iter_from_complete (ds : CocoDataset) (anns : list Annotation) :
  snd (iter_from ds anns) = None ->
  forall ann, In ann anns -> exists triple, resolve ds ann = inr triple.
Proof.
  induction anns as [| a rest IH]; intros Hnone ann Hin; [contradiction |].
  cbn [iter_from] in Hnone.
  destruct (resolve ds a) as [e | triple] eqn:Hres; [discriminate |].
  destruct (iter_from ds rest) as [triples e]. cbn [snd] in *.
  destruct Hin as [<- | Hin]; [exists triple; exact Hres | apply IH; assumption].
Qed.

Section WithEnvironment.

Variable polygon_fill : list (num * num) -> result (Z -> Z -> bool).
Variable composite_pixel : PIL.pixel -> PIL.pixel -> PIL.pixel.
Variable open_rgb : ImageInfo -> result PIL.Image.
Variable image_to_png_bytes : PIL.Image -> result string.
Variable mkdir : nat -> result unit.
Variable save : nat -> string -> PIL.Image -> result unit.
Variable str_of : pyval -> string.
Variable str_exn : exn -> string.
Variable validator :
  option (nat -> string -> pyval -> result GeminiValidator.GeminiResponse).
Variable dataset : CocoDataset.

Let result_of := result_of polygon_fill composite_pixel image_to_png_bytes
                           mkdir save str_of str_exn validator.
Let process := process polygon_fill composite_pixel open_rgb
                       image_to_png_bytes mkdir save str_of str_exn validator.
Let run_loop := run_loop polygon_fill composite_pixel open_rgb
                         image_to_png_bytes mkdir save str_of str_exn
                         validator dataset.

Lemma save_crop_path (k : nat) (crop : PIL.Image) (ident label : pyval)
                     (path : string) :
  save_crop mkdir save str_of k crop ident label = ret path ->
  path <> EmptyString.
Proof.
  unfold save_crop. intros H. bind_steps H.
  destruct label; try discriminate. bind_steps H.
  injection H as <-. discriminate.
Qed.

Lemma result_of_well_formed (k : nat) (base_image : PIL.Image)
                            (image_info : ImageInfo) (ann : Annotation)
                            (category : Category) :
  well_formed (result_of k base_image image_info ann category)
  /\ annotation_id (result_of k base_image image_info ann category) = id ann
  /\ (validator = None ->
      confidence (result_of k base_image image_info ann category) = None).
Proof.
  unfold result_of, DemoRun.result_of.
  match goal with
  | |- context [match ?step with inl _ => _ | inr _ => _ end] =>
      destruct step as [e | [crop path]] eqn:Hstep
  end.
  - split; [| split; [reflexivity | reflexivity]].
    left. cbn. repeat split. discriminate.
  - assert (Hpath : path <> EmptyString).
    { bind_steps Hstep. injection Hstep as <- <-.
      eapply save_crop_path. eassumption. }
    unfold validate. destruct validator as [validate_crop |].
    + match goal with
      | |- context [match ?call with inl _ => _ | inr _ => _ end] =>
          destruct call as [e | response]
      end; cbn.
      * split; [| split; [reflexivity | discriminate]].
        right. split; [exact Hpath |]. left. split; reflexivity.
      * split; [| split; [reflexivity | discriminate]].
        right. split; [exact Hpath |]. right. repeat split; discriminate.
    + cbn. split; [| split; reflexivity].
      right. split; [exact Hpath |]. left. split; reflexivity.
Qed.

(** What holds of the state at every point of the loop. *)
Lemma cached_image_state (st : state) (image_info : ImageInfo) :
  events st = map Orchestrator.Loaded (map fst (image_cache st)) ->
  events (fst (cached_image open_rgb st image_info))
  = map Orchestrator.Loaded
        (map fst (image_cache (fst (cached_image open_rgb st image_info))))
  /\ results (fst (cached_image open_rgb st image_info)) = results st
  /\ (hashable (image_ident image_info) = true ->
      (exists image, open_rgb image_info = ret image) ->
      exists image, snd (cached_image open_rgb st image_info) = ret image).
Proof.
  intros Hev. unfold cached_image.
  destruct (hashable (image_ident image_info)); cbn [negb].
  - destruct (find (image_cache st) (image_ident image_info)) as [image |].
    + repeat split; [exact Hev |]. intros _ _. exists image. reflexivity.
    + destruct (open_rgb image_info) as [e | image]; cbn [fst snd].
      * repeat split; [exact Hev |]. intros _ (image & Himage). discriminate.
      * cbn [events image_cache results]. rewrite !map_app, Hev.
        repeat split. intros _ _. exists image. reflexivity.
  - repeat split; [exact Hev |]. intros Hh. discriminate.
Qed.

Lemma run_loop_state (anns : list Annotation) :
  forall st,
    events st = map Orchestrator.Loaded (map fst (image_cache st)) ->
    Forall well_formed (results st) ->
    (validator = None -> gemini_results (results st) = []) ->
    events (fst (run_loop st anns))
    = map Orchestrator.Loaded (map fst (image_cache (fst (run_loop st anns))))
    /\ Forall well_formed (results (fst (run_loop st anns)))
    /\ (validator = None ->
        gemini_results (results (fst (run_loop st anns))) = []).
Proof.
  unfold run_loop.
  induction anns as [| ann rest IH]; intros st Hev Hwf Hnone;
    cbn [DemoRun.run_loop]; [repeat split; assumption |].
  destruct (resolve dataset ann) as [e | [[image_info a] category]];
    [repeat split; assumption |].
  unfold DemoRun.process.
  destruct (cached_image_state st image_info Hev) as (Hev' & Hres & _).
  destruct (cached_image open_rgb st image_info) as [st' [e | base]];
    cbn [fst snd] in *.
  - rewrite Hres. repeat split; assumption.
  - apply IH; cbn [events image_cache results].
    + exact Hev'.
    + rewrite Hres. apply Forall_app. split; [exact Hwf |].
      constructor; [| constructor]. apply result_of_well_formed.
    + intros Hv. rewrite Hres. unfold gemini_results. rewrite filter_app.
      fold (gemini_results (results st)). rewrite (Hnone Hv).
      cbn [filter app].
      destruct (result_of_well_formed (List.length (results st)) base
                  image_info a category) as (_ & _ & Hconf).
      fold result_of. rewrite (Hconf Hv). reflexivity.
Qed.

Lemma run_loop_completes (anns : list Annotation) :
  (forall ann, In ann anns ->
     exists image_info category,
       resolve dataset ann = inr (image_info, ann, category)
       /\ hashable (image_ident image_info) = true
       /\ exists image, open_rgb image_info = ret image) ->
  forall st,
    events st = map Orchestrator.Loaded (map fst (image_cache st)) ->
    snd (run_loop st anns) = None
    /\ exists new,
         results (fst (run_loop st anns)) = results st ++ new
         /\ List.length new = List.length anns
         /\ forall k ann, nth_error anns k = Some ann ->
              exists r, nth_error new k = Some r /\ annotation_id r = id ann.
Proof.
  unfold run_loop.
  induction anns as [| ann rest IH]; intros Hall st Hev;
    cbn [DemoRun.run_loop].
  - split; [reflexivity |]. exists []. rewrite app_nil_r.
    repeat split. intros [| k] a Hk; discriminate Hk.
  - destruct (Hall ann (or_introl eq_refl))
      as (image_info & category & Hres & Hh & Hopen).
    rewrite Hres. unfold DemoRun.process.
    destruct (cached_image_state st image_info Hev) as (Hev' & Hst & Hbase).
    destruct (Hbase Hh Hopen) as (base & Hb).
    destruct (cached_image open_rgb st image_info) as [st' b].
    cbn [fst snd] in *. subst b. cbv beta iota zeta delta [ret].
    match goal with
    | |- context [DemoRun.run_loop _ _ _ _ _ _ _ _ _ _ ?s rest] =>
        destruct (IH (fun a Hin => Hall a (or_intror Hin)) s Hev')
          as (Hnone & new & Hnew & Hlen & Hnth)
    end.
    split; [exact Hnone |].
    eexists (_ :: new). rewrite Hnew. cbn [results]. rewrite Hst, <- app_assoc.
    split; [reflexivity |]. split; [cbn; congruence |].
    intros [| k] a Hk; cbn [nth_error] in *.
    + injection Hk as <-. eexists. split; [reflexivity |].
      apply result_of_well_formed.
    + apply Hnth, Hk.
Qed.

End WithEnvironment.

Lemma counts_ordered (rs : list DemoResult) :
  Forall well_formed rs ->
  len (gemini_results rs) <= len (successful_crops rs) <= len rs.
Proof.
  unfold len, gemini_results, successful_crops.
  induction 1 as [| r rs Hr _ IH]; cbn [filter List.length]; [lia |].
  destruct (String.eqb_spec (crop_path r) EmptyString) as [Hp | Hp];
    cbn [negb].
  - destruct Hr as [(_ & Hc & _) | (Hne & _)]; [| contradiction].
    rewrite Hc. cbn [List.length]. lia.
  - destruct (confidence r); cbn [List.length]; lia.
Qed.

End DemoFacts.

(** X23. The demo run isolates failures: when every annotation of the
    dataset has its image and category, the ids of the images are
    hashable and the image files decode, the loop of [run_demo] ends
    normally and records exactly one result per annotation, in order,
    whatever happens while an annotation is cropped, saved, encoded or
    validated; a failure there is recorded in the result of that
    annotation and the run goes on. *)
Theorem run_demo_records_every_annotation :
  forall (polygon_fill : list (num * num) -> result (Z -> Z -> bool))
         (composite_pixel : PIL.pixel -> PIL.pixel -> PIL.pixel)
         (open_rgb : DataLoader.ImageInfo -> result PIL.Image)
         (image_to_png_bytes : PIL.Image -> result string)
         (mkdir : nat -> result unit)
         (save : nat -> string -> PIL.Image -> result unit)
         (str_of : pyval -> string) (str_exn : exn -> string)
         (validator : option (nat -> string -> pyval ->
                              result GeminiValidator.GeminiResponse))
         (dataset : DataLoader.CocoDataset),
    snd (Dataset.iter_annotations dataset) = None ->
    (forall image_info,
        In image_info (map snd (DataLoader.images dataset)) ->
        Keys.hashable (DataLoader.image_ident image_info) = true
        /\ exists image, open_rgb image_info = ret image) ->
    exists trace results,
      DemoRun.process_annotations polygon_fill composite_pixel open_rgb
        image_to_png_bytes mkdir save str_of str_exn validator dataset
      = (trace, inr results)
      /\ List.length results = List.length (DataLoader.annotations dataset)
      /\ forall k ann,
           nth_error (DataLoader.annotations dataset) k = Some ann ->
           exists r, nth_error results k = Some r
                     /\ DemoRun.annotation_id r = DataLoader.id ann.
Proof.
  intros fill comp open png mkdir save str_of str_exn validator ds Hiter Hopen.
  unfold DemoRun.process_annotations.
  destruct (DemoFacts.run_loop_completes fill comp open png mkdir save str_of
              str_exn validator ds (DataLoader.annotations ds))
    with (st := {| DemoRun.results := []; DemoRun.image_cache := [];
                   DemoRun.events := [] |})
    as (Hnone & new & Hnew & Hlen & Hnth).
  { intros ann Hin.
    destruct (DemoFacts.iter_from_complete ds _ Hiter ann Hin)
      as ([[image_info a] category] & Hres).
    destruct (LookupFacts.resolve_inv _ _ _ _ _ Hres) as (-> & Hfind & _).
    exists image_info, category. split; [exact Hres |].
    apply Hopen. apply LookupFacts.find_Some in Hfind.
    destruct Hfind as (k & Hin' & _).
    apply in_map_iff. exists (k, image_info). split; [reflexivity | exact Hin']. }
  { reflexivity. }
  destruct (DemoRun.run_loop fill comp open png mkdir save str_of str_exn
              validator ds _ _) as [st failure].
  cbn [fst snd] in *. subst failure. cbn [DemoRun.results app] in Hnew.
  do 2 eexists. split; [reflexivity |]. rewrite Hnew.
  split; [exact Hlen | exact Hnth].
Qed.

(** The sample dataset on a disk that refuses the second crop, with a
    validator that fails on the third annotation: three results, the
    second without a crop path, the third without a confidence. *)
Lemma run_demo_records_every_annotation_witness :
  snd (Dataset.iter_annotations Cases.dataset) = None
  /\ exists trace results,
       DemoRun.process_annotations Sample.fill_bounds Sample.keep_source
         Cases.open_sample Cases.png_sample Cases.mkdir_sample
         (Cases.save_sample 1) Cases.str_of_sample Cases.str_exn_sample
         (Some (Cases.demo_validator 2)) Cases.dataset
       = (trace, inr results)
       /\ map DemoRun.crop_path results
          = ["crops/crop_100_cat.png"; EmptyString; "crops/crop_102_dog.png"]%string
       /\ map DemoRun.error results = [None; Some "failed"; Some "failed"]%string
       /\ List.length results
          = List.length (DataLoader.annotations Cases.dataset).
Proof.
  split; [reflexivity |].
  destruct (run_demo_records_every_annotation Sample.fill_bounds
              Sample.keep_source Cases.open_sample Cases.png_sample
              Cases.mkdir_sample (Cases.save_sample 1) Cases.str_of_sample
              Cases.str_exn_sample (Some (Cases.demo_validator 2))
              Cases.dataset eq_refl)
    as (trace & results & Hrun & Hlen & _).
  - intros image_info Hin. split; [| eexists; reflexivity].
    destruct Hin as [<- | [<- | []]]; reflexivity.
  - exists trace, results. split; [exact Hrun |].
    vm_compute in Hrun. injection Hrun as <- <-.
    split; [reflexivity |]. split; [reflexivity | exact Hlen].
Defined.

(** X24. Whatever happens in the demo run: the images it has loaded
    are closed, once each and after the last load, also when the run
    is ended by an exception; and when the loop ends normally every
    result either has no crop path, an error and nothing from the
    validator, or has a crop path and then the validator's confidence
    and answer together with no error, or neither of them.  So the
    results with a confidence are among those with a crop path
    ([gemini_validations <= total_crops_saved <= total_annotations]),
    and without a validator no result has a confidence. *)
Theorem run_demo_results_are_consistent :
  forall (polygon_fill : list (num * num) -> result (Z -> Z -> bool))
         (composite_pixel : PIL.pixel -> PIL.pixel -> PIL.pixel)
         (open_rgb : DataLoader.ImageInfo -> result PIL.Image)
         (image_to_png_bytes : PIL.Image -> result string)
         (mkdir : nat -> result unit)
         (save : nat -> string -> PIL.Image -> result unit)
         (str_of : pyval -> string) (str_exn : exn -> string)
         (validator : option (nat -> string -> pyval ->
                              result GeminiValidator.GeminiResponse))
         (dataset : DataLoader.CocoDataset),
    let run :=
      DemoRun.process_annotations polygon_fill composite_pixel open_rgb
        image_to_png_bytes mkdir save str_of str_exn validator dataset in
    (exists ids,
        fst run = map Orchestrator.Loaded ids ++ map Orchestrator.Closed ids)
    /\ forall results,
         snd run = inr results ->
         Forall DemoRun.well_formed results
         /\ len (DemoRun.gemini_results results)
            <= len (DemoRun.successful_crops results) <= len results
         /\ (validator = None -> DemoRun.gemini_results results = []).
Proof.
  intros fill comp open png mkdir save str_of str_exn validator ds run.
  unfold run, DemoRun.process_annotations.
  destruct (DemoFacts.run_loop_state fill comp open png mkdir save str_of
              str_exn validator ds (DataLoader.annotations ds)
              {| DemoRun.results := []; DemoRun.image_cache := [];
                 DemoRun.events := [] |})
    as (Hev & Hwf & Hnone); [reflexivity | constructor | reflexivity |].
  destruct (DemoRun.run_loop fill comp open png mkdir save str_of str_exn
              validator ds _ _) as [st failure].
  cbn [fst] in Hev, Hwf, Hnone.
  split.
  - exists (map fst (DemoRun.image_cache st)).
    rewrite (map_map fst Orchestrator.Closed), <- Hev.
    destruct failure; reflexivity.
  - intros results Hres. destruct failure as [e |]; [discriminate |].
    injection Hres as <-.
    split; [exact Hwf |].
    split; [apply DemoFacts.counts_ordered, Hwf | exact Hnone].
Qed.

(** Without a validator, the sample run saves three crops and asks
    nothing. *)
Lemma run_demo_results_are_consistent_witness :
  exists trace results,
    DemoRun.process_annotations Sample.fill_bounds Sample.keep_source
      Cases.open_sample Cases.png_sample Cases.mkdir_sample
      (Cases.save_sample 7) Cases.str_of_sample Cases.str_exn_sample
      None Cases.dataset
    = (trace, inr results)
    /\ trace = [Orchestrator.Loaded (VInt 10); Orchestrator.Loaded (VInt 11);
                Orchestrator.Closed (VInt 10); Orchestrator.Closed (VInt 11)]
    /\ len (DemoRun.successful_crops results) = 3
    /\ DemoRun.gemini_results results = [].
Proof.
  do 2 eexists. split; [vm_compute; reflexivity |].
  split; [reflexivity |]. split; [reflexivity |].
  destruct (run_demo_results_are_consistent Sample.fill_bounds
              Sample.keep_source Cases.open_sample Cases.png_sample
              Cases.mkdir_sample (Cases.save_sample 7) Cases.str_of_sample
              Cases.str_exn_sample None Cases.dataset) as (_ & Hres).
  destruct (Hres _ eq_refl) as (_ & _ & Hnone). exact (Hnone eq_refl).
Defined.

(** X25. A reply that decodes but is not a JSON object ends the call
    at once, whatever the retry budget: when the first reply passes the
    status check and either its payload is not an object, or the text
    of its first candidate (fences and whitespace removed) is valid
    JSON for something else than an object (a list, a string, a
    number), [validate_crop] makes this one request and raises
    [AttributeError], which the retry handler does not catch. *)
Theorem non_object_reply_is_not_retried :
  forall (format_template : string -> string -> result string)
         (b64encode : string -> string)
         (json_loads : string -> option pyval)
         (requests_post : Z -> pyval -> result GeminiValidator.Response)
         (self : GeminiValidator.GeminiValidator) (fuel : nat)
         (crop_bytes expected_label : string) (guidelines : option string)
         (body : pyval) (r : GeminiValidator.Response) (payload : pyval),
    GeminiValidator._build_request_body format_template b64encode self
      crop_bytes expected_label guidelines = ret body ->
    (0 < fuel)%nat ->
    requests_post 1 body = ret r ->
    Client.is_http_error r = false ->
    GeminiValidator.json r = ret payload ->
    ((forall d, payload <> VDict d)
     \/ exists text v,
          GeminiValidator.candidate_text payload = ret text
          /\ json_loads (GeminiValidator.strip_fences text) = Some v
          /\ forall d, v <> VDict d) ->
    GeminiValidator.validate_crop format_template b64encode json_loads
      requests_post self fuel crop_bytes expected_label guidelines
    = Some ([GeminiValidator.Request 1], raise AttributeError).
Proof.
  intros fmt b64 loads post self fuel crop label guidelines body r payload
         Hbody Hfuel Hpost Hstatus Hjson Hshape.
  unfold GeminiValidator.validate_crop. rewrite Hbody.
  cbv beta iota delta [ret].
  apply (RetryFacts.retry_loop_run loads post self body 0 fuel 0 []
           (raise AttributeError)).
  - exact Hfuel.
  - intros i Hi. lia.
  - cbn [Z.of_nat Z.add].
    unfold GeminiValidator.try_once, GeminiValidator._execute_request.
    rewrite Hpost. cbn [bind ret].
    unfold Client.is_http_error in Hstatus.
    unfold GeminiValidator.raise_for_status. rewrite Hstatus.
    replace (_ <- (if negb (GeminiValidator.status_code r =? 200)
                   then ret tt else ret tt) ;; GeminiValidator.json r)
      with (GeminiValidator.json r)
      by (destruct (negb (GeminiValidator.status_code r =? 200)); reflexivity).
    rewrite Hjson. cbn [bind ret].
    destruct Hshape as [Hpayload | (text & v & Htext & Hv & Hnot)].
    + unfold GeminiValidator._parse_candidate, GeminiValidator.candidate_text.
      destruct payload; try reflexivity. exfalso. eapply Hpayload. reflexivity.
    + rewrite (ParseFacts.parse_candidate_text loads payload text Htext).
      apply (ParseFacts.parse_text_not_object loads text v Hv Hnot).
  - left. reflexivity.
Qed.

(** The answer "[]", with a budget of three attempts. *)
Lemma non_object_reply_is_not_retried_witness :
  GeminiValidator.validate_crop StrFormat.format Base64.b64encode Json.loads
    (Cases.replying 200 "[]") (Sample.validator 3) 3 "png" "cat" None
  = Some ([GeminiValidator.Request 1], raise AttributeError).
Proof.
  apply (non_object_reply_is_not_retried StrFormat.format Base64.b64encode
           Json.loads (Cases.replying 200 "[]") (Sample.validator 3) 3
           "png" "cat" None Sample.body_for_cat
           {| GeminiValidator.status_code := 200;
              GeminiValidator.json := ret (Sample.payload_of_text "[]") |}
           (Sample.payload_of_text "[]")).
  - reflexivity.
  - lia.
  - reflexivity.
  - reflexivity.
  - reflexivity.
  - right. exists "[]"%string, (VList []).
    split; [reflexivity |]. split; [reflexivity |]. intros d. discriminate.
Defined.
